(** * Storage health monitor: the client node's collection-and-delivery run

    A shallow embedding of [client_node/disk_monitor.py] and
    [client_node/utils.py], followed by the properties of the run that the
    specification states.

    Layout of the embedding:
    - [PyStr]: the few [str] methods the program calls;
    - [PyPath]: the [os.path] functions it calls (POSIX flavour);
    - exceptions, results, the process state and its monad;
    - [Os]: the operating-system calls, on a small file-system model;
    - [Utils] and [DiskMonitor]: the two source files, function by function. *)

From stdpp Require Import gmap strings list fin_maps pretty.
From Stdlib Require Import ZArith QArith String Ascii.

Open Scope string_scope.
Open Scope Z_scope.

(* ===================================================================== *)
(** ** Python [str] methods                                               *)
(* ===================================================================== *)

(** Text is a [string] whose characters are code points below 256. *)
Module PyStr.

Definition code (c : ascii) : nat := nat_of_ascii c.

(** [c.isspace()]: the white-space code points below 256. *)
Definition is_space (c : ascii) : bool :=
  let n := code c in
  ((9 <=? n) && (n <=? 13) || (28 <=? n) && (n <=? 32)
   || (n =? 133) || (n =? 160))%nat.

(** The line boundaries [str.splitlines] recognises (below 256). *)
Definition is_linebreak (c : ascii) : bool :=
  let n := code c in
  ((10 <=? n) && (n <=? 13) || (28 <=? n) && (n <=? 30) || (n =? 133))%nat.

Definition is_cr (c : ascii) : bool := (code c =? 13)%nat.
Definition is_lf (c : ascii) : bool := (code c =? 10)%nat.

Definition is_empty (s : string) : bool :=
  match s with "" => true | _ => false end.

Definition snoc (s : string) (c : ascii) : string := s ++ String c "".

(** [s.splitlines()]; [cur] is the line read so far. A line break that
    ends the text opens no further line, and CR LF counts once. *)
Fixpoint splitlines_from (cur : string) (s : string) : list string :=
  match s with
  | "" => if is_empty cur then [] else [cur]
  | String c s' =>
      if is_linebreak c then
        match s' with
        | String c' s'' =>
            if is_cr c && is_lf c' then cur :: splitlines_from "" s''
            else cur :: splitlines_from "" s'
        | "" => [cur]
        end
      else splitlines_from (snoc cur c) s'
  end.

Definition splitlines (s : string) : list string := splitlines_from "" s.

(** [s.lstrip()], [s.rstrip()], [s.strip()] *)
Fixpoint lstrip (s : string) : string :=
  match s with
  | "" => ""
  | String c s' => if is_space c then lstrip s' else s
  end.

Fixpoint rstrip_by (drop : ascii -> bool) (s : string) : string :=
  match s with
  | "" => ""
  | String c s' =>
      let r := rstrip_by drop s' in
      if is_empty r && drop c then "" else String c r
  end.

Definition rstrip (s : string) : string := rstrip_by is_space s.
Definition strip (s : string) : string := rstrip (lstrip s).

(** [s.rstrip(ch)] for a one-character argument *)
Definition rstrip_char (ch : ascii) (s : string) : string :=
  rstrip_by (Ascii.eqb ch) s.

(** [s.split()]: maximal runs of non-space characters. *)
Fixpoint split_from (cur : string) (s : string) : list string :=
  match s with
  | "" => if is_empty cur then [] else [cur]
  | String c s' =>
      if is_space c then
        if is_empty cur then split_from "" s' else cur :: split_from "" s'
      else split_from (snoc cur c) s'
  end.

Definition split (s : string) : list string := split_from "" s.

(** [s.replace(a, b)] for one-character [a] and [b] *)
Fixpoint replace_char (a b : ascii) (s : string) : string :=
  match s with
  | "" => ""
  | String c s' =>
      String (if Ascii.eqb c a then b else c) (replace_char a b s')
  end.

(** [needle in hay] *)
Fixpoint contains (needle hay : string) : bool :=
  String.prefix needle hay
  || match hay with
     | "" => false
     | String _ hay' => contains needle hay'
     end.

(** [str(n)] for an [int] *)
Definition of_int (n : Z) : string := pretty n.

End PyStr.

(* ===================================================================== *)
(** ** [os.path] (posixpath)                                              *)
(* ===================================================================== *)

Module PyPath.

Definition sep : ascii := "/"%char.

(** [p[:i], p[i:]] for [i = p.rfind('/') + 1] *)
Fixpoint split_last (p : string) : string * string :=
  match p with
  | "" => ("", "")
  | String c p' =>
      let '(h, t) := split_last p' in
      if negb (PyStr.is_empty h) then (String c h, t)
      else if Ascii.eqb c sep then (String c "", t)
      else ("", String c t)
  end.

(** [os.path.dirname(p)]: the head, without its trailing separators
    unless it consists of separators only. *)
Definition dirname (p : string) : string :=
  let h := fst (split_last p) in
  let h' := PyStr.rstrip_char sep h in
  if PyStr.is_empty h' then h else h'.

(** [os.path.basename(p)] *)
Definition basename (p : string) : string := snd (split_last p).

Definition ends_with_sep (a : string) : bool :=
  match PyStr.rstrip_char sep a, a with
  | _, "" => false
  | r, _ => negb (String.eqb r a)
  end.

(** [os.path.join(a, b)] *)
Definition join (a b : string) : string :=
  match b with
  | String c _ =>
      if Ascii.eqb c sep then b
      else if PyStr.is_empty a || ends_with_sep a then a ++ b
      else a ++ "/" ++ b
  | "" =>
      if PyStr.is_empty a || ends_with_sep a then a else a ++ "/"
  end.

(** [os.path.expanduser(p)] for a path that starts with ["~/"], given
    the user's home directory. *)
Definition expanduser (home : string) (p : string) : string :=
  match p with
  | String "~" rest =>
      let r := PyStr.rstrip_char sep home ++ rest in
      if PyStr.is_empty r then "/" else r
  | _ => p
  end.

End PyPath.


(* ===================================================================== *)
(** ** Exceptions, results and external processes                         *)
(* ===================================================================== *)

(** The exception classes that occur in a run. All of them derive from
    [Exception]; [OtherException] stands for any further such class. *)
Inductive exn_class :=
| FileNotFoundError
| PermissionError
| FileExistsError
| NotADirectoryError
| TimeoutExpired
| KeyError
| OtherException.

(** A raised exception: its class and [str(e)]. *)
Record exn := Exn { exn_cls : exn_class; exn_str : string }.

#[global] Instance exn_class_eq_dec : EqDecision exn_class.
Proof. solve_decision. Defined.

(** What a call yields: a value, or a raised exception. *)
Inductive result (A : Type) :=
| Ok (a : A)
| Raise (e : exn).
Arguments Ok {A} a.
Arguments Raise {A} e.

(** [subprocess.CompletedProcess] with captured text streams *)
Record completed := Completed
  { returncode : Z; stdout : string; stderr : string }.

(** Severity of a log record *)
Inductive level := INFO | WARNING | ERROR.

(** The file system: regular files with their content, and directories.
    Paths are compared as written. *)
Record FS := MkFS { files : gmap string string; dirs : gset string }.

(** What the process did to the outside world, in order. *)
Inductive event :=
| EvSpawn (argv : list string) (timeout : option Z) (res : result completed)
| EvMkdtemp (d : string)
| EvOpenWrite (p content : string)
| EvReplace (src dst : string)
| EvRemove (p : string)
| EvMakedirs (p : string)
| EvCopy (src dst : string)
| EvRmtree (p : string).

(** A file operation the operating system may refuse for a reason the
    file-system model does not show: an unwritable directory, a regular
    file where a directory is needed, a full disk. The arguments are those
    of the Python call. *)
Inductive os_call :=
| Makedirs (p : string)
| Copy (src dst : string)
| Remove (p : string).

(* ===================================================================== *)
(** ** Data of the program                                                *)
(* ===================================================================== *)

(** [config.json] as [load_config] returns it: a dict, so any key may be
    missing. *)
Record config := MkConfig
  { log_path : option string;
    monitoring_node_ip : option string;
    monitoring_node_user : option string;
    monitoring_node_receive_dir : option string;
    port : option Z;
    keep_local_copy : option bool }.

(** [psutil] tuples *)
Record sdiskpart := MkPart
  { part_device : string; part_mountpoint : string;
    part_fstype : string; part_opts : string }.

Record sdiskusage := MkUsage
  { usage_total : Z; usage_used : Z; usage_free : Z; usage_percent : Q }.

(** One element of [payload["disk_partitions"]] *)
Record partition_entry := MkEntry
  { pe_device : string; pe_mountpoint : string; pe_fstype : string;
    pe_opts : string; pe_total : Z; pe_used : Z; pe_free : Z;
    pe_percent : Q }.

(** One element of [payload["smart"]]: the dict [smart_check] returns has
    one of two shapes. *)
Inductive smart_result :=
| SmartRan (device : string) (rc : Z) (out err : string) (status : string)
| SmartFailed (device : string) (error : string).

(** The [payload] dict of [run] *)
Record payload := MkPayload
  { collected_at : string;
    host : string;
    disk_partitions : list partition_entry;
    smart : list smart_result;
    notes : list string }.

(** Everything the run reads from outside itself. *)
Record Env := MkEnv
  { env_config : config;                   (* content of config.json *)
    env_hostname : string;                 (* socket.gethostname() *)
    env_utcnow : string;                   (* datetime.utcnow().isoformat() *)
    (* psutil.disk_partitions(all=False), each partition with the answer of
       psutil.disk_usage for its mount point *)
    env_mounts : list (sdiskpart * result sdiskusage);
    (* subprocess.run: the outcome of spawning [argv], given what happened
       so far *)
    env_spawn : list event -> list string -> result completed;
    env_tmproot : string;                  (* tempfile.gettempdir() *)
    env_tmpnames : list string;            (* random names mkdtemp tries *)
    env_home : string;                     (* the user's home directory *)
    (* the exception with which the operating system refuses a file
       operation, given what happened so far; None when it lets the call
       through *)
    env_refuses : list event -> os_call -> option exn }.

(** The state of the process and of the machine it runs on. *)
Record State := MkState
  { fs : FS;
    log : list (level * string);           (* records the logger emitted *)
    trace : list event;
    mem_payload : option payload }.        (* the local variable [payload] *)

(* ===================================================================== *)
(** ** The monad of the run: state and exceptions                          *)
(* ===================================================================== *)

Definition M (A : Type) : Type := State -> State * result A.

Definition ret {A} (a : A) : M A := fun st => (st, Ok a).

Definition raise {A} (e : exn) : M A := fun st => (st, Raise e).

Definition bind {A B} (m : M A) (k : A -> M B) : M B :=
  fun st =>
    match m st with
    | (st', Ok a) => k a st'
    | (st', Raise e) => (st', Raise e)
    end.

Notation "'let*' x := m 'in' k" := (bind m (fun x => k))
  (at level 10, x name, m at level 200, k at level 200, only parsing).
Notation "m ;; k" := (bind m (fun _ => k))
  (at level 100, k at level 200, right associativity, only parsing).

(** [try: body finally: cleanup]: the cleanup runs on every exit of the
    body; an exception of the cleanup replaces the body's result. *)
Definition try_finally {A} (body : M A) (cleanup : M unit) : M A :=
  fun st =>
    let '(st1, r) := body st in
    match cleanup st1 with
    | (st2, Ok _) => (st2, r)
    | (st2, Raise e) => (st2, Raise e)
    end.

(** [try: body except cls: handler] with handlers tried in order *)
Definition try_except {A} (body : M A) (handler : exn -> option (M A)) : M A :=
  fun st =>
    match body st with
    | (st', Ok a) => (st', Ok a)
    | (st', Raise e) =>
        match handler e with
        | Some h => h st'
        | None => (st', Raise e)
        end
    end.

Definition emit (ev : event) : M unit :=
  fun st => (MkState (fs st) (log st) (trace st ++ [ev]) (mem_payload st), Ok tt).

Definition set_fs (f : FS) : M unit :=
  fun st => (MkState f (log st) (trace st) (mem_payload st), Ok tt).

Definition get_fs : M FS := fun st => (st, Ok (fs st)).

(** [d[key]] on a dict read from JSON *)
Definition getitem {A} (key : string) (v : option A) : M A :=
  match v with
  | Some a => ret a
  | None => raise (Exn KeyError ("'" ++ key ++ "'"))
  end.

(** [for x in xs: body(x)] *)
Fixpoint for_in {A} (xs : list A) (body : A -> M unit) : M unit :=
  match xs with
  | [] => ret tt
  | x :: xs' => body x ;; for_in xs' body
  end.

(** The local variable [payload]: binding it, reading it, and the two
    in-place updates [payload["notes"].append(n)] and
    [payload["smart"].append(r)]. *)
Definition set_payload (p : payload) : M unit :=
  fun st => (MkState (fs st) (log st) (trace st) (Some p), Ok tt).

Definition get_payload : M payload :=
  fun st =>
    match mem_payload st with
    | Some p => (st, Ok p)
    | None => (st, Raise (Exn OtherException "name 'payload' is not defined"))
    end.

Definition add_note (n : string) (p : payload) : payload :=
  MkPayload (collected_at p) (host p) (disk_partitions p) (smart p)
            (notes p ++ [n]).

Definition add_smart (r : smart_result) (p : payload) : payload :=
  MkPayload (collected_at p) (host p) (disk_partitions p) (smart p ++ [r])
            (notes p).

Definition notes_append (n : string) : M unit :=
  let* p := get_payload in set_payload (add_note n p).

Definition smart_append (r : smart_result) : M unit :=
  let* p := get_payload in set_payload (add_smart r p).

(** [logger.info], [logger.warning], [logger.error] with the message
    already formatted *)
Definition logger_log (l : level) (msg : string) : M unit :=
  fun st => (MkState (fs st) (log st ++ [(l, msg)]) (trace st) (mem_payload st),
             Ok tt).

Definition logger_info := logger_log INFO.
Definition logger_warning := logger_log WARNING.
Definition logger_error := logger_log ERROR.

(* ===================================================================== *)
(** ** Operating-system calls                                             *)
(* ===================================================================== *)

(** Local file operations act on [FS]. A missing path is the failure [FS]
    itself shows ([FileNotFoundError]). Whatever else makes the operating
    system refuse a call (permissions, a regular file in the place of a
    directory, a full disk) is not visible in [FS]: [makedirs], [copy] and
    [remove] take the refusals as an argument [refuses], and raise what it
    gives for the call. *)
Module Os.

(** an operating system that refuses nothing *)
Definition permitted : list event -> os_call -> option exn := fun _ _ => None.

(** the operating system is asked for [call]: it lets the call through, or
    the call raises the exception it is refused with *)
Definition ask (refuses : list event -> os_call -> option exn)
           (call : os_call) : M unit :=
  fun st =>
    match refuses (trace st) call with
    | Some e => (st, Raise e)
    | None => (st, Ok tt)
    end.

Definition enoent (p : string) : exn :=
  Exn FileNotFoundError ("[Errno 2] No such file or directory: '" ++ p ++ "'").

(** [p] is [d] or lies below it *)
Definition under (d p : string) : bool :=
  String.eqb p d || String.prefix (d ++ "/") p.

(** the directory a new entry [p] goes into exists *)
Definition parent_exists (f : FS) (p : string) : bool :=
  let d := PyPath.dirname p in
  PyStr.is_empty d || bool_decide (d ∈ dirs f).

(** [subprocess.run(argv, capture_output=True, text=True, timeout=t)] *)
Definition spawn (env : Env) (argv : list string) (timeout : option Z)
  : M completed :=
  fun st =>
    let r := env_spawn env (trace st) argv in
    (MkState (fs st) (log st) (trace st ++ [EvSpawn argv timeout r])
             (mem_payload st), r).

(** [with open(p, "w") as f: f.write(content)] *)
Definition open_write (p content : string) : M unit :=
  let* f := get_fs in
  if parent_exists f p then
    set_fs (MkFS (<[p := content]> (files f)) (dirs f)) ;;
    emit (EvOpenWrite p content)
  else raise (enoent p).

(** [os.replace(src, dst)] *)
Definition replace (src dst : string) : M unit :=
  let* f := get_fs in
  match files f !! src with
  | Some c =>
      if parent_exists f dst then
        set_fs (MkFS (<[dst := c]> (delete src (files f))) (dirs f)) ;;
        emit (EvReplace src dst)
      else raise (enoent dst)
  | None => raise (enoent src)
  end.

(** [os.remove(p)] *)
Definition remove (refuses : list event -> os_call -> option exn)
           (p : string) : M unit :=
  ask refuses (Remove p) ;;
  let* f := get_fs in
  match files f !! p with
  | Some _ => set_fs (MkFS (delete p (files f)) (dirs f)) ;; emit (EvRemove p)
  | None => raise (enoent p)
  end.

(** [os.makedirs(p, exist_ok=True)] *)
Definition makedirs (refuses : list event -> os_call -> option exn)
           (p : string) : M unit :=
  if PyStr.is_empty p then raise (enoent p)
  else
    ask refuses (Makedirs p) ;;
    let* f := get_fs in
    set_fs (MkFS (files f) ({[p]} ∪ dirs f)) ;; emit (EvMakedirs p).

(** [shutil.copy(src, dst)]: into [dst] when it is a directory *)
Definition copy (refuses : list event -> os_call -> option exn)
           (src dst : string) : M unit :=
  ask refuses (Copy src dst) ;;
  let* f := get_fs in
  match files f !! src with
  | Some c =>
      let target :=
        if bool_decide (dst ∈ dirs f) then PyPath.join dst (PyPath.basename src)
        else dst in
      if parent_exists f target then
        set_fs (MkFS (<[target := c]> (files f)) (dirs f)) ;;
        emit (EvCopy src target)
      else raise (enoent target)
  | None => raise (enoent src)
  end.

(** [tempfile.mkdtemp(prefix=pre)]: the first candidate name that is
    free is created; [FileExistsError] when none is. *)
Fixpoint mkdtemp_try (root pre : string) (names : list string) (f : FS)
  : option string :=
  match names with
  | [] => None
  | n :: names' =>
      let d := PyPath.join root (pre ++ n) in
      if bool_decide (d ∈ dirs f) || bool_decide (is_Some (files f !! d))
      then mkdtemp_try root pre names' f
      else Some d
  end.

Definition mkdtemp (env : Env) (pre : string) : M string :=
  let* f := get_fs in
  match mkdtemp_try (env_tmproot env) pre (env_tmpnames env) f with
  | Some d =>
      set_fs (MkFS (files f) ({[d]} ∪ dirs f)) ;; emit (EvMkdtemp d) ;; ret d
  | None =>
      raise (Exn FileExistsError
                 "[Errno 17] No usable temporary directory name found")
  end.

(** [shutil.rmtree(d, ignore_errors=True)]: [d] and all below it go;
    it never raises. *)
Definition rmtree (d : string) : M unit :=
  let* f := get_fs in
  set_fs (MkFS (filter (fun kv => under d (fst kv) = false) (files f))
               (filter (fun p => under d p = false) (dirs f))) ;;
  emit (EvRmtree d).

End Os.

(* ===================================================================== *)
(** ** [client_node/utils.py]                                             *)
(* ===================================================================== *)

Module Utils.
Section WithJson.

(** [json.dumps(data, indent=2)]: the text [json.dump] writes. It is a
    function of the payload alone. *)
Variable json_dumps : payload -> string.

(** [setup_logger(log_path)]: the directory of the log file is created;
    the records the returned logger emits are kept in [log]. The log
    directory is taken to be one the process may create: a run that cannot
    open its log has done nothing yet. *)
Definition setup_logger (path : string) : M unit :=
  Os.makedirs Os.permitted (PyPath.dirname path).

(** [load_config(path)] *)
Definition load_config (env : Env) : M config := ret (env_config env).

(** [timestamp()] *)
Definition timestamp (env : Env) : string := env_utcnow env ++ "Z".

(** [write_json_atomic(path, data)] *)
Definition write_json_atomic (path : string) (data : payload) : M unit :=
  let tmp := path ++ ".tmp" in
  Os.open_write tmp (json_dumps data) ;;
  Os.replace tmp path.

End WithJson.
End Utils.

(* ===================================================================== *)
(** ** [client_node/disk_monitor.py]                                      *)
(* ===================================================================== *)

Module DiskMonitor.
Section WithEnv.

Variable json_dumps : payload -> string.
Variable env : Env.

Definition get_hostname : string := env_hostname env.

(** [collect_disk_usage()]: one entry per partition whose usage query
    answers; a [PermissionError] skips the partition, any other exception
    leaves the function. *)
Fixpoint collect_from (ms : list (sdiskpart * result sdiskusage))
  : result (list partition_entry) :=
  match ms with
  | [] => Ok []
  | (p, Raise e) :: ms' =>
      if decide (exn_cls e = PermissionError) then collect_from ms'
      else Raise e
  | (p, Ok u) :: ms' =>
      match collect_from ms' with
      | Ok es =>
          Ok (MkEntry (part_device p) (part_mountpoint p) (part_fstype p)
                      (part_opts p) (usage_total u) (usage_used u)
                      (usage_free u) (usage_percent u) :: es)
      | Raise e => Raise e
      end
  end.

Definition collect_disk_usage : M (list partition_entry) :=
  fun st => (st, collect_from (env_mounts env)).

(** the loop body of [list_block_disks]: what one line contributes *)
Definition disk_of_line (line : string) : list string :=
  match PyStr.split (PyStr.strip line) with
  | [name; type] => if String.eqb type "disk" then ["/dev/" ++ name] else []
  | _ => []
  end.

(** [list_block_disks()] *)
Definition list_block_disks : M (list string) :=
  let* out := Os.spawn env ["lsblk"; "-ndo"; "NAME,TYPE"] None in
  if returncode out =? 0
  then ret (flat_map disk_of_line (PyStr.splitlines (stdout out)))
  else ret [].

(** the [status] that [smart_check] derives from a completed probe *)
Definition smart_status (res : completed) : string :=
  if returncode res =? 0 then
    if PyStr.contains "PASSED" (stdout res)
       || PyStr.contains
            "SMART overall-health self-assessment test result: PASSED"
            (stdout res)
    then "OK" else "UNKNOWN"
  else "ERROR".

(** [smart_check(device)] *)
Definition smart_check (device : string) : M smart_result :=
  try_except
    (let* res := Os.spawn env ["smartctl"; "-H"; device] (Some 20) in
     ret (SmartRan device (returncode res) (stdout res) (stderr res)
                   (smart_status res)))
    (fun e =>
       if decide (exn_cls e = FileNotFoundError)
       then Some (ret (SmartFailed device "smartctl-not-installed"))
       else Some (ret (SmartFailed device (exn_str e)))).

Definition remote_target (user ip : string) : string := user ++ "@" ++ ip.

Definition mkdir_cmd (monitor_port : Z) (user ip remote_subdir : string)
  : list string :=
  ["ssh"; "-o"; "StrictHostKeyChecking=no"; "-p"; PyStr.of_int monitor_port;
   remote_target user ip;
   "mkdir -p " ++ remote_subdir ++ " && chmod 750 " ++ remote_subdir].

Definition scp_cmd (monitor_port : Z) (user ip remote_subdir local_path : string)
  : list string :=
  ["scp"; "-o"; "StrictHostKeyChecking=no"; "-P"; PyStr.of_int monitor_port;
   local_path; remote_target user ip ++ ":" ++ remote_subdir ++ "/"].

(** lines 94-119 of [run]: the remote directory, then the transfer *)
Definition deliver (cfg : config) (hostname local_path : string) : M unit :=
  let* monitor_ip := getitem "monitoring_node_ip" (monitoring_node_ip cfg) in
  let* monitor_user :=
    getitem "monitoring_node_user" (monitoring_node_user cfg) in
  let* monitor_dir :=
    getitem "monitoring_node_receive_dir" (monitoring_node_receive_dir cfg) in
  let monitor_port := default 22 (port cfg) in
  let remote_subdir := PyStr.rstrip_char "/" monitor_dir ++ "/" ++ hostname in
  logger_info ("Ensuring remote directory exists: " ++ remote_subdir) ;;
  let* mk :=
    Os.spawn env (mkdir_cmd monitor_port monitor_user monitor_ip remote_subdir)
             None in
  if negb (returncode mk =? 0) then
    logger_warning ("Remote mkdir failed: rc=" ++ PyStr.of_int (returncode mk)
                    ++ " stderr=" ++ PyStr.strip (stderr mk)) ;;
    notes_append "remote_mkdir_failed"
  else
    let* scp :=
      Os.spawn env (scp_cmd monitor_port monitor_user monitor_ip remote_subdir
                            local_path) None in
    if negb (returncode scp =? 0) then
      logger_error ("SCP failed: rc=" ++ PyStr.of_int (returncode scp)
                    ++ " stderr=" ++ PyStr.strip (stderr scp)) ;;
      notes_append "scp_failed"
    else logger_info "SCP succeeded".

(** lines 120-126 of [run]: keep a local copy, or drop the staged file.
    Nothing guards these calls: what the operating system refuses leaves
    [run]. *)
Definition retain (cfg : config) (local_path : string) : M unit :=
  if default false (keep_local_copy cfg) then
    let dest_local :=
      PyPath.expanduser (env_home env) "~/client_node/sent_payloads" in
    Os.makedirs (env_refuses env) dest_local ;;
    Os.copy (env_refuses env) local_path
            (PyPath.join dest_local (PyPath.basename local_path))
  else Os.remove (env_refuses env) local_path.

Definition report_filename (hostname : string) (p : payload) : string :=
  hostname ++ "_" ++ PyStr.replace_char ":" "-" (collected_at p) ++ ".json".

(** lines 89-126 of [run]: the body of the [try] *)
Definition staged (cfg : config) (hostname tmpdir : string) : M unit :=
  let* p := get_payload in
  let local_path := PyPath.join tmpdir (report_filename hostname p) in
  Utils.write_json_atomic json_dumps local_path p ;;
  logger_info ("Wrote payload to " ++ local_path) ;;
  deliver cfg hostname local_path ;;
  retain cfg local_path.

(** lines 77-84 of [run]: the SMART checks *)
Definition smart_checks : M unit :=
  let* disks := list_block_disks in
  match disks with
  | [] => notes_append "no-block-disks-found-or-lsblk-failed"
  | _ => for_in disks (fun d => let* sc := smart_check d in smart_append sc)
  end.

(** [run()] *)
Definition run : M unit :=
  let* cfg := Utils.load_config env in
  let* lp := getitem "log_path" (log_path cfg) in
  Utils.setup_logger lp ;;
  let hostname := get_hostname in
  logger_info ("Starting disk monitor run on host " ++ hostname) ;;
  let collected := Utils.timestamp env in
  let* partitions := collect_disk_usage in
  set_payload (MkPayload collected hostname partitions [] []) ;;
  smart_checks ;;
  let* tmpdir := Os.mkdtemp env "client_disk_" in
  try_finally (staged cfg hostname tmpdir) (Os.rmtree tmpdir) ;;
  logger_info "Run finished.".

(** The process: [run()] from a fresh interpreter. An exception that
    leaves [run] ends the process with status 1. *)
Definition start (f : FS) : State := MkState f [] [] None.

Definition exit_status (r : result unit) : Z :=
  match r with Ok _ => 0 | Raise _ => 1 end.

Definition main (f : FS) : State * Z :=
  let '(st, r) := run (start f) in (st, exit_status r).

End WithEnv.
End DiskMonitor.

(* ===================================================================== *)
(** ** Notions used to state the properties                               *)
(* ===================================================================== *)

(** The specification's view of a health result: a status out of four, and
    either the probe's output or an error description. *)
Module Spec.

Inductive status := OK | UNKNOWN | ERROR | UNAVAILABLE.

(** The status a returned dict stands for: its ["status"] entry when it
    has one; a dict with an ["error"] entry and no ["status"] is how the
    program reports that the probe could not run. *)
Definition status_of (r : smart_result) : option status :=
  match r with
  | SmartRan _ _ _ _ s =>
      if String.eqb s "OK" then Some OK
      else if String.eqb s "UNKNOWN" then Some UNKNOWN
      else if String.eqb s "ERROR" then Some ERROR
      else None
  | SmartFailed _ _ => Some UNAVAILABLE
  end.

Definition device_of (r : smart_result) : string :=
  match r with SmartRan d _ _ _ _ => d | SmartFailed d _ => d end.

Definition output_of (r : smart_result) : option string :=
  match r with SmartRan _ _ out _ _ => Some out | SmartFailed _ _ => None end.

Definition description_of (r : smart_result) : option string :=
  match r with SmartRan _ _ _ _ _ => None | SmartFailed _ e => Some e end.

(** exactly one of output and description is populated, as the status
    demands *)
Definition well_formed (r : smart_result) : Prop :=
  match status_of r with
  | Some UNAVAILABLE => output_of r = None /\ is_Some (description_of r)
  | Some _ => is_Some (output_of r) /\ description_of r = None
  | None => False
  end.

End Spec.

(** The command line of the health probe *)
Definition smartctl_argv (device : string) : list string :=
  ["smartctl"; "-H"; device].

(** [prog] was spawned in [tr] and the spawn ended as [res] *)
Definition spawned (prog : string) (res : result completed) (tr : list event)
  : Prop :=
  exists args t, In (EvSpawn (prog :: args) t res) tr.

(** the events of the collection phase of a run *)
Definition collection_event (ev : event) : Prop :=
  match ev with
  | EvSpawn (prog :: _) _ _ => prog = "lsblk" \/ prog = "smartctl"
  | EvMakedirs _ => True
  | _ => False
  end.

(** the state after a file operation: the new file system, one more event *)
Definition wrote (st : State) (f : FS) (ev : event) : State :=
  MkState f (log st) (trace st ++ [ev]) (mem_payload st).

(** The command line of the block-device listing *)
Definition lsblk_argv : list string := ["lsblk"; "-ndo"; "NAME,TYPE"].

(** the note of a run that found no disk to probe *)
Definition no_disks_note : string := "no-block-disks-found-or-lsblk-failed".

(** [p] with further health results appended *)
Definition with_more_smart (p : payload) (rs : list smart_result) : payload :=
  MkPayload (collected_at p) (host p) (disk_partitions p) (smart p ++ rs)
            (notes p).

(** no separator occurs in [s] *)
Fixpoint slash_free (s : string) : bool :=
  match s with
  | "" => true
  | String c s' => negb (Ascii.eqb c PyPath.sep) && slash_free s'
  end.

(** a non-empty path that does not end with a separator *)
Definition proper_dir (d : string) : Prop :=
  PyStr.rstrip_char PyPath.sep d = d /\ d <> "".

(** How the delivery stage of a run can go. *)
Inductive delivery :=
| KeyMissing (e : exn)                       (* a key of the config is absent *)
| MkdirRaised (e : exn)                      (* spawning ssh raised *)
| MkdirFailed (mk : completed)               (* ssh exited non-zero *)
| ScpRaised (mk : completed) (e : exn)       (* spawning scp raised *)
| ScpFailed (mk scp : completed)             (* scp exited non-zero *)
| Delivered (mk scp : completed).

Definition delivery_result (d : delivery) : result unit :=
  match d with
  | KeyMissing e | MkdirRaised e | ScpRaised _ e => Raise e
  | MkdirFailed _ | ScpFailed _ _ | Delivered _ _ => Ok tt
  end.

Definition delivery_notes (d : delivery) : list string :=
  match d with
  | MkdirFailed _ => ["remote_mkdir_failed"]
  | ScpFailed _ _ => ["scp_failed"]
  | _ => []
  end.

Definition delivery_trace (ssh scp : list string) (d : delivery) : list event :=
  match d with
  | KeyMissing _ => []
  | MkdirRaised e => [EvSpawn ssh None (Raise e)]
  | MkdirFailed mk => [EvSpawn ssh None (Ok mk)]
  | ScpRaised mk e => [EvSpawn ssh None (Ok mk); EvSpawn scp None (Raise e)]
  | ScpFailed mk c | Delivered mk c =>
      [EvSpawn ssh None (Ok mk); EvSpawn scp None (Ok c)]
  end.

Definition delivery_log (subdir : string) (d : delivery)
  : list (level * string) :=
  let ensuring := (INFO, "Ensuring remote directory exists: " ++ subdir) in
  match d with
  | KeyMissing _ => []
  | MkdirRaised _ | ScpRaised _ _ => [ensuring]
  | MkdirFailed mk =>
      [ensuring;
       (WARNING, "Remote mkdir failed: rc=" ++ PyStr.of_int (returncode mk)
                 ++ " stderr=" ++ PyStr.strip (stderr mk))]
  | ScpFailed _ c =>
      [ensuring;
       (ERROR, "SCP failed: rc=" ++ PyStr.of_int (returncode c)
               ++ " stderr=" ++ PyStr.strip (stderr c))]
  | Delivered _ _ => [ensuring; (INFO, "SCP succeeded")]
  end.

Definition delivery_consistent (d : delivery) : Prop :=
  match d with
  | KeyMissing e => exn_cls e = KeyError
  | MkdirRaised _ => True
  | MkdirFailed mk => returncode mk <> 0
  | ScpRaised mk _ => returncode mk = 0
  | ScpFailed mk c => returncode mk = 0 /\ returncode c <> 0
  | Delivered mk c => returncode mk = 0 /\ returncode c = 0
  end.

(** How a stage ends: the file system it leaves, the events it added, and
    its result. *)
Record outcome := MkOutcome
  { out_fs : FS; out_events : list event; out_result : result unit }.

(** The retention stage, entered after the events [tr] with the staged file
    holding [text]: each of its calls is refused by the operating system,
    which ends the stage with the exception, or acts. *)
Definition retained (env : Env) (cfg : config) (local_path text : string)
           (f : FS) (tr : list event) : outcome :=
  if default false (keep_local_copy cfg) then
    let dest := PyPath.expanduser (env_home env) "~/client_node/sent_payloads" in
    let dst := PyPath.join dest (PyPath.basename local_path) in
    let made := MkFS (files f) ({[dest]} ∪ dirs f) in
    match env_refuses env tr (Makedirs dest) with
    | Some e => MkOutcome f [] (Raise e)
    | None =>
        match env_refuses env (tr ++ [EvMakedirs dest]) (Copy local_path dst) with
        | Some e => MkOutcome made [EvMakedirs dest] (Raise e)
        | None =>
            let target :=
              if bool_decide (dst ∈ dirs made)
              then PyPath.join dst (PyPath.basename local_path) else dst in
            MkOutcome (MkFS (<[target := text]> (files f)) (dirs made))
                      [EvMakedirs dest; EvCopy local_path target] (Ok tt)
        end
    end
  else
    match env_refuses env tr (Remove local_path) with
    | Some e => MkOutcome f [] (Raise e)
    | None =>
        MkOutcome (MkFS (delete local_path (files f)) (dirs f))
                  [EvRemove local_path] (Ok tt)
    end.

(** the file system after [shutil.rmtree(d, ignore_errors=True)] *)
Definition cleaned (d : string) (f : FS) : FS :=
  MkFS (filter (fun kv => Os.under d (fst kv) = false) (files f))
       (filter (fun p => Os.under d p = false) (dirs f)).

(** the file system after [write_json_atomic(path, _)] wrote [text] *)
Definition written (path text : string) (f : FS) : FS :=
  MkFS (<[path := text]> (delete (path ++ ".tmp")
                                 (<[path ++ ".tmp" := text]> (files f))))
       (dirs f).

(** What follows a delivery stage that went as [d] and ended after the
    events [tr]: retention when delivery raised nothing, and nothing more
    when it raised. *)
Definition after_delivery (env : Env) (local_path text : string) (f : FS)
           (tr : list event) (d : delivery) : outcome :=
  match delivery_result d with
  | Ok _ => retained env (env_config env) local_path text f tr
  | Raise e => MkOutcome f [] (Raise e)
  end.

(** the last record of a run that raised nothing *)
Definition finished (r : result unit) : list (level * string) :=
  match r with Ok _ => [(INFO, "Run finished.")] | Raise _ => [] end.

(** [p] with further notes appended *)
Definition with_more_notes (p : payload) (extra : list string) : payload :=
  MkPayload (collected_at p) (host p) (disk_partitions p) (smart p)
            (notes p ++ extra).

(** the entry [collect_disk_usage] builds for a partition and its usage *)
Definition entry_of (p : sdiskpart) (u : sdiskusage) : partition_entry :=
  MkEntry (part_device p) (part_mountpoint p) (part_fstype p) (part_opts p)
          (usage_total u) (usage_used u) (usage_free u) (usage_percent u).

(** the partitions whose usage query answered, as entries *)
Definition answered (ms : list (sdiskpart * result sdiskusage))
  : list partition_entry :=
  flat_map (fun m => match snd m with
                     | Ok u => [entry_of (fst m) u]
                     | Raise _ => []
                     end) ms.

(** the first record a run logs *)
Definition starting (env : Env) : level * string :=
  (INFO, "Starting disk monitor run on host " ++ env_hostname env).

(** the payload as the collection phase leaves it: identity and partitions
    from the environment, and either health results or the note *)
Definition collected (env : Env) (p : payload) : Prop :=
  collected_at p = Utils.timestamp env /\
  host p = env_hostname env /\
  disk_partitions p = answered (env_mounts env) /\
  (notes p = [] /\ smart p <> [] \/ notes p = [no_disks_note] /\ smart p = []).

Definition is_permission_error (e : exn) : Prop := exn_cls e = PermissionError.

(** A run that wrote its report: what preceded the write, how delivery
    went, and the final state. *)
Definition written_run (json_dumps : payload -> string) (env : Env) (f : FS)
           (st : State) (r : result unit)
           (pre : list event) (tmpdir : string) (p0 : payload) (f1 : FS)
           (d : delivery) (ssh scp : list string) (subdir : string) : Prop :=
  let local_path :=
    PyPath.join tmpdir (DiskMonitor.report_filename (env_hostname env) p0) in
  let tmp := local_path ++ ".tmp" in
  let text := json_dumps p0 in
  let tr :=
    (pre ++ [EvMkdtemp tmpdir; EvOpenWrite tmp text; EvReplace tmp local_path]
         ++ delivery_trace ("ssh" :: ssh) ("scp" :: scp) d)%list in
  let kept :=
    after_delivery env local_path text (written local_path text f1) tr d in
  Forall collection_event pre /\ files f1 = files f /\ collected env p0 /\
  delivery_consistent d /\ r = out_result kept /\
  st = MkState
         (cleaned tmpdir (out_fs kept))
         ([starting env; (INFO, "Wrote payload to " ++ local_path)]
          ++ delivery_log subdir d ++ finished r)
         (tr ++ out_events kept ++ [EvRmtree tmpdir])
         (Some (with_more_notes p0 (delivery_notes d))).

(** [ev] leaves the staged file [local_path] as it is: nothing is written
    or renamed, and a copy reads from [local_path]. *)
Definition leaves_report (local_path : string) (ev : event) : Prop :=
  match ev with
  | EvOpenWrite _ _ | EvReplace _ _ | EvMkdtemp _ => False
  | EvCopy src _ => src = local_path
  | EvRemove p => p = local_path
  | EvSpawn _ _ _ | EvMakedirs _ | EvRmtree _ => True
  end.

(** [d] and everything below it are gone from [f] *)
Definition gone (d : string) (f : FS) : Prop :=
  (d ∉ dirs f) /\
  (forall p, Os.under d p = true -> (p ∉ dirs f) /\ files f !! p = None).

(** ** Sample environments *)

Module Sample.

Definition cfg (keep : bool) : config :=
  MkConfig (Some "/var/log/client/disk.log") (Some "10.0.0.5")
           (Some "monitor") (Some "/srv/recv/") None (Some keep).

Definition mounts : list (sdiskpart * result sdiskusage) :=
  [ (MkPart "/dev/sda1" "/" "ext4" "rw", Ok (MkUsage 1000 400 600 (40 # 1)));
    (MkPart "/dev/sdb1" "/root/vault" "ext4" "rw",
     Raise (Exn PermissionError "[Errno 13] Permission denied: '/root/vault'")) ].

(** every tool answers the same way each time it is spawned *)
Definition scripted (lsblk smartctl ssh scp : result completed)
  : list event -> list string -> result completed :=
  fun _ argv =>
    match argv with
    | prog :: _ =>
        if String.eqb prog "lsblk" then lsblk
        else if String.eqb prog "smartctl" then smartctl
        else if String.eqb prog "ssh" then ssh
        else scp
    | [] => Raise (Exn OtherException "empty command")
    end.

(** a host on which the operating system refuses no file operation *)
Definition env (keep : bool) (lsblk smartctl ssh scp : result completed)
  : Env :=
  MkEnv (cfg keep) "node1" "2024-05-01T10:20:30.123456" mounts
        (scripted lsblk smartctl ssh scp) "/tmp" ["k3x9q2ab"]
        "/home/monitor" Os.permitted.

Definition lf : string := String "010" "".

Definition lsblk_one_disk : result completed :=
  Ok (Completed 0 ("sda  disk" ++ lf ++ "sda1 part" ++ lf) "").
Definition smart_passed : result completed :=
  Ok (Completed 0
        ("SMART overall-health self-assessment test result: PASSED" ++ lf) "").
Definition done_ok : result completed := Ok (Completed 0 "" "").
Definition failed (msg : string) : result completed :=
  Ok (Completed 1 "" msg).
Definition missing (prog : string) : result completed :=
  Raise (Exn FileNotFoundError
             ("[Errno 2] No such file or directory: '" ++ prog ++ "'")).
(** an exception whose text is empty, as [MemoryError()] has *)
Definition silent : result completed := Raise (Exn OtherException "").

Definition disk : FS := MkFS ∅ {["/tmp"]}.

(** runs in which one tool misbehaves *)
Definition scp_fails (keep : bool) : Env :=
  env keep lsblk_one_disk smart_passed done_ok (failed "lost connection").
Definition mkdir_fails : Env :=
  env false lsblk_one_disk smart_passed (failed "Permission denied") done_ok.
Definition lsblk_fails : Env :=
  env false (failed "lsblk: failed to access sysfs directory") smart_passed
      done_ok done_ok.
Definition no_lsblk : Env :=
  env false (missing "lsblk") smart_passed done_ok done_ok.
Definition no_ssh : Env :=
  env false lsblk_one_disk smart_passed (missing "ssh") done_ok.
Definition no_scp : Env :=
  env false lsblk_one_disk smart_passed done_ok (missing "scp").
Definition all_fine (keep : bool) : Env :=
  env keep lsblk_one_disk smart_passed done_ok done_ok.
(** a host name with a separator: the staged file cannot be created *)
Definition odd_host : Env :=
  MkEnv (cfg false) "rack/node1" "2024-05-01T10:20:30.123456" mounts
        (scripted lsblk_one_disk smart_passed done_ok done_ok) "/tmp"
        ["k3x9q2ab"] "/home/monitor" Os.permitted.

(** the home directory is a regular file: nothing can be created below it *)
Definition home_is_a_file : list event -> os_call -> option exn :=
  fun _ call =>
    match call with
    | Makedirs p =>
        if Os.under "/home/monitor" p
        then Some (Exn NotADirectoryError
                       "[Errno 20] Not a directory: '/home/monitor/client_node'")
        else None
    | _ => None
    end.

(** the archive directory exists and is not writable *)
Definition archive_read_only : list event -> os_call -> option exn :=
  fun _ call =>
    match call with
    | Copy _ dst =>
        if Os.under "/home/monitor/client_node/sent_payloads" dst
        then Some (Exn PermissionError
                       ("[Errno 13] Permission denied: '" ++ dst ++ "'"))
        else None
    | _ => None
    end.

(** the transfer fails, and then the local copy cannot be kept *)
Definition scp_fails_no_archive
           (refuses : list event -> os_call -> option exn) : Env :=
  MkEnv (cfg true) "node1" "2024-05-01T10:20:30.123456" mounts
        (scripted lsblk_one_disk smart_passed done_ok (failed "lost connection"))
        "/tmp" ["k3x9q2ab"] "/home/monitor" refuses.

(** a stand-in for [json.dumps] *)
Definition dumps (p : payload) : string :=
  host p ++ " " ++ collected_at p ++ " notes:" ++ String.concat "," (notes p).

End Sample.

(** ** Notions for the properties of whole runs *)

(** no white space occurs in [s] *)
Fixpoint space_free (s : string) : bool :=
  match s with
  | "" => true
  | String c s' => negb (PyStr.is_space c) && space_free s'
  end.

(** [s] consists of white space *)
Fixpoint blank (s : string) : bool :=
  match s with
  | "" => true
  | String c s' => PyStr.is_space c && blank s'
  end.

(** a word: non-empty, without white space *)
Definition word (s : string) : Prop := s <> "" /\ space_free s = true.

(** the character [a] does not occur in [s] *)
Fixpoint lacks (a : ascii) (s : string) : bool :=
  match s with
  | "" => true
  | String c s' => negb (Ascii.eqb c a) && lacks a s'
  end.

(** the disks a completed listing names *)
Definition listed_disks (c : completed) : list string :=
  if returncode c =? 0
  then flat_map DiskMonitor.disk_of_line (PyStr.splitlines (stdout c))
  else [].

(** [evs] are probes of the disks [ds]: one each, in order, each bounded
    by 20 seconds *)
Definition probe_events (evs : list event) (ds : list string) : Prop :=
  Forall2 (fun ev d => exists res, ev = EvSpawn (smartctl_argv d) (Some 20) res)
          evs ds.

(** the command lines spawned in [tr], in order *)
Definition spawn_argvs (tr : list event) : list (list string) :=
  flat_map (fun ev => match ev with
                      | EvSpawn argv _ _ => [argv]
                      | _ => []
                      end) tr.

(** the first key of the delivery stage that the config lacks *)
Definition missing_key (cfg : config) : option string :=
  match monitoring_node_ip cfg with
  | None => Some "monitoring_node_ip"
  | Some _ =>
      match monitoring_node_user cfg with
      | None => Some "monitoring_node_user"
      | Some _ =>
          match monitoring_node_receive_dir cfg with
          | None => Some "monitoring_node_receive_dir"
          | Some _ => None
          end
      end
  end.

(** the remote directory of a host below the configured receive root *)
Definition remote_subdir_of (dir hostname : string) : string :=
  PyStr.rstrip_char "/" dir ++ "/" ++ hostname.

(** The collection phase of a run went through: the log directory was
    made, every usage query answered or was denied, the listing completed
    as [c], every listed disk was probed, and [p0] is the payload. *)
Definition collection (env : Env) (lp : string) (c : completed)
           (probes : list event) (p0 : payload) : Prop :=
  log_path (env_config env) = Some lp /\
  PyPath.dirname lp <> "" /\
  DiskMonitor.collect_from (env_mounts env) = Ok (answered (env_mounts env)) /\
  env_spawn env [EvMakedirs (PyPath.dirname lp)] lsblk_argv = Ok c /\
  probe_events probes (listed_disks c) /\
  collected_at p0 = Utils.timestamp env /\
  host p0 = env_hostname env /\
  disk_partitions p0 = answered (env_mounts env) /\
  map Spec.device_of (smart p0) = listed_disks c /\
  notes p0 = match listed_disks c with [] => [no_disks_note] | _ => [] end.

Definition collection_trace (lp : string) (c : completed) (probes : list event)
  : list event :=
  EvMakedirs (PyPath.dirname lp) :: EvSpawn lsblk_argv None (Ok c) :: probes.

Definition collection_fs (f : FS) (lp : string) : FS :=
  MkFS (files f) ({[PyPath.dirname lp]} ∪ dirs f).

Definition staging_fs (f : FS) (lp tmpdir : string) : FS :=
  MkFS (files f) ({[tmpdir]} ∪ ({[PyPath.dirname lp]} ∪ dirs f)).

Definition wrote_record (local_path : string) : level * string :=
  (INFO, "Wrote payload to " ++ local_path).

(** How a run from a fresh process can end, with its final state. *)
Inductive run_end (json_dumps : payload -> string) (env : Env) (f : FS)
  : State -> result unit -> Prop :=
| End_no_log_path :
    log_path (env_config env) = None ->
    run_end json_dumps env f (DiskMonitor.start f)
            (Raise (Exn KeyError "'log_path'"))
| End_bare_log_path lp :
    log_path (env_config env) = Some lp ->
    PyPath.dirname lp = "" ->
    run_end json_dumps env f (DiskMonitor.start f) (Raise (Os.enoent ""))
| End_usage lp e :
    log_path (env_config env) = Some lp ->
    PyPath.dirname lp <> "" ->
    DiskMonitor.collect_from (env_mounts env) = Raise e ->
    run_end json_dumps env f
            (MkState (collection_fs f lp) [starting env]
                     [EvMakedirs (PyPath.dirname lp)] None)
            (Raise e)
| End_lsblk lp e :
    log_path (env_config env) = Some lp ->
    PyPath.dirname lp <> "" ->
    DiskMonitor.collect_from (env_mounts env) = Ok (answered (env_mounts env)) ->
    env_spawn env [EvMakedirs (PyPath.dirname lp)] lsblk_argv = Raise e ->
    run_end json_dumps env f
            (MkState (collection_fs f lp) [starting env]
                     [EvMakedirs (PyPath.dirname lp);
                      EvSpawn lsblk_argv None (Raise e)]
                     (Some (MkPayload (Utils.timestamp env) (env_hostname env)
                                      (answered (env_mounts env)) [] [])))
            (Raise e)
| End_no_tmpdir lp c probes p0 :
    collection env lp c probes p0 ->
    Os.mkdtemp_try (env_tmproot env) "client_disk_" (env_tmpnames env)
                   (collection_fs f lp) = None ->
    run_end json_dumps env f
            (MkState (collection_fs f lp) [starting env]
                     (collection_trace lp c probes) (Some p0))
            (Raise (Exn FileExistsError
                        "[Errno 17] No usable temporary directory name found"))
| End_write lp c probes p0 tmpdir :
    collection env lp c probes p0 ->
    Os.mkdtemp_try (env_tmproot env) "client_disk_" (env_tmpnames env)
                   (collection_fs f lp) = Some tmpdir ->
    let local_path :=
      PyPath.join tmpdir (DiskMonitor.report_filename (env_hostname env) p0) in
    Os.parent_exists (staging_fs f lp tmpdir) local_path = false ->
    run_end json_dumps env f
            (MkState (cleaned tmpdir (staging_fs f lp tmpdir)) [starting env]
                     (collection_trace lp c probes
                      ++ [EvMkdtemp tmpdir; EvRmtree tmpdir])
                     (Some p0))
            (Raise (Os.enoent (local_path ++ ".tmp")))
| End_key lp c probes p0 tmpdir key :
    collection env lp c probes p0 ->
    Os.mkdtemp_try (env_tmproot env) "client_disk_" (env_tmpnames env)
                   (collection_fs f lp) = Some tmpdir ->
    let local_path :=
      PyPath.join tmpdir (DiskMonitor.report_filename (env_hostname env) p0) in
    let text := json_dumps p0 in
    Os.parent_exists (staging_fs f lp tmpdir) local_path = true ->
    missing_key (env_config env) = Some key ->
    run_end json_dumps env f
            (MkState (cleaned tmpdir
                        (written local_path text (staging_fs f lp tmpdir)))
                     [starting env; wrote_record local_path]
                     (collection_trace lp c probes
                      ++ [EvMkdtemp tmpdir;
                          EvOpenWrite (local_path ++ ".tmp") text;
                          EvReplace (local_path ++ ".tmp") local_path;
                          EvRmtree tmpdir])
                     (Some p0))
            (Raise (Exn KeyError ("'" ++ key ++ "'")))
| End_delivery lp c probes p0 tmpdir ip user dir d :
    collection env lp c probes p0 ->
    Os.mkdtemp_try (env_tmproot env) "client_disk_" (env_tmpnames env)
                   (collection_fs f lp) = Some tmpdir ->
    let local_path :=
      PyPath.join tmpdir (DiskMonitor.report_filename (env_hostname env) p0) in
    let text := json_dumps p0 in
    let monitor_port := default 22 (port (env_config env)) in
    let subdir := remote_subdir_of dir (env_hostname env) in
    let tr :=
      (collection_trace lp c probes
       ++ [EvMkdtemp tmpdir;
           EvOpenWrite (local_path ++ ".tmp") text;
           EvReplace (local_path ++ ".tmp") local_path]
       ++ delivery_trace
            (DiskMonitor.mkdir_cmd monitor_port user ip subdir)
            (DiskMonitor.scp_cmd monitor_port user ip subdir local_path) d)%list in
    let kept := after_delivery env local_path text
                  (written local_path text (staging_fs f lp tmpdir)) tr d in
    Os.parent_exists (staging_fs f lp tmpdir) local_path = true ->
    monitoring_node_ip (env_config env) = Some ip ->
    monitoring_node_user (env_config env) = Some user ->
    monitoring_node_receive_dir (env_config env) = Some dir ->
    delivery_consistent d ->
    (forall e, d <> KeyMissing e) ->
    run_end json_dumps env f
            (MkState (cleaned tmpdir (out_fs kept))
                     ([starting env; wrote_record local_path]
                      ++ delivery_log subdir d
                      ++ finished (out_result kept))
                     (tr ++ out_events kept ++ [EvRmtree tmpdir])
                     (Some (with_more_notes p0 (delivery_notes d))))
            (out_result kept).

(** the devices probed in [tr], in order *)
Definition probed (tr : list event) : list string :=
  flat_map (fun ev => match ev with
                      | EvSpawn ["smartctl"; "-H"; d] _ _ => [d]
                      | _ => []
                      end) tr.

(** [n] separators *)
Fixpoint slashes (n : nat) : string :=
  match n with
  | O => ""
  | S n' => slashes n' ++ "/"
  end.

(** [cfg] with another receive root *)
Definition with_receive_dir (cfg : config) (dir : string) : config :=
  MkConfig (log_path cfg) (monitoring_node_ip cfg) (monitoring_node_user cfg)
           (Some dir) (port cfg) (keep_local_copy cfg).

(** ** Further sample environments *)

Module Cases.

(** the sample host with another config *)
Definition with_config (cfg : config) : Env :=
  MkEnv cfg "node1" "2024-05-01T10:20:30.123456" Sample.mounts
        (Sample.scripted Sample.lsblk_one_disk Sample.smart_passed
                         Sample.done_ok Sample.done_ok)
        "/tmp" ["k3x9q2ab"] "/home/monitor" Os.permitted.

(** no log path *)
Definition no_log_path : Env :=
  with_config (MkConfig None (Some "10.0.0.5") (Some "monitor")
                        (Some "/srv/recv/") None None).

(** no address of the monitoring node *)
Definition no_ip : Env :=
  with_config (MkConfig (Some "/var/log/client/disk.log") None (Some "monitor")
                        (Some "/srv/recv/") None None).

(** a log file named without a directory *)
Definition bare_log_path : Env :=
  with_config (MkConfig (Some "disk.log") (Some "10.0.0.5") (Some "monitor")
                        (Some "/srv/recv/") None None).


(** two disks, the probe of each timing out *)
Definition two_disks : Env :=
  Sample.env false
    (Ok (Completed 0 ("sda disk" ++ Sample.lf ++ "sdb disk" ++ Sample.lf) ""))
    (Raise (Exn TimeoutExpired "timed out after 20 seconds"))
    Sample.done_ok Sample.done_ok.

End Cases.

(* ===================================================================== *)
(** * Properties                                                          *)
(* ===================================================================== *)

(** finds an event in an explicit trace *)
Ltac find_event := repeat (first [left; reflexivity | right]).

(** ** Strings and paths *)

Lemma prefix_app_contains (a b s : string) :
  String.prefix (a ++ b) s = true -> PyStr.contains b s = true.
Proof.
  revert s. induction a as [|c a IH]; intros s H.
  - change ("" ++ b) with b in H. destruct s; simpl in *; rewrite H; reflexivity.
  - change (String c a ++ b) with (String c (a ++ b)) in H.
    destruct s as [|c' s]; simpl in H; [discriminate|].
    destruct (ascii_dec c c'); [|discriminate].
    simpl. rewrite (IH _ H). apply orb_true_r.
Qed.

Lemma contains_app_r (a b s : string) :
  PyStr.contains (a ++ b) s = true -> PyStr.contains b s = true.
Proof.
  induction s as [|c s IH]; intros H.
  - apply orb_true_iff in H as [H|H]; [|discriminate].
    exact (prefix_app_contains a b "" H).
  - apply orb_true_iff in H as [H|H].
    + exact (prefix_app_contains a b (String c s) H).
    + simpl. rewrite (IH H). apply orb_true_r.
Qed.

(** The longer marker of [smart_check] contains the shorter one, so the
    test is the test for ["PASSED"]. *)
Lemma smart_status_eq (res : completed) :
  DiskMonitor.smart_status res =
  if returncode res =? 0 then
    if PyStr.contains "PASSED" (stdout res) then "OK" else "UNKNOWN"
  else "ERROR".
Proof.
  unfold DiskMonitor.smart_status.
  destruct (returncode res =? 0); [|reflexivity].
  destruct (PyStr.contains "PASSED" (stdout res)) eqn:E; [reflexivity|].
  rewrite orb_false_l.
  destruct (PyStr.contains _ (stdout res)) eqn:E' in |- *; [|reflexivity].
  apply (contains_app_r "SMART overall-health self-assessment test result: "
           "PASSED") in E'. congruence.
Qed.

(** ** The health probe *)

(** [smart_check] in closed form: one spawn, and a dict in every case. *)
Lemma smart_check_eq (env : Env) (device : string) (st : State) :
  let probe := env_spawn env (trace st) (smartctl_argv device) in
  DiskMonitor.smart_check env device st =
  (MkState (fs st) (log st)
           (trace st ++ [EvSpawn (smartctl_argv device) (Some 20) probe])
           (mem_payload st),
   Ok match probe with
      | Ok res => SmartRan device (returncode res) (stdout res) (stderr res)
                           (DiskMonitor.smart_status res)
      | Raise e =>
          if decide (exn_cls e = FileNotFoundError)
          then SmartFailed device "smartctl-not-installed"
          else SmartFailed device (exn_str e)
      end).
Proof.
  unfold DiskMonitor.smart_check, try_except, bind, Os.spawn, smartctl_argv, ret.
  cbn. destruct (env_spawn env (trace st) _) as [res|e]; [reflexivity|].
  destruct (decide _); reflexivity.
Qed.

Lemma status_of_ran (device : string) (res : completed) :
  Spec.status_of (SmartRan device (returncode res) (stdout res) (stderr res)
                           (DiskMonitor.smart_status res)) =
  Some (if returncode res =? 0 then
          if PyStr.contains "PASSED" (stdout res) then Spec.OK else Spec.UNKNOWN
        else Spec.ERROR).
Proof.
  rewrite smart_status_eq. simpl.
  destruct (returncode res =? 0); [|reflexivity].
  destruct (PyStr.contains "PASSED" (stdout res)); reflexivity.
Qed.

(** C1 (amended). The status of a probe is derived as: exit code 0 and
    ["PASSED"] in the output gives OK; exit code 0 without it gives UNKNOWN;
    a non-zero exit code gives ERROR; a probe that could not be run (the
    tool is not found, or any other exception) gives UNAVAILABLE. Every
    call returns exactly one of the four. The description of an UNAVAILABLE
    result is ["smartctl-not-installed"] when the tool is not found and the
    exception's text otherwise; it is non-empty when the tool is not found
    or that text is non-empty. *)
Theorem smart_check_status (env : Env) (device : string) (st : State) :
  let probe := env_spawn env (trace st) (smartctl_argv device) in
  exists st' r,
    DiskMonitor.smart_check env device st = (st', Ok r) /\
    (exists s, Spec.status_of r = Some s) /\
    match probe with
    | Ok res =>
        Spec.status_of r =
        Some (if returncode res =? 0 then
                if PyStr.contains "PASSED" (stdout res)
                then Spec.OK else Spec.UNKNOWN
              else Spec.ERROR)
    | Raise e =>
        Spec.status_of r = Some Spec.UNAVAILABLE /\
        Spec.description_of r =
        Some (if decide (exn_cls e = FileNotFoundError)
              then "smartctl-not-installed" else exn_str e) /\
        (exn_cls e = FileNotFoundError \/ exn_str e <> "" ->
         exists d, Spec.description_of r = Some d /\ d <> "")
    end.
Proof.
  intros probe. rewrite smart_check_eq. fold probe.
  eexists _, _. split; [reflexivity|].
  destruct probe as [res|e].
  - rewrite status_of_ran. split; [eexists; reflexivity | reflexivity].
  - destruct (decide (exn_cls e = FileNotFoundError)) as [Hc|Hc]; cbn.
    + split; [eauto|]. split; [reflexivity|]. split; [reflexivity|].
      intros _. eexists; split; [reflexivity|discriminate].
    + split; [eauto|]. split; [reflexivity|]. split; [reflexivity|].
      intros [H|H]; [contradiction|]. eauto.
Qed.

Lemma smart_check_status_witness :
  exists st' r,
    DiskMonitor.smart_check (Sample.all_fine false) "/dev/sda"
                            (DiskMonitor.start Sample.disk) = (st', Ok r) /\
    Spec.status_of r = Some Spec.OK.
Proof.
  destruct (smart_check_status (Sample.all_fine false) "/dev/sda"
                               (DiskMonitor.start Sample.disk))
    as (st' & r & Hrun & _ & Hstatus).
  exists st', r. split; [exact Hrun | exact Hstatus].
Defined.

(** C1 as stated fails: a probe that raises an exception with an empty
    text yields an UNAVAILABLE result whose description is empty. *)
Lemma smart_check_empty_description :
  ~ (forall (env : Env) (device : string) (st st' : State) (r : smart_result),
        DiskMonitor.smart_check env device st = (st', Ok r) ->
        Spec.status_of r = Some Spec.UNAVAILABLE ->
        exists d, Spec.description_of r = Some d /\ d <> "").
Proof.
  intros H.
  pose (env := Sample.env false Sample.lsblk_one_disk Sample.silent
                          Sample.done_ok Sample.done_ok).
  destruct (H env "/dev/sda" (DiskMonitor.start Sample.disk) _
              (SmartFailed "/dev/sda" "") eq_refl eq_refl) as (d & Hd & Hne).
  cbn in Hd. congruence.
Qed.

(** C3. The probe never raises: whatever the spawned tool does (it
    completes, it is missing, the 20-second timeout elapses, anything else
    goes wrong), [smart_check] returns a well-formed result for the device
    it was asked about, and an unexpected failure becomes an UNAVAILABLE
    result that carries the failure's text. *)
Theorem smart_check_never_raises (env : Env) (device : string) (st : State) :
  let probe := env_spawn env (trace st) (smartctl_argv device) in
  exists st' r,
    DiskMonitor.smart_check env device st = (st', Ok r) /\
    Spec.device_of r = device /\
    Spec.well_formed r /\
    trace st' = (trace st ++ [EvSpawn (smartctl_argv device) (Some 20) probe])%list /\
    (forall e, probe = Raise e -> exn_cls e <> FileNotFoundError ->
               r = SmartFailed device (exn_str e) /\
               Spec.status_of r = Some Spec.UNAVAILABLE /\
               Spec.description_of r = Some (exn_str e)).
Proof.
  intros probe. rewrite smart_check_eq. fold probe.
  eexists _, _. split; [reflexivity|].
  destruct probe as [res|e].
  - split; [reflexivity|]. split; [|split; [reflexivity|intros; discriminate]].
    unfold Spec.well_formed. rewrite status_of_ran. cbn.
    destruct (returncode res =? 0); [destruct (PyStr.contains _ _)|];
      (split; [eexists; reflexivity | reflexivity]).
  - destruct (decide (exn_cls e = FileNotFoundError)) as [Hc|Hc];
      (split; [reflexivity|]);
      (split; [split; [reflexivity | eexists; reflexivity]|]);
      (split; [reflexivity|]); intros e' [= <-] Hne.
    + contradiction.
    + repeat split.
Qed.

Lemma smart_check_never_raises_witness :
  exists st',
    DiskMonitor.smart_check
      (Sample.env false Sample.lsblk_one_disk
         (Raise (Exn TimeoutExpired
            "Command '['smartctl', '-H', '/dev/sda']' timed out after 20 seconds"))
         Sample.done_ok Sample.done_ok)
      "/dev/sda" (DiskMonitor.start Sample.disk)
    = (st', Ok (SmartFailed "/dev/sda"
         "Command '['smartctl', '-H', '/dev/sda']' timed out after 20 seconds")).
Proof.
  match goal with |- exists st', DiskMonitor.smart_check ?e ?d ?s = _ =>
    destruct (smart_check_never_raises e d s) as (st' & r & Hrun & _ & _ & _ & Hexn)
  end.
  destruct (Hexn _ eq_refl) as (-> & _); [discriminate|].
  exists st'. exact Hrun.
Defined.

(** ** The partition-usage collector *)

Lemma collect_from_answered (ms : list (sdiskpart * result sdiskusage)) :
  match DiskMonitor.collect_from ms with
  | Ok es => es = answered ms
  | Raise e => (exists p, In (p, Raise e) ms) /\ ~ is_permission_error e
  end.
Proof.
  induction ms as [|[p [u|e]] ms IH]; cbn.
  - reflexivity.
  - destruct (DiskMonitor.collect_from ms) as [es|e].
    + unfold answered in *; cbn. rewrite IH. reflexivity.
    + destruct IH as [[q Hq] Hn]. split; [exists q; right; exact Hq | exact Hn].
  - destruct (decide (exn_cls e = PermissionError)) as [Hp|Hp].
    + destruct (DiskMonitor.collect_from ms) as [es|e'].
      * exact IH.
      * destruct IH as [[q Hq] Hn]. split; [exists q; right; exact Hq | exact Hn].
    + split; [exists p; left; reflexivity | exact Hp].
Qed.

Lemma in_answered (ms : list (sdiskpart * result sdiskusage))
      (x : partition_entry) :
  In x (answered ms) <-> exists p u, In (p, Ok u) ms /\ x = entry_of p u.
Proof.
  unfold answered. rewrite in_flat_map. split.
  - intros [[p [u|e]] [Hin Hx]]; cbn in Hx; [|contradiction].
    destruct Hx as [<-|[]]. eauto.
  - intros (p & u & Hin & ->). exists (p, Ok u). split; [exact Hin|left; reflexivity].
Qed.

Lemma collect_from_ok_only_denied (ms : list (sdiskpart * result sdiskusage))
      (es : list partition_entry) :
  DiskMonitor.collect_from ms = Ok es ->
  forall p e, In (p, Raise e) ms -> is_permission_error e.
Proof.
  revert es. induction ms as [|[q [u|e']] ms IH]; intros es Hes p e Hin.
  - destruct Hin.
  - destruct Hin as [[=]|Hin]. cbn in Hes.
    destruct (DiskMonitor.collect_from ms) as [es'|]; [|discriminate].
    eapply IH; eauto.
  - cbn in Hes. destruct (decide (exn_cls e' = PermissionError)) as [Hp|Hp];
      [|discriminate].
    destruct Hin as [[= <- <-]|Hin]; [exact Hp|]. eapply IH; eauto.
Qed.

Lemma collect_from_skip (pre post : list (sdiskpart * result sdiskusage))
      (p : sdiskpart) (e : exn) :
  is_permission_error e ->
  DiskMonitor.collect_from (pre ++ (p, Raise e) :: post) =
  DiskMonitor.collect_from (pre ++ post).
Proof.
  intros He. induction pre as [|[q [u|e']] pre IH]; cbn.
  - destruct (decide (exn_cls e = PermissionError)); [reflexivity|contradiction].
  - rewrite IH. reflexivity.
  - rewrite IH. reflexivity.
Qed.

Lemma collect_from_spec
      (ms : list (sdiskpart * result sdiskusage)) :
  (forall es, DiskMonitor.collect_from ms = Ok es -> es = answered ms) /\
  (forall x, In x (answered ms) <->
             exists p u, In (p, Ok u) ms /\ x = entry_of p u) /\
  (forall es, DiskMonitor.collect_from ms = Ok es ->
              forall p e, In (p, Raise e) ms -> is_permission_error e) /\
  ((forall p e, In (p, Raise e) ms -> is_permission_error e) ->
   DiskMonitor.collect_from ms = Ok (answered ms)).
Proof.
  split; [|split; [|split]].
  - intros es Hes. pose proof (collect_from_answered ms) as H.
    rewrite Hes in H. exact H.
  - apply in_answered.
  - apply collect_from_ok_only_denied.
  - intros Hall. pose proof (collect_from_answered ms) as H.
    destruct (DiskMonitor.collect_from ms) as [es|e]; [congruence|].
    destruct H as [[p Hin] Hn]. elim Hn. eapply Hall; eauto.
Qed.

(** C9. The collector skips every mount point whose usage query raises a
    permission error: the sequence it returns holds exactly one entry for
    each partition whose query answered, in order, and nothing else; there
    is no entry of any kind for a partition whose query was denied. When
    denied queries are the only failures, the collector does return; and
    a denied partition changes nothing: the outcome is the one for the
    listing without it. *)
Theorem collect_disk_usage_skips_denied (env : Env) (st : State) :
  let ms := env_mounts env in
  DiskMonitor.collect_disk_usage env st = (st, DiskMonitor.collect_from ms) /\
  (forall es, DiskMonitor.collect_from ms = Ok es ->
     es = answered ms /\
     (forall x, In x es <-> exists p u, In (p, Ok u) ms /\ x = entry_of p u) /\
     (forall p e, In (p, Raise e) ms -> is_permission_error e)) /\
  ((forall p e, In (p, Raise e) ms -> is_permission_error e) ->
   DiskMonitor.collect_from ms = Ok (answered ms)) /\
  (forall pre post p e,
     ms = (pre ++ (p, Raise e) :: post)%list -> is_permission_error e ->
     DiskMonitor.collect_from ms = DiskMonitor.collect_from (pre ++ post)).
Proof.
  intros ms.
  destruct (collect_from_spec ms) as (Hans & Hin & Hden & Htot).
  split; [reflexivity|]. split; [|split; [exact Htot|]].
  - intros es Hes. split; [exact (Hans es Hes)|]. split.
    + rewrite (Hans es Hes). exact Hin.
    + exact (Hden es Hes).
  - intros pre post p e -> He. apply collect_from_skip, He.
Qed.

Lemma collect_disk_usage_witness :
  DiskMonitor.collect_from Sample.mounts =
  Ok [MkEntry "/dev/sda1" "/" "ext4" "rw" 1000 400 600 (40 # 1)].
Proof.
  refine (proj1 (proj2 (proj2 (collect_disk_usage_skips_denied
            (Sample.all_fine false) (DiskMonitor.start Sample.disk)))) _).
  intros p e [[=]|[[= <- <-]|[]]]. reflexivity.
Defined.

(** ** File operations in closed form *)

Lemma open_write_eq (p c : string) (st : State) :
  Os.open_write p c st =
  if Os.parent_exists (fs st) p
  then (wrote st (MkFS (<[p := c]> (files (fs st))) (dirs (fs st)))
              (EvOpenWrite p c), Ok tt)
  else (st, Raise (Os.enoent p)).
Proof.
  unfold Os.open_write, bind, get_fs. destruct (Os.parent_exists _ _); reflexivity.
Qed.

Lemma replace_eq (src dst : string) (st : State) :
  Os.replace src dst st =
  match files (fs st) !! src with
  | Some c =>
      if Os.parent_exists (fs st) dst
      then (wrote st (MkFS (<[dst := c]> (delete src (files (fs st))))
                           (dirs (fs st))) (EvReplace src dst), Ok tt)
      else (st, Raise (Os.enoent dst))
  | None => (st, Raise (Os.enoent src))
  end.
Proof.
  unfold Os.replace, bind, get_fs. destruct (files (fs st) !! src); [|reflexivity].
  destruct (Os.parent_exists _ _); reflexivity.
Qed.

Lemma remove_eq (refuses : list event -> os_call -> option exn) (p : string)
      (st : State) :
  Os.remove refuses p st =
  match refuses (trace st) (Remove p) with
  | Some e => (st, Raise e)
  | None =>
      match files (fs st) !! p with
      | Some _ => (wrote st (MkFS (delete p (files (fs st))) (dirs (fs st)))
                         (EvRemove p), Ok tt)
      | None => (st, Raise (Os.enoent p))
      end
  end.
Proof.
  unfold Os.remove, Os.ask, bind, get_fs.
  destruct (refuses _ _); [reflexivity|].
  destruct (files (fs st) !! p); reflexivity.
Qed.

Lemma makedirs_eq (refuses : list event -> os_call -> option exn) (p : string)
      (st : State) :
  Os.makedirs refuses p st =
  if PyStr.is_empty p then (st, Raise (Os.enoent p))
  else
    match refuses (trace st) (Makedirs p) with
    | Some e => (st, Raise e)
    | None =>
        (wrote st (MkFS (files (fs st)) ({[p]} ∪ dirs (fs st))) (EvMakedirs p),
         Ok tt)
    end.
Proof.
  unfold Os.makedirs, Os.ask, bind.
  destruct (PyStr.is_empty p); [reflexivity|].
  destruct (refuses _ _); reflexivity.
Qed.

Lemma rmtree_eq (d : string) (st : State) :
  Os.rmtree d st = (wrote st (cleaned d (fs st)) (EvRmtree d), Ok tt).
Proof. reflexivity. Qed.

(** ** The durable writer *)

Lemma split_last_tmp (p : string) :
  PyPath.split_last (p ++ ".tmp") =
  (fst (PyPath.split_last p), snd (PyPath.split_last p) ++ ".tmp").
Proof.
  induction p as [|c p IH]; [reflexivity|].
  change (String c p ++ ".tmp") with (String c (p ++ ".tmp")).
  cbn [PyPath.split_last]. rewrite IH.
  destruct (PyPath.split_last p) as [h t]. cbn [fst snd].
  destruct (negb (PyStr.is_empty h)); [reflexivity|].
  destruct (Ascii.eqb c PyPath.sep); reflexivity.
Qed.

(** The temporary file is a sibling of the final one. *)
Lemma dirname_tmp (p : string) :
  PyPath.dirname (p ++ ".tmp") = PyPath.dirname p.
Proof. unfold PyPath.dirname. rewrite split_last_tmp. reflexivity. Qed.

Lemma parent_exists_tmp (f : FS) (p : string) :
  Os.parent_exists f (p ++ ".tmp") = Os.parent_exists f p.
Proof. unfold Os.parent_exists. rewrite dirname_tmp. reflexivity. Qed.

Lemma tmp_neq (p : string) : p ++ ".tmp" <> p.
Proof.
  induction p as [|c p IH]; [discriminate|].
  change (String c p ++ ".tmp") with (String c (p ++ ".tmp")).
  intros [= H]. exact (IH H).
Qed.

(** [write_json_atomic] in closed form *)
Lemma write_json_atomic_eq (json_dumps : payload -> string) (path : string)
      (data : payload) (st : State) :
  let tmp := path ++ ".tmp" in
  let text := json_dumps data in
  Utils.write_json_atomic json_dumps path data st =
  if Os.parent_exists (fs st) path then
    (MkState (MkFS (<[path := text]> (delete tmp (<[tmp := text]> (files (fs st)))))
                   (dirs (fs st)))
             (log st)
             (trace st ++ [EvOpenWrite tmp text; EvReplace tmp path])
             (mem_payload st), Ok tt)
  else (st, Raise (Os.enoent tmp)).
Proof.
  intros tmp text. unfold Utils.write_json_atomic, bind. fold tmp text.
  rewrite open_write_eq. unfold tmp at 1. rewrite parent_exists_tmp.
  destruct (Os.parent_exists (fs st) path) eqn:Hp; [|reflexivity].
  rewrite replace_eq. cbn [wrote fs files dirs log trace mem_payload].
  rewrite lookup_insert_eq.
  unfold Os.parent_exists in *. cbn [dirs]. rewrite Hp.
  unfold wrote. cbn [fs files dirs log trace mem_payload].
  rewrite <- app_assoc. reflexivity.
Qed.

(** C2. The durable writer serializes the report, writes the text to
    [path + ".tmp"], a sibling of the final path, and then renames it onto
    the final path. After the temporary file is written and before the
    rename, the final path is as it was before the call: no file is there
    when none was there before. After the call completes, the final path
    holds exactly the serialized report and the temporary file is gone. The
    call completes whenever the directory of the final path exists. *)
Theorem write_json_atomic_is_atomic (json_dumps : payload -> string)
        (path : string) (data : payload) (st : State) :
  let tmp := path ++ ".tmp" in
  let text := json_dumps data in
  Utils.write_json_atomic json_dumps path data =
    (Os.open_write tmp text ;; Os.replace tmp path) /\
  PyPath.dirname tmp = PyPath.dirname path /\ tmp <> path /\
  (forall st1, Os.open_write tmp text st = (st1, Ok tt) ->
     files (fs st1) !! tmp = Some text /\
     files (fs st1) !! path = files (fs st) !! path /\
     (files (fs st) !! path = None -> files (fs st1) !! path = None) /\
     exists st2,
       Os.replace tmp path st1 = (st2, Ok tt) /\
       Utils.write_json_atomic json_dumps path data st = (st2, Ok tt)) /\
  (forall st2, Utils.write_json_atomic json_dumps path data st = (st2, Ok tt) ->
     files (fs st2) !! path = Some text /\
     files (fs st2) !! tmp = None /\
     trace st2 = (trace st ++ [EvOpenWrite tmp text; EvReplace tmp path])%list) /\
  (Os.parent_exists (fs st) path = true ->
   exists st2, Utils.write_json_atomic json_dumps path data st = (st2, Ok tt)).
Proof.
  intros tmp text.
  pose proof (tmp_neq path) as Hne. fold tmp in Hne.
  split; [reflexivity|]. split; [apply dirname_tmp|]. split; [exact Hne|].
  split; [|split].
  - intros st1 H1. rewrite open_write_eq in H1.
    unfold tmp in H1 at 1. rewrite parent_exists_tmp in H1.
    destruct (Os.parent_exists (fs st) path) eqn:Hp; [|discriminate].
    injection H1 as <-. cbn [wrote fs files].
    rewrite lookup_insert_eq, lookup_insert_ne by exact Hne.
    split; [reflexivity|]. split; [reflexivity|]. split; [tauto|].
    eexists. split.
    + rewrite replace_eq. cbn [wrote fs files dirs].
      rewrite lookup_insert_eq. unfold Os.parent_exists in *. cbn [dirs].
      rewrite Hp. reflexivity.
    + rewrite write_json_atomic_eq, Hp. unfold wrote.
      cbn [fs files dirs log trace mem_payload]. rewrite <- app_assoc.
      reflexivity.
  - intros st2 H2. rewrite write_json_atomic_eq in H2.
    destruct (Os.parent_exists (fs st) path); [|discriminate].
    injection H2 as <-. cbn [fs files trace].
    rewrite lookup_insert_eq. split; [reflexivity|]. split; [|reflexivity].
    rewrite lookup_insert_ne by congruence. apply lookup_delete_eq.
  - intros Hp. rewrite write_json_atomic_eq, Hp. eauto.
Qed.

Lemma write_json_atomic_witness :
  let data := MkPayload "2024-05-01T10:20:30Z" "node1" [] [] [] in
  let st := MkState (MkFS ∅ {["/tmp/stage"]}) [] [] None in
  exists st2,
    Utils.write_json_atomic Sample.dumps "/tmp/stage/r.json" data st
      = (st2, Ok tt) /\
    files (fs st2) !! "/tmp/stage/r.json" = Some (Sample.dumps data) /\
    files (fs st2) !! "/tmp/stage/r.json.tmp" = None.
Proof.
  intros data st.
  destruct (write_json_atomic_is_atomic Sample.dumps "/tmp/stage/r.json" data st)
    as (_ & _ & _ & _ & Hdone & Htotal).
  destruct Htotal as [st2 Hrun]; [vm_compute; reflexivity|].
  exists st2. split; [exact Hrun|].
  destruct (Hdone st2 Hrun) as (H1 & H2 & _). split; assumption.
Defined.

(** ** The collection phase of [run] *)

Lemma with_more_notes_nil (p : payload) : with_more_notes p [] = p.
Proof. destruct p. unfold with_more_notes. cbn. rewrite app_nil_r. reflexivity. Qed.

Lemma with_more_smart_nil (p : payload) : with_more_smart p [] = p.
Proof. destruct p. unfold with_more_smart. cbn. rewrite app_nil_r. reflexivity. Qed.

Lemma list_block_disks_eq (env : Env) (st : State) :
  let out := env_spawn env (trace st) lsblk_argv in
  DiskMonitor.list_block_disks env st =
  (MkState (fs st) (log st) (trace st ++ [EvSpawn lsblk_argv None out])
           (mem_payload st),
   match out with
   | Ok c =>
       Ok (if returncode c =? 0
           then flat_map DiskMonitor.disk_of_line (PyStr.splitlines (stdout c))
           else [])
   | Raise e => Raise e
   end).
Proof.
  unfold DiskMonitor.list_block_disks, bind, Os.spawn, lsblk_argv. cbn.
  destruct (env_spawn env (trace st) _) as [c|e]; [|reflexivity].
  destruct (returncode c =? 0); reflexivity.
Qed.

Lemma bind_ok {A B} (m : M A) (k : A -> M B) (st st' : State) (a : A) :
  m st = (st', Ok a) -> bind m k st = k a st'.
Proof. intros H. unfold bind. rewrite H. reflexivity. Qed.

Lemma bind_raise {A B} (m : M A) (k : A -> M B) (st st' : State) (e : exn) :
  m st = (st', Raise e) -> bind m k st = (st', Raise e).
Proof. intros H. unfold bind. rewrite H. reflexivity. Qed.

(** the result [smart_check] returns for a probe outcome *)
Lemma probe_and_record (env : Env) (d : string) (st : State) (p : payload) :
  mem_payload st = Some p ->
  exists r,
    Spec.device_of r = d /\
    (let* sc := DiskMonitor.smart_check env d in smart_append sc) st =
    (MkState (fs st) (log st)
             (trace st ++ [EvSpawn (smartctl_argv d) (Some 20)
                                   (env_spawn env (trace st) (smartctl_argv d))])
             (Some (add_smart r p)), Ok tt).
Proof.
  intros Hp. eexists. split; [|erewrite bind_ok by apply smart_check_eq].
  2: { unfold smart_append, bind, get_payload, set_payload.
       cbn [mem_payload fs log trace]. rewrite Hp. reflexivity. }
  destruct (env_spawn env (trace st) (smartctl_argv d)) as [res|e];
    [reflexivity|]. destruct (decide _); reflexivity.
Qed.

(** The loop over the disks probes each one and never raises. *)
Lemma smart_loop (env : Env) (disks : list string) :
  forall (st : State) (p : payload),
    mem_payload st = Some p ->
    exists tr rs,
      for_in disks (fun d => let* sc := DiskMonitor.smart_check env d in
                             smart_append sc) st =
      (MkState (fs st) (log st) (trace st ++ tr)
               (Some (with_more_smart p rs)), Ok tt) /\
      Forall collection_event tr /\
      map Spec.device_of rs = disks.
Proof.
  induction disks as [|d disks IH]; intros st p Hp.
  - exists [], []. rewrite with_more_smart_nil, app_nil_r. cbn.
    unfold ret. destruct st; cbn in *; subst. repeat split. constructor.
  - destruct (probe_and_record env d st p Hp) as (r & Hr & Hstep).
    cbn [for_in]. erewrite bind_ok by exact Hstep.
    edestruct (IH (MkState (fs st) (log st)
                    (trace st ++ [EvSpawn (smartctl_argv d) (Some 20)
                       (env_spawn env (trace st) (smartctl_argv d))])
                    (Some (add_smart r p))) (add_smart r p) eq_refl)
      as (tr & rs & Heq & Htr & Hrs).
    rewrite Heq. cbn [fs log trace].
    eexists (_ :: tr), (r :: rs).
    split; [|split].
    + rewrite <- app_assoc. cbn. unfold with_more_smart, add_smart. cbn.
      rewrite <- app_assoc. reflexivity.
    + constructor; [right; reflexivity | exact Htr].
    + cbn. rewrite Hrs, Hr. reflexivity.
Qed.

(** The SMART checks of a run: the listing is spawned, then either a note
    is recorded (no disk) or every disk is probed. Only an exception of the
    listing itself leaves them. *)
Lemma smart_checks_spec (env : Env) (st : State) (p : payload) :
  mem_payload st = Some p ->
  exists tr,
    Forall collection_event tr /\
    match env_spawn env (trace st) lsblk_argv with
    | Raise e =>
        DiskMonitor.smart_checks env st =
        (MkState (fs st) (log st) (trace st ++ tr) (Some p), Raise e)
    | Ok c =>
        let disks :=
          if returncode c =? 0
          then flat_map DiskMonitor.disk_of_line (PyStr.splitlines (stdout c))
          else [] in
        exists p',
          DiskMonitor.smart_checks env st =
          (MkState (fs st) (log st) (trace st ++ tr) (Some p'), Ok tt) /\
          (disks = [] /\ p' = with_more_notes p [no_disks_note] \/
           disks <> [] /\ exists rs, p' = with_more_smart p rs /\
                                     map Spec.device_of rs = disks)
    end.
Proof.
  intros Hp. unfold DiskMonitor.smart_checks.
  pose proof (list_block_disks_eq env st) as Hl. cbv zeta in Hl.
  destruct (env_spawn env (trace st) lsblk_argv) as [c|e] eqn:Hout.
  - cbv zeta.
    set (disks := if returncode c =? 0 then _ else _) in *.
    erewrite bind_ok by exact Hl.
    destruct disks as [|d ds] eqn:Hd.
    + exists [EvSpawn lsblk_argv None (Ok c)].
      split; [constructor; [left; reflexivity|constructor]|].
      eexists. split; [|left; split; reflexivity].
      unfold notes_append, bind, get_payload, set_payload.
      cbn [mem_payload fs log trace]. rewrite Hp. reflexivity.
    + edestruct (smart_loop env (d :: ds)
                   (MkState (fs st) (log st)
                            (trace st ++ [EvSpawn lsblk_argv None (Ok c)])
                            (mem_payload st)) p Hp) as (tr & rs & Heq & Htr & Hrs).
      exists (EvSpawn lsblk_argv None (Ok c) :: tr).
      split; [constructor; [left; reflexivity|exact Htr]|].
      eexists. split; [|right; split; [discriminate|eauto]].
      rewrite Heq. cbn [fs log trace]. rewrite <- app_assoc. reflexivity.
  - exists [EvSpawn lsblk_argv None (Raise e)].
    split; [constructor; [left; reflexivity|constructor]|].
    erewrite bind_raise by exact Hl. rewrite Hp. reflexivity.
Qed.

(** ** Paths below a directory *)

Lemma str_cons_app (c : ascii) (a b : string) :
  String c a ++ b = String c (a ++ b).
Proof. reflexivity. Qed.

Lemma str_nil_app (b : string) : "" ++ b = b.
Proof. reflexivity. Qed.

Lemma str_app_assoc (a b c : string) : (a ++ b) ++ c = a ++ (b ++ c).
Proof.
  induction a as [|x a IH]; [reflexivity|].
  rewrite !str_cons_app, IH. reflexivity.
Qed.

Lemma str_app_nonempty_r (a b : string) : b <> "" -> a ++ b <> "".
Proof. destruct a; [exact id | discriminate]. Qed.

Lemma is_empty_false (s : string) : s <> "" -> PyStr.is_empty s = false.
Proof. destruct s; [contradiction | reflexivity]. Qed.

Lemma split_last_slash_free (s : string) :
  slash_free s = true -> PyPath.split_last s = ("", s).
Proof.
  induction s as [|c s IH]; [reflexivity|]. cbn [slash_free PyPath.split_last].
  intros [Hc Hs]%andb_true_iff. rewrite (IH Hs). cbn.
  apply negb_true_iff in Hc. rewrite Hc. reflexivity.
Qed.

Lemma split_last_tail_slash_free (p : string) :
  slash_free (snd (PyPath.split_last p)) = true.
Proof.
  induction p as [|c p IH]; [reflexivity|]. cbn [PyPath.split_last].
  destruct (PyPath.split_last p) as [h t]. cbn [snd] in IH.
  destruct (negb (PyStr.is_empty h)); [exact IH|].
  destruct (Ascii.eqb c PyPath.sep) eqn:Hc; [exact IH|].
  cbn. rewrite Hc, IH. reflexivity.
Qed.

Lemma split_last_app (p s : string) :
  slash_free s = true ->
  PyPath.split_last (p ++ s) =
  (fst (PyPath.split_last p), snd (PyPath.split_last p) ++ s).
Proof.
  intros Hs. induction p as [|c p IH]; [apply split_last_slash_free, Hs|].
  rewrite str_cons_app. cbn [PyPath.split_last]. rewrite IH.
  destruct (PyPath.split_last p) as [h t]. cbn [fst snd].
  destruct (negb (PyStr.is_empty h)); [reflexivity|].
  destruct (Ascii.eqb c PyPath.sep); reflexivity.
Qed.

Lemma split_last_sep (a b : string) :
  slash_free b = true -> PyPath.split_last (a ++ "/" ++ b) = (a ++ "/", b).
Proof.
  intros Hb. induction a as [|c a IH].
  - change ("" ++ "/" ++ b) with (String "/" b). cbn [PyPath.split_last].
    rewrite (split_last_slash_free b Hb). reflexivity.
  - rewrite str_cons_app. cbn [PyPath.split_last]. rewrite IH.
    rewrite is_empty_false by (apply str_app_nonempty_r; discriminate).
    reflexivity.
Qed.

Lemma rstrip_by_snoc (drop : ascii -> bool) (s : string) (c : ascii) :
  drop c = true ->
  PyStr.rstrip_by drop (s ++ String c "") = PyStr.rstrip_by drop s.
Proof.
  intros Hc. induction s as [|x s IH].
  - rewrite str_nil_app. cbn. rewrite Hc. reflexivity.
  - rewrite str_cons_app. cbn [PyStr.rstrip_by]. rewrite IH. reflexivity.
Qed.

Lemma rstrip_by_keep (drop : ascii -> bool) (x t : string) :
  PyStr.rstrip_by drop t = t -> t <> "" ->
  PyStr.rstrip_by drop (x ++ t) = x ++ t.
Proof.
  intros Ht Hne. induction x as [|c x IH]; [exact Ht|].
  rewrite str_cons_app. cbn [PyStr.rstrip_by]. rewrite IH.
  rewrite is_empty_false by (apply str_app_nonempty_r, Hne). reflexivity.
Qed.

Lemma rstrip_slash_free (s : string) :
  slash_free s = true -> PyStr.rstrip_char PyPath.sep s = s.
Proof.
  unfold PyStr.rstrip_char. induction s as [|c s IH]; [reflexivity|].
  cbn [slash_free PyStr.rstrip_by]. intros [Hc Hs]%andb_true_iff.
  rewrite (IH Hs). apply negb_true_iff in Hc.
  rewrite Ascii.eqb_sym, Hc, andb_false_r. reflexivity.
Qed.

Lemma proper_dir_app (x t : string) : proper_dir t -> proper_dir (x ++ t).
Proof.
  intros [Ht Hne]. split.
  - apply rstrip_by_keep; assumption.
  - apply str_app_nonempty_r, Hne.
Qed.

Lemma proper_dir_slash_free (s : string) :
  slash_free s = true -> s <> "" -> proper_dir s.
Proof. intros Hs Hne. split; [apply rstrip_slash_free, Hs | exact Hne]. Qed.

(** Joining a name onto a directory gives an entry of that directory. *)
Lemma join_proper (d base : string) :
  proper_dir d -> slash_free base = true -> base <> "" ->
  PyPath.join d base = d ++ "/" ++ base /\
  PyPath.dirname (d ++ "/" ++ base) = d /\
  proper_dir (d ++ "/" ++ base).
Proof.
  intros [Hd Hne] Hb Hbne. split; [|split].
  - unfold PyPath.join. destruct base as [|c base]; [contradiction|].
    cbn [slash_free] in Hb. apply andb_true_iff in Hb as [Hc _].
    apply negb_true_iff in Hc. rewrite Hc.
    unfold PyPath.ends_with_sep. rewrite Hd, String.eqb_refl.
    rewrite is_empty_false by exact Hne. destruct d; [contradiction|reflexivity].
  - unfold PyPath.dirname. rewrite split_last_sep by exact Hb. cbn [fst].
    unfold PyStr.rstrip_char in *.
    rewrite rstrip_by_snoc by reflexivity. rewrite Hd.
    rewrite is_empty_false by exact Hne. reflexivity.
  - rewrite <- str_app_assoc. apply proper_dir_app.
    apply proper_dir_slash_free; assumption.
Qed.

Lemma basename_json (y : string) :
  PyPath.basename (y ++ ".json") = PyPath.basename y ++ ".json".
Proof. unfold PyPath.basename. rewrite split_last_app by reflexivity. reflexivity. Qed.

Lemma slash_free_app (a b : string) :
  slash_free a = true -> slash_free b = true -> slash_free (a ++ b) = true.
Proof.
  intros Ha Hb. induction a as [|c a IH]; [exact Hb|].
  rewrite str_cons_app. cbn [slash_free] in *.
  apply andb_true_iff in Ha as [Hc Ha]. rewrite Hc, (IH Ha). reflexivity.
Qed.

(** the archive directory of [run] *)
Lemma archive_dir_proper (home : string) :
  proper_dir (PyPath.expanduser home "~/client_node/sent_payloads").
Proof.
  cbn [PyPath.expanduser].
  assert (H : proper_dir "/client_node/sent_payloads")
    by (split; [reflexivity | discriminate]).
  pose proof (proper_dir_app (PyStr.rstrip_char PyPath.sep home) _ H) as [H1 H2].
  rewrite is_empty_false by exact H2. split; assumption.
Qed.

(** the staged file of [run] is named [*.json] *)
Lemma local_path_json (tmpdir hostname : string) (p : payload) :
  exists y, PyPath.join tmpdir (DiskMonitor.report_filename hostname p)
            = y ++ ".json".
Proof.
  unfold DiskMonitor.report_filename.
  set (z := PyStr.replace_char ":" "-" (collected_at p)).
  assert (Hb : hostname ++ "_" ++ z ++ ".json" = (hostname ++ "_" ++ z) ++ ".json")
    by (rewrite !str_app_assoc; reflexivity).
  rewrite Hb. set (w := hostname ++ "_" ++ z). unfold PyPath.join.
  destruct (w ++ ".json") as [|c b] eqn:Hw.
  - destruct w; discriminate.
  - rewrite <- Hw. destruct (Ascii.eqb c PyPath.sep); [eauto|].
    destruct (_ || _).
    + exists (tmpdir ++ w). rewrite str_app_assoc. reflexivity.
    + exists (tmpdir ++ "/" ++ w). rewrite !str_app_assoc. reflexivity.
Qed.

(** ** The stages of [run] after the staging directory exists *)

(** The delivery stage touches no file; it spawns at most ssh and scp,
    logs, and appends at most one note. *)
Lemma deliver_paths (env : Env) (cfg : config) (hostname local_path : string)
      (st : State) (p : payload) :
  mem_payload st = Some p ->
  exists d ssh_args scp_args subdir,
    delivery_consistent d /\
    DiskMonitor.deliver env cfg hostname local_path st =
    (MkState (fs st) (log st ++ delivery_log subdir d)
             (trace st ++ delivery_trace ("ssh" :: ssh_args) ("scp" :: scp_args) d)
             (Some (with_more_notes p (delivery_notes d))),
     delivery_result d).
Proof.
  intros Hp. unfold DiskMonitor.deliver.
  assert (Hst : forall e, (st, @Raise unit e) =
                (MkState (fs st) (log st ++ []) (trace st ++ [])
                         (Some (with_more_notes p [])), Raise e)).
  { intros e. rewrite with_more_notes_nil, !app_nil_r, <- Hp.
    destruct st; reflexivity. }
  destruct (monitoring_node_ip cfg) as [ip|];
    [|eexists (KeyMissing _), [], [], ""; split; [|apply Hst]; reflexivity].
  destruct (monitoring_node_user cfg) as [user|];
    [|eexists (KeyMissing _), [], [], ""; split; [|apply Hst]; reflexivity].
  destruct (monitoring_node_receive_dir cfg) as [dir|];
    [|eexists (KeyMissing _), [], [], ""; split; [|apply Hst]; reflexivity].
  cbn [getitem]. unfold bind at 1 2 3, ret. cbv zeta.
  set (monitor_port := default 22 (port cfg)).
  set (subdir := PyStr.rstrip_char "/" dir ++ "/" ++ hostname).
  unfold bind, logger_info, logger_warning, logger_error, logger_log, Os.spawn,
    notes_append, get_payload, set_payload.
  cbn [fs log trace mem_payload].
  unfold DiskMonitor.mkdir_cmd at 2. unfold DiskMonitor.scp_cmd at 2.
  destruct (env_spawn env (trace st) _) as [mk|e].
  2: { eexists (MkdirRaised e), _, [], subdir. split; [exact I|].
       rewrite with_more_notes_nil, Hp. reflexivity. }
  destruct (returncode mk =? 0) eqn:Hmk; cbn [negb].
  2: { eexists (MkdirFailed mk), _, [], subdir. rewrite Hp.
       split; [apply Z.eqb_neq, Hmk|]. cbn. rewrite <- app_assoc. reflexivity. }
  apply Z.eqb_eq in Hmk.
  destruct (env_spawn env _ _) as [scp|e].
  2: { eexists (ScpRaised mk e), _, _, subdir. split; [exact Hmk|].
       rewrite with_more_notes_nil, Hp. cbn. rewrite <- app_assoc. reflexivity. }
  destruct (returncode scp =? 0) eqn:Hscp; cbn [negb].
  - eexists (Delivered mk scp), _, _, subdir.
    split; [split; [exact Hmk|apply Z.eqb_eq, Hscp]|].
    rewrite with_more_notes_nil, Hp. cbn. rewrite <- !app_assoc. reflexivity.
  - eexists (ScpFailed mk scp), _, _, subdir. rewrite Hp.
    split; [split; [exact Hmk|apply Z.eqb_neq, Hscp]|].
    cbn. rewrite <- !app_assoc. reflexivity.
Qed.

(** The retention stage on a staged [*.json] file: the one way it can
    fail is a refusal by the operating system. *)
Lemma retain_eq (env : Env) (cfg : config) (local_path text y : string)
      (st : State) :
  files (fs st) !! local_path = Some text ->
  local_path = y ++ ".json" ->
  let kept := retained env cfg local_path text (fs st) (trace st) in
  DiskMonitor.retain env cfg local_path st =
  (MkState (out_fs kept) (log st) (trace st ++ out_events kept)
           (mem_payload st), out_result kept).
Proof.
  intros Hfile Hy. cbv zeta.
  assert (Hst : forall e, (st, @Raise unit e) =
                (MkState (fs st) (log st) (trace st ++ []) (mem_payload st),
                 Raise e))
    by (intros e; rewrite app_nil_r; destruct st; reflexivity).
  unfold DiskMonitor.retain, retained.
  destruct (default false (keep_local_copy cfg)).
  - set (dest := PyPath.expanduser (env_home env) "~/client_node/sent_payloads").
    set (base := PyPath.basename local_path).
    pose proof (archive_dir_proper (env_home env)) as Hdest. fold dest in Hdest.
    assert (Hbase : slash_free base = true)
      by apply split_last_tail_slash_free.
    assert (Hbne : base <> "").
    { unfold base. rewrite Hy, basename_json.
      apply str_app_nonempty_r. discriminate. }
    destruct (join_proper dest base Hdest Hbase Hbne) as (Hj & Hdn & Hdst).
    destruct (join_proper _ base Hdst Hbase Hbne) as (Hj2 & Hdn2 & _).
    pose proof (makedirs_eq (env_refuses env) dest st) as Hm.
    rewrite is_empty_false in Hm by apply Hdest.
    destruct (env_refuses env (trace st) (Makedirs dest)) as [e|].
    { erewrite bind_raise by exact Hm. cbn [out_fs out_events out_result].
      apply Hst. }
    erewrite bind_ok by exact Hm. clear Hm.
    unfold Os.copy, Os.ask, bind, get_fs. cbn [wrote fs files dirs trace].
    destruct (env_refuses env _ (Copy _ _)) as [e|].
    { cbn [out_fs out_events out_result]. reflexivity. }
    unfold wrote. cbn [fs files dirs trace log mem_payload].
    rewrite Hfile. fold base. rewrite Hj. cbv zeta.
    destruct (bool_decide (dest ++ "/" ++ base ∈ {[dest]} ∪ dirs (fs st))) eqn:Hin.
    + unfold Os.parent_exists. rewrite Hj2, Hdn2. cbn [dirs]. rewrite Hin.
      rewrite orb_true_r. unfold set_fs, emit, wrote.
      cbn [out_fs out_events out_result fs log trace mem_payload dirs].
      rewrite <- app_assoc. reflexivity.
    + unfold Os.parent_exists. rewrite Hdn. cbn [dirs].
      rewrite (bool_decide_eq_true_2 (dest ∈ {[dest]} ∪ dirs (fs st)))
        by set_solver.
      rewrite orb_true_r. unfold set_fs, emit, wrote.
      cbn [out_fs out_events out_result fs log trace mem_payload dirs].
      rewrite <- app_assoc. reflexivity.
  - rewrite remove_eq.
    destruct (env_refuses env (trace st) (Remove local_path)) as [e|].
    + cbn [out_fs out_events out_result]. apply Hst.
    + rewrite Hfile. reflexivity.
Qed.

(** The body of the [try] of [run]: the write either fails, and nothing
    else happens, or succeeds, and then delivery and what follows it. *)
Lemma staged_paths (json_dumps : payload -> string) (env : Env)
      (hostname tmpdir : string) (st : State) (p0 : payload) :
  mem_payload st = Some p0 ->
  let local_path := PyPath.join tmpdir (DiskMonitor.report_filename hostname p0) in
  let text := json_dumps p0 in
  if Os.parent_exists (fs st) local_path then
    exists d ssh_args scp_args subdir,
      delivery_consistent d /\
      let tr := (trace st
                 ++ [EvOpenWrite (local_path ++ ".tmp") text;
                     EvReplace (local_path ++ ".tmp") local_path]
                 ++ delivery_trace ("ssh" :: ssh_args) ("scp" :: scp_args) d)%list in
      let lg := (log st
                 ++ [(INFO, ("Wrote payload to " ++ local_path)%string)]
                 ++ delivery_log subdir d)%list in
      let mem := Some (with_more_notes p0 (delivery_notes d)) in
      let kept :=
        after_delivery env local_path text (written local_path text (fs st))
                       tr d in
      DiskMonitor.staged json_dumps env (env_config env) hostname tmpdir st =
      (MkState (out_fs kept) lg (tr ++ out_events kept) mem, out_result kept)
  else
    DiskMonitor.staged json_dumps env (env_config env) hostname tmpdir st =
    (st, Raise (Os.enoent (local_path ++ ".tmp"))).
Proof.
  intros Hp local_path text. unfold DiskMonitor.staged.
  erewrite bind_ok by (unfold get_payload; rewrite Hp; reflexivity).
  fold local_path text.
  pose proof (write_json_atomic_eq json_dumps local_path p0 st) as Hw.
  cbv zeta in Hw. fold text in Hw.
  destruct (Os.parent_exists (fs st) local_path).
  2: { erewrite bind_raise by exact Hw. reflexivity. }
  erewrite bind_ok by exact Hw.
  erewrite bind_ok by reflexivity. cbn [fs log trace mem_payload].
  match goal with |- context [bind (DiskMonitor.deliver _ _ _ _) _ ?s] =>
    destruct (deliver_paths env (env_config env) hostname local_path s p0 Hp)
      as (d & ssh_args & scp_args & subdir & Hc & Hd)
  end.
  exists d, ssh_args, scp_args, subdir. split; [exact Hc|]. cbv zeta.
  cbn [fs log trace mem_payload] in Hd. unfold after_delivery.
  destruct (delivery_result d) as [[]|e] eqn:Hr.
  - erewrite bind_ok by exact Hd.
    destruct (local_path_json tmpdir hostname p0) as [y Hy]. fold local_path in Hy.
    erewrite (retain_eq env (env_config env) local_path text y) by
      (first [exact Hy | cbn [fs files]; apply lookup_insert_eq]).
    cbn [fs log trace mem_payload]. unfold written.
    rewrite <- !app_assoc. reflexivity.
  - erewrite bind_raise by exact Hd. unfold written.
    cbn [out_fs out_events out_result].
    rewrite <- !app_assoc, app_nil_r. reflexivity.
Qed.

(** ** The shape of a run *)

Lemma mkdtemp_eq (env : Env) (pre : string) (st : State) :
  Os.mkdtemp env pre st =
  match Os.mkdtemp_try (env_tmproot env) pre (env_tmpnames env) (fs st) with
  | Some d =>
      (wrote st (MkFS (files (fs st)) ({[d]} ∪ dirs (fs st))) (EvMkdtemp d), Ok d)
  | None =>
      (st, Raise (Exn FileExistsError
                      "[Errno 17] No usable temporary directory name found"))
  end.
Proof.
  unfold Os.mkdtemp, bind, get_fs. destruct (Os.mkdtemp_try _ _ _ _); reflexivity.
Qed.

(** A run either ends in the collection phase, before a staging directory
    exists, or creates the directory, runs the staged part, removes the
    directory and, when nothing was raised, logs that it finished. *)
Lemma run_cases (json_dumps : payload -> string) (env : Env) (f : FS)
      (st : State) (r : result unit) :
  DiskMonitor.run json_dumps env (DiskMonitor.start f) = (st, r) ->
  ((exists e, r = Raise e) /\ Forall collection_event (trace st) /\
   files (fs st) = files f)
  \/
  exists pre tmpdir p0 f1 st2,
    Forall collection_event pre /\ files f1 = files f /\ collected env p0 /\
    DiskMonitor.staged json_dumps env (env_config env) (env_hostname env) tmpdir
      (MkState f1 [starting env] (pre ++ [EvMkdtemp tmpdir]) (Some p0))
    = (st2, r) /\
    st = MkState (cleaned tmpdir (fs st2))
                 (log st2 ++ match r with
                             | Ok _ => [(INFO, "Run finished.")]
                             | Raise _ => []
                             end)
                 (trace st2 ++ [EvRmtree tmpdir]) (mem_payload st2).
Proof.
  unfold DiskMonitor.run, DiskMonitor.start. intros H.
  erewrite bind_ok in H by reflexivity.
  destruct (log_path (env_config env)) as [lp|].
  2: { cbn in H. injection H as <- <-. left. cbn. eauto. }
  erewrite bind_ok in H by reflexivity.
  unfold Utils.setup_logger in H.
  pose proof (makedirs_eq Os.permitted (PyPath.dirname lp)
                (MkState f [] [] None)) as Hm.
  cbn [Os.permitted] in Hm.
  destruct (PyStr.is_empty (PyPath.dirname lp)).
  { erewrite bind_raise in H by exact Hm. injection H as <- <-. left. cbn. eauto. }
  erewrite bind_ok in H by exact Hm. clear Hm.
  erewrite bind_ok in H by reflexivity.
  cbn [wrote fs log trace mem_payload app] in H.
  pose proof (collect_from_answered (env_mounts env)) as Hc.
  destruct (DiskMonitor.collect_from (env_mounts env)) as [parts|e] eqn:Hparts.
  2: { erewrite bind_raise in H
         by (unfold DiskMonitor.collect_disk_usage; rewrite Hparts; reflexivity).
       injection H as <- <-. left. cbn. split; [eauto|]. split; [|reflexivity].
       repeat constructor. }
  erewrite bind_ok in H
    by (unfold DiskMonitor.collect_disk_usage; rewrite Hparts; reflexivity).
  erewrite bind_ok in H by reflexivity.
  cbn [fs log trace mem_payload] in H.
  match type of H with bind _ _ ?s = _ =>
    destruct (smart_checks_spec env s _ eq_refl) as (tr & Htr & Hs)
  end.
  cbn [fs log trace mem_payload] in Hs.
  destruct (env_spawn env _ lsblk_argv) as [c|e].
  2: { erewrite bind_raise in H by exact Hs. injection H as <- <-. left. cbn.
       split; [eauto|]. split; [|reflexivity].
       constructor; [exact I | exact Htr]. }
  destruct Hs as (p' & Hs & Hp').
  erewrite bind_ok in H by exact Hs. clear Hs.
  match type of H with bind _ _ ?s = _ =>
    pose proof (mkdtemp_eq env "client_disk_" s) as Hd
  end.
  cbn [fs log trace mem_payload files dirs] in Hd.
  destruct (Os.mkdtemp_try _ _ _ _) as [tmpdir|].
  2: { erewrite bind_raise in H by exact Hd. injection H as <- <-. left. cbn.
       split; [eauto|]. split; [|reflexivity].
       constructor; [exact I | exact Htr]. }
  erewrite bind_ok in H by exact Hd. clear Hd.
  unfold wrote in H. cbn [fs log trace mem_payload files dirs] in H.
  unfold bind at 1, try_finally in H.
  match type of H with context [DiskMonitor.staged _ _ _ _ _ ?s] =>
    destruct (DiskMonitor.staged json_dumps env (env_config env)
                (DiskMonitor.get_hostname env) tmpdir s) as [st2 r2] eqn:Hst
  end.
  rewrite rmtree_eq in H. unfold wrote in H.
  right. exists (EvMakedirs (PyPath.dirname lp) :: tr), tmpdir, p'.
  eexists (MkFS (files f) _), st2.
  split; [constructor; [exact I | exact Htr]|]. split; [reflexivity|].
  split.
  { unfold collected. destruct Hp' as [[Hd ->]|[Hd (rs & -> & Hrs)]]; cbn.
    - repeat split; try assumption. right. split; reflexivity.
    - repeat split; try assumption. left. split; [reflexivity|].
      intros ->. cbn in Hrs. congruence. }
  destruct r2 as [[]|e]; cbn in H; injection H as <- <-;
    (split; [exact Hst | rewrite ?app_nil_r; reflexivity]).
Qed.

(** The three ways a run can go, with the final state of each. *)
Lemma run_outcomes (json_dumps : payload -> string) (env : Env) (f : FS)
      (st : State) (r : result unit) :
  DiskMonitor.run json_dumps env (DiskMonitor.start f) = (st, r) ->
  ((exists e, r = Raise e) /\ Forall collection_event (trace st) /\
   files (fs st) = files f)
  \/
  (exists pre tmpdir p0 f1,
     Forall collection_event pre /\ files f1 = files f /\ collected env p0 /\
     (exists e, r = Raise e) /\
     st = MkState (cleaned tmpdir f1) [starting env]
                  (pre ++ [EvMkdtemp tmpdir; EvRmtree tmpdir]) (Some p0))
  \/
  (exists pre tmpdir p0 f1 d ssh scp subdir,
     written_run json_dumps env f st r pre tmpdir p0 f1 d ssh scp subdir).
Proof.
  intros H. apply run_cases in H as [H|H]; [left; exact H|right].
  destruct H as (pre & tmpdir & p0 & f1 & st2 & Hpre & Hf1 & Hp0 & Hst & ->).
  match type of Hst with DiskMonitor.staged _ _ _ _ _ ?s = _ =>
    pose proof (staged_paths json_dumps env (env_hostname env)
                  tmpdir s p0 eq_refl) as Hs
  end.
  cbv zeta in Hs. cbn [fs log trace mem_payload] in Hs.
  destruct (Os.parent_exists f1 _).
  - right. destruct Hs as (d & ssh & scp & subdir & Hc & Hs).
    exists pre, tmpdir, p0, f1, d, ssh, scp, subdir.
    unfold written_run. cbv zeta.
    split; [exact Hpre|]. split; [exact Hf1|]. split; [exact Hp0|].
    split; [exact Hc|].
    rewrite Hs in Hst. injection Hst as <- <-.
    cbn [fs log trace mem_payload]. unfold finished.
    repeat first [rewrite <- app_assoc | progress cbn [app]].
    split; reflexivity.
  - left. exists pre, tmpdir, p0, f1.
    split; [exact Hpre|]. split; [exact Hf1|]. split; [exact Hp0|].
    rewrite Hs in Hst. injection Hst as <- <-. split; [eauto|].
    cbn [fs log trace mem_payload]. rewrite app_nil_r, <- app_assoc. reflexivity.
Qed.

(** ** Spawns in the trace of a run *)

Lemma spawned_app (prog : string) (res : result completed) (a b : list event) :
  spawned prog res (a ++ b) <-> spawned prog res a \/ spawned prog res b.
Proof.
  unfold spawned. split.
  - intros (args & t & [H|H]%in_app_or); eauto.
  - intros [(args & t & H)|(args & t & H)]; exists args, t; apply in_or_app; eauto.
Qed.

Lemma spawned_collection (prog : string) (res : result completed)
      (pre : list event) :
  Forall collection_event pre -> spawned prog res pre ->
  prog = "lsblk" \/ prog = "smartctl".
Proof.
  intros Hall (args & t & Hin).
  rewrite List.Forall_forall in Hall. exact (Hall _ Hin).
Qed.

(** the events the retention stage can add *)
Lemma retained_events (env : Env) (cfg : config) (local_path text : string)
      (f : FS) (tr : list event) :
  let kept := out_events (retained env cfg local_path text f tr) in
  kept = [] \/ kept = [EvRemove local_path] \/
  exists dest, kept = [EvMakedirs dest] \/
               exists target, kept = [EvMakedirs dest; EvCopy local_path target].
Proof.
  unfold retained.
  destruct (default false (keep_local_copy cfg));
    repeat match goal with |- context [env_refuses ?e ?t ?c] =>
      destruct (env_refuses e t c) end;
    cbn [out_events]; eauto 6.
Qed.

Lemma after_delivery_events (env : Env) (local_path text : string) (f : FS)
      (tr : list event) (d : delivery) :
  let kept := out_events (after_delivery env local_path text f tr d) in
  kept = [] \/ kept = [EvRemove local_path] \/
  exists dest, kept = [EvMakedirs dest] \/
               exists target, kept = [EvMakedirs dest; EvCopy local_path target].
Proof.
  unfold after_delivery. destruct (delivery_result d).
  - apply retained_events.
  - left. reflexivity.
Qed.

Lemma no_spawn_retained (env : Env) (local_path text : string) (f : FS)
      (tr : list event) (d : delivery) (args : list string) (t : option Z)
      (res : result completed) :
  ~ In (EvSpawn args t res)
       (out_events (after_delivery env local_path text f tr d)).
Proof.
  destruct (after_delivery_events env local_path text f tr d)
    as [-> | [-> | [dest [-> | [target ->]]]]];
    cbn; intuition discriminate.
Qed.

(** A spawn of ssh or scp in the trace of a run is a spawn of its
    delivery stage. *)
Lemma spawned_in_delivery (prog : string) (res : result completed)
      (pre : list event) (tmpdir tmp text local_path : string)
      (ssh scp : list string) (d : delivery) (kept : list event) :
  Forall collection_event pre ->
  (forall args t, ~ In (EvSpawn args t res) kept) ->
  prog = "ssh" \/ prog = "scp" ->
  spawned prog res
          (pre ++ [EvMkdtemp tmpdir; EvOpenWrite tmp text; EvReplace tmp local_path]
               ++ delivery_trace ssh scp d ++ kept ++ [EvRmtree tmpdir]) ->
  spawned prog res (delivery_trace ssh scp d).
Proof.
  intros Hpre Hkept Hprog H.
  apply spawned_app in H as [H|H].
  { apply (spawned_collection _ _ _ Hpre) in H.
    destruct Hprog as [->| ->], H as [H|H]; discriminate. }
  apply spawned_app in H as [H|H].
  { destruct H as (args & t & H). cbn in H. intuition discriminate. }
  apply spawned_app in H as [H|H]; [exact H|].
  apply spawned_app in H as [H|H].
  - destruct H as (args & t & H). elim (Hkept _ _ H).
  - destruct H as (args & t & H). cbn in H. intuition discriminate.
Qed.

Lemma main_run (json_dumps : payload -> string) (env : Env) (f : FS)
      (st : State) (code : Z) :
  DiskMonitor.main json_dumps env f = (st, code) ->
  exists r, DiskMonitor.run json_dumps env (DiskMonitor.start f) = (st, r) /\
            code = DiskMonitor.exit_status r.
Proof.
  unfold DiskMonitor.main.
  destruct (DiskMonitor.run _ _ _) as [st' r]. intros [= <- <-]. eauto.
Qed.

(** A run in which ssh or scp was spawned wrote its report, and the spawn
    belongs to its delivery stage. *)
Lemma delivery_of_run (json_dumps : payload -> string) (env : Env) (f : FS)
      (st : State) (r : result unit) (prog : string) (res : result completed) :
  DiskMonitor.run json_dumps env (DiskMonitor.start f) = (st, r) ->
  prog = "ssh" \/ prog = "scp" ->
  spawned prog res (trace st) ->
  exists pre tmpdir p0 f1 d ssh scp subdir,
    written_run json_dumps env f st r pre tmpdir p0 f1 d ssh scp subdir /\
    spawned prog res (delivery_trace ("ssh" :: ssh) ("scp" :: scp) d).
Proof.
  intros Hrun Hprog Hsp.
  apply run_outcomes in Hrun as [(_ & Hall & _)|[H|H]].
  - apply (spawned_collection _ _ _ Hall) in Hsp.
    destruct Hprog as [->| ->], Hsp as [H|H]; discriminate.
  - destruct H as (pre & tmpdir & p0 & f1 & Hpre & _ & _ & _ & ->).
    cbn [trace] in Hsp. apply spawned_app in Hsp as [Hsp|Hsp].
    + apply (spawned_collection _ _ _ Hpre) in Hsp.
      destruct Hprog as [->| ->], Hsp as [H|H]; discriminate.
    + destruct Hsp as (args & t & H). cbn in H. intuition discriminate.
  - destruct H as (pre & tmpdir & p0 & f1 & d & ssh & scp & subdir & Hw).
    exists pre, tmpdir, p0, f1, d, ssh, scp, subdir. split; [exact Hw|].
    destruct Hw as (Hpre & _ & _ & _ & _ & ->). cbn [trace] in Hsp.
    rewrite <- !app_assoc in Hsp.
    eapply spawned_in_delivery; [exact Hpre | | exact Hprog | exact Hsp].
    intros args t. apply no_spawn_retained.
Qed.

(** ** Delivery failures *)

(** the log of a run whose transfer failed and whose retention stage
    raised lacks the closing record *)
Lemma not_finished (env : Env) (local_path subdir : string) (mk c : completed) :
  ~ In (INFO, "Run finished.")
       ([starting env; (INFO, ("Wrote payload to " ++ local_path)%string)]
        ++ delivery_log subdir (ScpFailed mk c) ++ [])%list.
Proof.
  unfold starting. cbn [delivery_log app].
  intros [H|[H|[H|[H|[]]]]]; injection H as H;
    rewrite ?str_cons_app in H; discriminate H.
Qed.

(** C5 (amended). When the transfer tool exits non-zero, the failed
    transfer does not abort the run: the note ["scp_failed"] is appended to
    the in-memory report, a record of level ERROR is logged, and the
    retention stage and the removal of the staging directory follow the
    failed transfer. How the process exits is decided by the retention
    stage, which nothing guards. When the operating system lets its calls
    through ([os.remove], or [os.makedirs] and [shutil.copy] with
    [keep_local_copy]), the run logs that it finished and the process exits
    with status 0. When it refuses one of them, the exception leaves [run]:
    the staging directory is removed all the same, the closing record is
    missing, and the process exits with status 1. *)
Theorem scp_failure_is_not_fatal (json_dumps : payload -> string) (env : Env)
        (f : FS) (st : State) (code : Z) (c : completed) :
  DiskMonitor.main json_dumps env f = (st, code) ->
  spawned "scp" (Ok c) (trace st) ->
  returncode c <> 0 ->
  (exists p, mem_payload st = Some p /\ In "scp_failed" (notes p)) /\
  In (ERROR, "SCP failed: rc=" ++ PyStr.of_int (returncode c)
             ++ " stderr=" ++ PyStr.strip (stderr c)) (log st) /\
  exists before argv local_path tmpdir kept,
    trace st = (before ++ [EvSpawn ("scp" :: argv) None (Ok c)] ++ kept
                ++ [EvRmtree tmpdir])%list /\
    In (EvMkdtemp tmpdir) before /\
    let asked := (before ++ [EvSpawn ("scp" :: argv) None (Ok c)])%list in
    let keep := default false (keep_local_copy (env_config env)) in
    let dest := PyPath.expanduser (env_home env) "~/client_node/sent_payloads" in
    let dst := PyPath.join dest (PyPath.basename local_path) in
    (code = 0 /\ In (INFO, "Run finished.") (log st) /\
     (keep = false /\ env_refuses env asked (Remove local_path) = None /\
      kept = [EvRemove local_path]
      \/ keep = true /\ env_refuses env asked (Makedirs dest) = None /\
         env_refuses env (asked ++ [EvMakedirs dest]) (Copy local_path dst)
         = None /\
         exists target, kept = [EvMakedirs dest; EvCopy local_path target]))
    \/
    (exists e,
       DiskMonitor.run json_dumps env (DiskMonitor.start f) = (st, Raise e) /\
       code = 1 /\ ~ In (INFO, "Run finished.") (log st) /\
       (keep = false /\ env_refuses env asked (Remove local_path) = Some e /\
        kept = []
        \/ keep = true /\ env_refuses env asked (Makedirs dest) = Some e /\
           kept = []
        \/ keep = true /\ env_refuses env asked (Makedirs dest) = None /\
           env_refuses env (asked ++ [EvMakedirs dest]) (Copy local_path dst)
           = Some e /\
           kept = [EvMakedirs dest])).
Proof.
  intros Hmain Hsp Hrc. apply main_run in Hmain as (r & Hrun & ->).
  destruct (delivery_of_run _ _ _ _ _ "scp" (Ok c) Hrun (or_intror eq_refl) Hsp)
    as (pre & tmpdir & p0 & f1 & d & ssh & scp & subdir & Hw & Hd).
  destruct Hw as (Hpre & Hf1 & Hp0 & Hc & Hres & Hst).
  assert (exists mk, d = ScpFailed mk c) as [mk ->].
  { destruct Hd as (args & t & Hin).
    destruct d; cbn in Hin, Hc; intuition (try discriminate);
      match goal with H : EvSpawn _ _ _ = EvSpawn _ _ _ |- _ =>
        injection H as <- <- <- end; eauto; congruence. }
  clear Hd Hsp.
  set (lp := PyPath.join tmpdir
               (DiskMonitor.report_filename (env_hostname env) p0)) in *.
  set (before := (pre ++ [EvMkdtemp tmpdir;
                          EvOpenWrite (lp ++ ".tmp") (json_dumps p0);
                          EvReplace (lp ++ ".tmp") lp;
                          EvSpawn ("ssh" :: ssh) None (Ok mk)])%list).
  assert (Htr : (pre ++ [EvMkdtemp tmpdir;
                         EvOpenWrite (lp ++ ".tmp") (json_dumps p0);
                         EvReplace (lp ++ ".tmp") lp]
                     ++ delivery_trace ("ssh" :: ssh) ("scp" :: scp)
                          (ScpFailed mk c))%list
                = (before ++ [EvSpawn ("scp" :: scp) None (Ok c)])%list).
  { unfold before. cbn [delivery_trace]. rewrite <- app_assoc. reflexivity. }
  rewrite Htr in Hres, Hst.
  set (asked := (before ++ [EvSpawn ("scp" :: scp) None (Ok c)])%list) in *.
  unfold after_delivery in Hres, Hst. cbn [delivery_result] in Hres, Hst.
  assert (Hbefore : In (EvMkdtemp tmpdir) before)
    by (apply in_or_app; right; left; reflexivity).
  split.
  { rewrite Hst. eexists. split; [reflexivity|]. cbn [delivery_notes].
    cbn. apply in_or_app. right. left. reflexivity. }
  split.
  { rewrite Hst. cbn [log delivery_log]. do 3 right. left. reflexivity. }
  exists before, scp, lp, tmpdir.
  set (text := json_dumps p0) in *.
  set (w := written lp text f1) in *.
  exists (out_events (retained env (env_config env) lp text w asked)).
  split; [rewrite Hst; cbn [trace]; unfold asked; rewrite <- app_assoc;
          reflexivity|].
  split; [exact Hbefore|]. cbv zeta. fold asked.
  unfold retained in *.
  set (dest := PyPath.expanduser (env_home env) "~/client_node/sent_payloads")
    in *.
  destruct (default false (keep_local_copy (env_config env))).
  - destruct (env_refuses env asked (Makedirs dest)) as [e|] eqn:Hmk.
    { right. exists e. cbn [out_result out_events out_fs] in *. subst r.
      split; [exact Hrun|]. split; [reflexivity|].
      split; [rewrite Hst; apply not_finished|].
      right. left. repeat split. }
    destruct (env_refuses env (asked ++ [EvMakedirs dest]) (Copy lp _))
      as [e|] eqn:Hcp.
    { right. exists e. cbn [out_result out_events out_fs] in *. subst r.
      split; [exact Hrun|]. split; [reflexivity|].
      split; [rewrite Hst; apply not_finished|].
      right. right. repeat split. }
    left. cbn [out_result out_events out_fs] in *. subst r.
    split; [reflexivity|].
    split; [rewrite Hst; cbn [log]; apply in_or_app; right;
            apply in_or_app; right; left; reflexivity|].
    right. repeat split. eexists. reflexivity.
  - destruct (env_refuses env asked (Remove lp)) as [e|] eqn:Hrm.
    { right. exists e. cbn [out_result out_events out_fs] in *. subst r.
      split; [exact Hrun|]. split; [reflexivity|].
      split; [rewrite Hst; apply not_finished|].
      left. repeat split. }
    left. cbn [out_result out_events out_fs] in *. subst r.
    split; [reflexivity|].
    split; [rewrite Hst; cbn [log]; apply in_or_app; right;
            apply in_or_app; right; left; reflexivity|].
    left. repeat split.
Qed.

Lemma scp_failure_witness :
  let run := DiskMonitor.main Sample.dumps (Sample.scp_fails true) Sample.disk in
  snd run = 0 /\ In (INFO, "Run finished.") (log (fst run)).
Proof.
  intros run.
  destruct (scp_failure_is_not_fatal Sample.dumps (Sample.scp_fails true)
              Sample.disk (fst run) (snd run)
              (Completed 1 "" "lost connection"))
    as (_ & _ & before & argv & lp & tmpdir & kept & _ & _ & H).
  - apply surjective_pairing.
  - unfold spawned. eexists _, _. vm_compute. find_event.
  - discriminate.
  - destruct H as [(H1 & H2 & _)|(e & _ & _ & _ & H)]; [split; assumption|].
    destruct H as [(_ & H & _)|[(_ & H & _)|(_ & _ & H & _)]]; discriminate H.
Defined.

(** C5 as stated fails: the transfer tool exits non-zero, the local copy is
    to be kept, and the home directory is a regular file, so [os.makedirs]
    raises [NotADirectoryError]. Nothing catches it: the process exits with
    status 1. *)
Lemma scp_failure_then_retention_raises :
  ~ (forall (json_dumps : payload -> string) (env : Env) (f : FS) (st : State)
            (code : Z) (c : completed),
        DiskMonitor.main json_dumps env f = (st, code) ->
        spawned "scp" (Ok c) (trace st) ->
        returncode c <> 0 ->
        code = 0).
Proof.
  intros H.
  pose (env := Sample.scp_fails_no_archive Sample.home_is_a_file).
  pose (run := DiskMonitor.main Sample.dumps env Sample.disk).
  assert (Hcode : snd run = 0).
  { apply (H Sample.dumps env Sample.disk (fst run) (snd run)
             (Completed 1 "" "lost connection")).
    - apply surjective_pairing.
    - unfold spawned. eexists _, _. vm_compute. find_event.
    - discriminate. }
  vm_compute in Hcode. discriminate Hcode.
Qed.

(** That run in full: the failed transfer is noted and logged, the staging
    directory is removed, and the closing record is missing. *)
Example run_with_failing_scp_and_blocked_archive :
  let run := DiskMonitor.main Sample.dumps
               (Sample.scp_fails_no_archive Sample.home_is_a_file)
               Sample.disk in
  let report :=
    "/tmp/client_disk_k3x9q2ab/node1_2024-05-01T10-20-30.123456Z.json" in
  snd run = 1 /\
  option_map notes (mem_payload (fst run)) = Some ["scp_failed"] /\
  map fst (log (fst run)) = [INFO; INFO; INFO; ERROR] /\
  trace (fst run) =
    [EvMakedirs "/var/log/client";
     EvSpawn lsblk_argv None Sample.lsblk_one_disk;
     EvSpawn (smartctl_argv "/dev/sda") (Some 20) Sample.smart_passed;
     EvMkdtemp "/tmp/client_disk_k3x9q2ab";
     EvOpenWrite (report ++ ".tmp")
       "node1 2024-05-01T10:20:30.123456Z notes:";
     EvReplace (report ++ ".tmp") report;
     EvSpawn (DiskMonitor.mkdir_cmd 22 "monitor" "10.0.0.5" "/srv/recv/node1")
             None Sample.done_ok;
     EvSpawn (DiskMonitor.scp_cmd 22 "monitor" "10.0.0.5" "/srv/recv/node1"
                                  report)
             None (Sample.failed "lost connection");
     EvRmtree "/tmp/client_disk_k3x9q2ab"] /\
  files (fs (fst run)) = ∅.
Proof. vm_compute. repeat split. Qed.

(** The same when the archive directory exists but is not writable:
    [shutil.copy] raises after [os.makedirs] went through. *)
Example run_with_failing_scp_and_read_only_archive :
  let run := DiskMonitor.main Sample.dumps
               (Sample.scp_fails_no_archive Sample.archive_read_only)
               Sample.disk in
  snd run = 1 /\
  In (EvMakedirs "/home/monitor/client_node/sent_payloads") (trace (fst run)) /\
  (forall src dst, ~ In (EvCopy src dst) (trace (fst run))) /\
  last (trace (fst run)) = Some (EvRmtree "/tmp/client_disk_k3x9q2ab") /\
  files (fs (fst run)) = ∅.
Proof.
  vm_compute. repeat split; [find_event|].
  intros src dst H. repeat destruct H as [H|H]; try discriminate H. exact H.
Qed.

(** C6. When the remote directory creation exits non-zero, a record of
    level WARNING is logged, the note ["remote_mkdir_failed"] is appended to
    the in-memory report, and the transfer tool is not spawned at all. *)
Theorem mkdir_failure_skips_transfer (json_dumps : payload -> string)
        (env : Env) (f : FS) (st : State) (code : Z) (mk : completed) :
  DiskMonitor.main json_dumps env f = (st, code) ->
  spawned "ssh" (Ok mk) (trace st) ->
  returncode mk <> 0 ->
  In (WARNING, "Remote mkdir failed: rc=" ++ PyStr.of_int (returncode mk)
               ++ " stderr=" ++ PyStr.strip (stderr mk)) (log st) /\
  (exists p, mem_payload st = Some p /\ In "remote_mkdir_failed" (notes p)) /\
  (forall res, ~ spawned "scp" res (trace st)).
Proof.
  intros Hmain Hsp Hrc. apply main_run in Hmain as (r & Hrun & ->).
  destruct (delivery_of_run _ _ _ _ _ "ssh" (Ok mk) Hrun (or_introl eq_refl) Hsp)
    as (pre & tmpdir & p0 & f1 & d & ssh & scp & subdir & Hw & Hd).
  destruct Hw as (Hpre & Hf1 & Hp0 & Hc & _ & ->).
  assert (d = MkdirFailed mk) as ->.
  { destruct Hd as (args & t & Hin).
    destruct d; cbn in Hin, Hc; intuition (try discriminate);
      match goal with H : EvSpawn _ _ _ = EvSpawn _ _ _ |- _ =>
        injection H as <- <- <- end; congruence. }
  clear Hd Hsp. cbn [fs log trace mem_payload].
  split; [cbn [delivery_log app]; do 3 right; left; reflexivity|]. split.
  { eexists. split; [reflexivity|]. cbn [delivery_notes with_more_notes notes].
    apply in_or_app. right. left. reflexivity. }
  intros res Hscp. rewrite <- !app_assoc in Hscp.
  eapply spawned_in_delivery in Hscp;
    [ | exact Hpre | intros args t; apply no_spawn_retained | right; reflexivity ].
  destruct Hscp as (args & t & Hin). cbn in Hin. intuition discriminate.
Qed.

Lemma mkdir_failure_witness :
  In (WARNING, "Remote mkdir failed: rc=1 stderr=Permission denied")
     (log (fst (DiskMonitor.main Sample.dumps Sample.mkdir_fails Sample.disk))).
Proof.
  pose (run := DiskMonitor.main Sample.dumps Sample.mkdir_fails Sample.disk).
  refine (proj1 (mkdir_failure_skips_transfer Sample.dumps Sample.mkdir_fails
                   Sample.disk (fst run) (snd run)
                   (Completed 1 "" "Permission denied") _ _ _)).
  - apply surjective_pairing.
  - unfold spawned. eexists _, _. vm_compute. find_event.
  - discriminate.
Defined.

(** ** The staging directory *)

Lemma under_refl (d : string) : Os.under d d = true.
Proof. unfold Os.under. rewrite String.eqb_refl. reflexivity. Qed.

Lemma cleaned_gone (d : string) (f : FS) : gone d (cleaned d f).
Proof.
  unfold gone, cleaned. cbn [files dirs]. split.
  - intros [H _]%elem_of_filter. rewrite under_refl in H. discriminate.
  - intros p Hp. split.
    + intros [H _]%elem_of_filter. congruence.
    + apply map_lookup_filter_None. right. intros c _. cbn. congruence.
Qed.

Lemma cleaned_files (d : string) (f : FS) (q c : string) :
  files (cleaned d f) !! q = Some c -> files f !! q = Some c.
Proof.
  unfold cleaned. cbn [files]. intros H.
  apply map_lookup_filter_Some in H. tauto.
Qed.

Lemma mkdtemp_not_collection (d : string) (pre : list event) :
  Forall collection_event pre -> ~ In (EvMkdtemp d) pre.
Proof.
  intros Hall Hin. rewrite List.Forall_forall in Hall. exact (Hall _ Hin).
Qed.

Lemma mkdtemp_not_delivery (x : string) (ssh scp : list string) (d : delivery) :
  ~ In (EvMkdtemp x) (delivery_trace ssh scp d).
Proof. destruct d; cbn; intuition discriminate. Qed.

Lemma mkdtemp_not_retained (x : string) (env : Env) (local_path text : string)
      (f : FS) (tr : list event) (d : delivery) :
  ~ In (EvMkdtemp x) (out_events (after_delivery env local_path text f tr d)).
Proof.
  destruct (after_delivery_events env local_path text f tr d)
    as [-> | [-> | [dest [-> | [target ->]]]]];
    cbn; intuition discriminate.
Qed.

(** The staging directory of a run that wrote its report is the one
    directory [mkdtemp] created. *)
Lemma written_run_staging (json_dumps : payload -> string) (env : Env) (f : FS)
      (st : State) (r : result unit) (pre : list event) (tmpdir : string)
      (p0 : payload) (f1 : FS) (d : delivery) (ssh scp : list string)
      (subdir x : string) :
  written_run json_dumps env f st r pre tmpdir p0 f1 d ssh scp subdir ->
  In (EvMkdtemp x) (trace st) -> x = tmpdir.
Proof.
  intros (Hpre & _ & _ & _ & _ & ->) Hin. cbn [trace] in Hin.
  rewrite <- !app_assoc in Hin.
  apply in_app_or in Hin as [Hin|Hin];
    [elim (mkdtemp_not_collection _ _ Hpre Hin)|].
  cbn [app] in Hin. destruct Hin as [[= ->]|[[=]|[[=]|Hin]]]; [reflexivity|].
  apply in_app_or in Hin as [Hin|Hin]; [elim (mkdtemp_not_delivery _ _ _ _ Hin)|].
  apply in_app_or in Hin as [Hin|Hin];
    [elim (mkdtemp_not_retained _ _ _ _ _ _ _ Hin)|].
  cbn in Hin. intuition discriminate.
Qed.

(** Whatever the result of [run], a staging directory it created is gone
    afterwards, and removing it was the last action. *)
Lemma run_removes_staging (json_dumps : payload -> string) (env : Env)
      (f : FS) (st : State) (r : result unit) (d : string) :
  DiskMonitor.run json_dumps env (DiskMonitor.start f) = (st, r) ->
  In (EvMkdtemp d) (trace st) ->
  gone d (fs st) /\
  exists before, trace st = (before ++ [EvRmtree d])%list.
Proof.
  intros Hrun Hin.
  apply run_outcomes in Hrun as [(_ & Hall & _)|[H|H]].
  - elim (mkdtemp_not_collection _ _ Hall Hin).
  - destruct H as (pre & tmpdir & p0 & f1 & Hpre & _ & _ & _ & ->).
    cbn [trace fs] in *.
    apply in_app_or in Hin as [Hin|Hin];
      [elim (mkdtemp_not_collection _ _ Hpre Hin)|].
    destruct Hin as [[= ->]|[[=]|[]]].
    split; [apply cleaned_gone|].
    exists (pre ++ [EvMkdtemp d])%list. rewrite <- app_assoc. reflexivity.
  - destruct H as (pre & tmpdir & p0 & f1 & dl & ssh & scp & subdir & Hw).
    pose proof (written_run_staging _ _ _ _ _ _ _ _ _ _ _ _ _ d Hw Hin) as ->.
    destruct Hw as (_ & _ & _ & _ & _ & ->). cbn [trace fs].
    split; [apply cleaned_gone|].
    eexists. rewrite !app_assoc. reflexivity.
Qed.



(** The same on the other exits: a finished run, and a run whose write
    raised. *)
Example staging_dir_removed_on_success :
  let run := DiskMonitor.main Sample.dumps (Sample.all_fine true) Sample.disk in
  snd run = 0 /\ gone "/tmp/client_disk_k3x9q2ab" (fs (fst run)).
Proof.
  intros run. split; [reflexivity|].
  refine (proj1 (run_removes_staging Sample.dumps (Sample.all_fine true)
                   Sample.disk (fst run) (Ok tt) _ _ _)).
  - vm_compute. reflexivity.
  - vm_compute. find_event.
Qed.

Example staging_dir_removed_when_write_raises :
  let run := DiskMonitor.main Sample.dumps Sample.odd_host Sample.disk in
  snd run = 1 /\
  trace (fst run) =
    [EvMakedirs "/var/log/client";
     EvSpawn lsblk_argv None Sample.lsblk_one_disk;
     EvSpawn (smartctl_argv "/dev/sda") (Some 20) Sample.smart_passed;
     EvMkdtemp "/tmp/client_disk_k3x9q2ab";
     EvRmtree "/tmp/client_disk_k3x9q2ab"] /\
  gone "/tmp/client_disk_k3x9q2ab" (fs (fst run)).
Proof.
  intros run. split; [reflexivity|]. split; [reflexivity|].
  refine (proj1 (run_removes_staging Sample.dumps Sample.odd_host
                   Sample.disk (fst run) (snd (DiskMonitor.run Sample.dumps
                     Sample.odd_host (DiskMonitor.start Sample.disk))) _ _ _)).
  - vm_compute. reflexivity.
  - vm_compute. find_event.
Qed.

(** ** A transport tool that cannot be spawned *)

(** C10. When spawning ssh or scp raises (the executable is absent:
    [FileNotFoundError]; the same holds for any exception), nothing in
    [run] catches it: [run] ends with that exception and the process exits
    with status 1. The report had been written before, and the staging
    directory is removed all the same. The health probe differs: there the
    same exception becomes an UNAVAILABLE result. *)
Theorem transport_tool_missing_is_fatal (json_dumps : payload -> string)
        (env : Env) (f : FS) (st : State) (code : Z) (prog : string) (e : exn) :
  DiskMonitor.main json_dumps env f = (st, code) ->
  prog = "ssh" \/ prog = "scp" ->
  spawned prog (Raise e) (trace st) ->
  DiskMonitor.run json_dumps env (DiskMonitor.start f) = (st, Raise e) /\
  code = 1 /\
  (exists before tmp local_path p0 after,
     trace st = (before ++ [EvOpenWrite tmp (json_dumps p0);
                            EvReplace tmp local_path] ++ after)%list /\
     spawned prog (Raise e) after) /\
  (exists d, In (EvMkdtemp d) (trace st) /\ gone d (fs st)) /\
  (forall env' device st0,
     env_spawn env' (trace st0) (smartctl_argv device) = Raise e ->
     exists st1 r,
       DiskMonitor.smart_check env' device st0 = (st1, Ok r) /\
       Spec.status_of r = Some Spec.UNAVAILABLE).
Proof.
  intros Hmain Hprog Hsp. apply main_run in Hmain as (r & Hrun & ->).
  destruct (delivery_of_run _ _ _ _ _ prog (Raise e) Hrun Hprog Hsp)
    as (pre & tmpdir & p0 & f1 & d & ssh & scp & subdir & Hw & Hd).
  assert (Hr : delivery_result d = Raise e).
  { destruct Hd as (args & t & Hin).
    destruct d; cbn in Hin; intuition (try discriminate);
      match goal with H : EvSpawn _ _ _ = EvSpawn _ _ _ |- _ =>
        injection H as _ _ _ <- end; reflexivity. }
  pose proof Hw as (Hpre & _ & _ & _ & Hres & Hst).
  assert (r = Raise e) as ->
    by (rewrite Hres; unfold after_delivery; rewrite Hr; reflexivity).
  clear Hres. split; [exact Hrun|].
  split; [reflexivity|]. split; [|split].
  - rewrite Hst. cbn [trace].
    eexists (pre ++ [EvMkdtemp tmpdir])%list, _, _, p0, _. split.
    + rewrite <- !app_assoc. cbn [app]. reflexivity.
    + apply spawned_app. left. exact Hd.
  - exists tmpdir.
    assert (Hin : In (EvMkdtemp tmpdir) (trace st)).
    { rewrite Hst. cbn [trace]. rewrite <- !app_assoc.
      apply in_or_app. right. left. reflexivity. }
    split; [exact Hin|].
    exact (proj1 (run_removes_staging _ _ _ _ _ _ Hrun Hin)).
  - intros env' device st0 Hraise. rewrite smart_check_eq. cbv zeta.
    rewrite Hraise. eexists _, _. split; [reflexivity|].
    destruct (decide _); reflexivity.
Qed.

Lemma transport_tool_missing_witness :
  snd (DiskMonitor.main Sample.dumps Sample.no_ssh Sample.disk) = 1.
Proof.
  pose (run := DiskMonitor.main Sample.dumps Sample.no_ssh Sample.disk).
  refine (proj1 (proj2 (transport_tool_missing_is_fatal Sample.dumps
            Sample.no_ssh Sample.disk (fst run) (snd run) "ssh"
            (Exn FileNotFoundError "[Errno 2] No such file or directory: 'ssh'")
            _ _ _))).
  - apply surjective_pairing.
  - left. reflexivity.
  - unfold spawned. eexists _, _. vm_compute. find_event.
Defined.

(** ** The persisted report *)

Lemma written_files (local_path text : string) (f : FS) (q c : string) :
  files (written local_path text f) !! q = Some c ->
  files f !! q = Some c \/ c = text.
Proof.
  unfold written. cbn [files]. intros H.
  apply lookup_insert_Some in H as [[_ <-]|[_ H]]; [right; reflexivity|].
  apply lookup_delete_Some in H as [_ H].
  apply lookup_insert_Some in H as [[_ <-]|[_ H]]; [right; reflexivity|].
  left. exact H.
Qed.

Lemma after_delivery_files (env : Env) (local_path text : string) (f : FS)
      (tr : list event) (d : delivery) (q c : string) :
  files (out_fs (after_delivery env local_path text
                                (written local_path text f) tr d))
    !! q = Some c ->
  files f !! q = Some c \/ c = text.
Proof.
  unfold after_delivery, retained.
  destruct (delivery_result d);
    [destruct (default false (keep_local_copy (env_config env)))|];
    repeat match goal with |- context [env_refuses ?e ?t ?k] =>
      destruct (env_refuses e t k) end;
    cbn [out_fs files]; intros H;
    try exact (written_files _ _ _ _ _ H).
  - apply lookup_insert_Some in H as [[_ <-]|[_ H]]; [right; reflexivity|].
    exact (written_files _ _ _ _ _ H).
  - apply lookup_delete_Some in H as [_ H]. exact (written_files _ _ _ _ _ H).
Qed.

Lemma after_delivery_leaves (env : Env) (local_path text : string) (f : FS)
      (tr : list event) (d : delivery) :
  Forall (leaves_report local_path)
         (out_events (after_delivery env local_path text f tr d)).
Proof.
  destruct (after_delivery_events env local_path text f tr d)
    as [-> | [-> | [dest [-> | [target ->]]]]];
    repeat constructor.
Qed.

Lemma delivery_leaves (local_path : string) (ssh scp : list string)
      (d : delivery) :
  Forall (leaves_report local_path) (delivery_trace ssh scp d).
Proof. destruct d; cbn; repeat constructor. Qed.

Lemma replace_not_delivery (a b : string) (ssh scp : list string) (d : delivery) :
  ~ In (EvReplace a b) (delivery_trace ssh scp d).
Proof. destruct d; cbn; intuition discriminate. Qed.

Lemma replace_not_retained (a b : string) (env : Env)
      (local_path text : string) (f : FS) (tr : list event) (d : delivery) :
  ~ In (EvReplace a b) (out_events (after_delivery env local_path text f tr d)).
Proof.
  destruct (after_delivery_events env local_path text f tr d)
    as [-> | [-> | [dest [-> | [target ->]]]]];
    cbn; intuition discriminate.
Qed.

(** C7. Once the report has been written its bytes are never changed.
    After the rename onto the final path the run only spawns tools, makes
    directories, copies the file, removes it, and removes the staging
    directory: nothing is written or renamed. What arises later (a failed
    mkdir or transfer) is a note appended to the report in memory and a
    record of level WARNING or ERROR in the log. Every file the run leaves
    behind that was not there before holds exactly the text serialized when
    the report was written, whose notes lack the later ones. *)
Theorem report_file_is_never_rewritten (json_dumps : payload -> string)
        (env : Env) (f : FS) (st : State) (code : Z) (tmp local_path : string) :
  DiskMonitor.main json_dumps env f = (st, code) ->
  In (EvReplace tmp local_path) (trace st) ->
  exists p0 extra before after,
    trace st = (before ++ [EvOpenWrite tmp (json_dumps p0);
                           EvReplace tmp local_path] ++ after)%list /\
    Forall (leaves_report local_path) after /\
    mem_payload st = Some (with_more_notes p0 extra) /\
    (extra = [] \/ extra = ["remote_mkdir_failed"] \/ extra = ["scp_failed"]) /\
    (forall n, In n extra ->
       exists l msg, (l = WARNING \/ l = ERROR) /\ In (l, msg) (log st)) /\
    (notes p0 = [] \/ notes p0 = [no_disks_note]) /\
    (forall q c, files (fs st) !! q = Some c ->
                 files f !! q = Some c \/ c = json_dumps p0).
Proof.
  intros Hmain Hin. apply main_run in Hmain as (r & Hrun & _).
  apply run_outcomes in Hrun as [(_ & Hall & _)|[H|H]].
  - rewrite List.Forall_forall in Hall. elim (Hall _ Hin).
  - destruct H as (pre & tmpdir & p0 & f1 & Hpre & _ & _ & _ & ->).
    cbn [trace] in Hin. apply in_app_or in Hin as [Hin|Hin].
    + rewrite List.Forall_forall in Hpre. elim (Hpre _ Hin).
    + cbn in Hin. intuition discriminate.
  - destruct H as (pre & tmpdir & p0 & f1 & d & ssh & scp & subdir & Hw).
    destruct Hw as (Hpre & Hf1 & Hp0 & Hc & _ & ->).
    cbn [trace fs log mem_payload] in *.
    set (lp := PyPath.join tmpdir
                 (DiskMonitor.report_filename (env_hostname env) p0)) in *.
    rewrite <- !app_assoc in Hin.
    assert (tmp = lp ++ ".tmp" /\ local_path = lp) as [-> ->].
    { apply in_app_or in Hin as [Hin|Hin].
      { rewrite List.Forall_forall in Hpre. elim (Hpre _ Hin). }
      cbn [app] in Hin. destruct Hin as [[=]|[[=]|[[= <- <-]|Hin]]];
        [split; reflexivity|].
      apply in_app_or in Hin as [Hin|Hin];
        [elim (replace_not_delivery _ _ _ _ _ Hin)|].
      apply in_app_or in Hin as [Hin|Hin];
        [elim (replace_not_retained _ _ _ _ _ _ _ _ Hin)|].
      cbn in Hin. intuition discriminate. }
    exists p0, (delivery_notes d), (pre ++ [EvMkdtemp tmpdir])%list.
    eexists. split; [rewrite <- !app_assoc; cbn [app]; reflexivity|].
    split.
    { apply Forall_app. split; [apply delivery_leaves|].
      apply Forall_app. split; [apply after_delivery_leaves|].
      repeat constructor. }
    split; [reflexivity|]. split; [destruct d; cbn; tauto|]. split.
    { intros n Hn. destruct d; cbn in Hn; try contradiction.
      - eexists WARNING, _. split; [left; reflexivity|].
        cbn. do 3 right. left. reflexivity.
      - eexists ERROR, _. split; [right; reflexivity|].
        cbn. do 3 right. left. reflexivity. }
    split.
    { destruct Hp0 as (_ & _ & _ & [[H _]|[H _]]); [left|right]; exact H. }
    intros q c Hq. apply cleaned_files in Hq.
    apply after_delivery_files in Hq. rewrite Hf1 in Hq. exact Hq.
Qed.

Lemma report_file_witness :
  let st := fst (DiskMonitor.main Sample.dumps (Sample.scp_fails true)
                                  Sample.disk) in
  exists p0 extra,
    mem_payload st = Some (with_more_notes p0 extra) /\
    (notes p0 = [] \/ notes p0 = [no_disks_note]) /\
    forall q c, files (fs st) !! q = Some c ->
                files Sample.disk !! q = Some c \/ c = Sample.dumps p0.
Proof.
  intros st.
  pose (run := DiskMonitor.main Sample.dumps (Sample.scp_fails true) Sample.disk).
  destruct (report_file_is_never_rewritten Sample.dumps (Sample.scp_fails true)
              Sample.disk (fst run) (snd run)
              "/tmp/client_disk_k3x9q2ab/node1_2024-05-01T10-20-30.123456Z.json.tmp"
              "/tmp/client_disk_k3x9q2ab/node1_2024-05-01T10-20-30.123456Z.json")
    as (p0 & extra & before & after & _ & _ & Hmem & _ & _ & Hnotes & Hfiles).
  - apply surjective_pairing.
  - vm_compute. find_event.
  - exists p0, extra. split; [exact Hmem|]. split; [exact Hnotes|exact Hfiles].
Defined.

(** ** Block-device enumeration *)

Example disks_of_listing :
  flat_map DiskMonitor.disk_of_line
    (PyStr.splitlines
       ("sda    disk" ++ Sample.lf ++ "sda1   part" ++ Sample.lf
        ++ "loop0  loop" ++ Sample.lf ++ " nvme0n1 disk " ++ Sample.lf
        ++ Sample.lf ++ "sr0 rom extra" ++ Sample.lf))
  = ["/dev/sda"; "/dev/nvme0n1"].
Proof. reflexivity. Qed.

(** A listing tool that exits non-zero yields no disk. *)
Lemma list_block_disks_nonzero (env : Env) (st : State) (c : completed) :
  env_spawn env (trace st) lsblk_argv = Ok c -> returncode c <> 0 ->
  exists st', DiskMonitor.list_block_disks env st = (st', Ok []).
Proof.
  intros Hc Hrc. rewrite list_block_disks_eq. cbv zeta. rewrite Hc.
  apply Z.eqb_neq in Hrc. rewrite Hrc. eauto.
Qed.

(** With no disk to probe, the note is recorded and no probe is run. *)
Lemma no_disks_yields_note (env : Env) (st : State) (p : payload)
      (c : completed) :
  mem_payload st = Some p ->
  env_spawn env (trace st) lsblk_argv = Ok c ->
  (if returncode c =? 0
   then flat_map DiskMonitor.disk_of_line (PyStr.splitlines (stdout c))
   else []) = [] ->
  exists st',
    DiskMonitor.smart_checks env st = (st', Ok tt) /\
    mem_payload st' = Some (with_more_notes p [no_disks_note]).
Proof.
  intros Hp Hc Hd. destruct (smart_checks_spec env st p Hp) as (tr & _ & H).
  rewrite Hc in H. cbv zeta in H. destruct H as (p' & Hrun & [[_ ->]|[Hne _]]).
  - eexists. split; [exact Hrun|reflexivity].
  - contradiction.
Qed.

Example run_with_failing_lsblk :
  let run := DiskMonitor.main Sample.dumps Sample.lsblk_fails Sample.disk in
  snd run = 0 /\
  option_map smart (mem_payload (fst run)) = Some [] /\
  option_map notes (mem_payload (fst run)) = Some [no_disks_note] /\
  In (EvOpenWrite
        "/tmp/client_disk_k3x9q2ab/node1_2024-05-01T10-20-30.123456Z.json.tmp"
        ("node1 2024-05-01T10:20:30.123456Z notes:" ++ no_disks_note))
     (trace (fst run)).
Proof.
  intros run. split; [reflexivity|]. split; [reflexivity|].
  split; [reflexivity|]. vm_compute. find_event.
Qed.

(** C4 (where the program departs from it). When the listing tool cannot
    be spawned, [list_block_disks] does not return an empty sequence: the
    exception leaves it and leaves [run]. The process exits with status 1,
    no note is recorded and no report is written. *)
Theorem lsblk_missing_aborts_run (json_dumps : payload -> string) (env : Env)
        (f : FS) (lp : string) (e : exn) :
  log_path (env_config env) = Some lp ->
  PyPath.dirname lp <> "" ->
  (forall p e', In (p, Raise e') (env_mounts env) -> is_permission_error e') ->
  env_spawn env [EvMakedirs (PyPath.dirname lp)] lsblk_argv = Raise e ->
  exists st,
    DiskMonitor.main json_dumps env f = (st, 1) /\
    DiskMonitor.run json_dumps env (DiskMonitor.start f) = (st, Raise e) /\
    trace st = [EvMakedirs (PyPath.dirname lp);
                EvSpawn lsblk_argv None (Raise e)] /\
    files (fs st) = files f /\
    option_map notes (mem_payload st) = Some [] /\
    option_map smart (mem_payload st) = Some [].
Proof.
  intros Hlp Hdir Hmounts Hspawn.
  assert (Hrun : exists st,
    DiskMonitor.run json_dumps env (DiskMonitor.start f) = (st, Raise e) /\
    trace st = [EvMakedirs (PyPath.dirname lp);
                EvSpawn lsblk_argv None (Raise e)] /\
    files (fs st) = files f /\
    option_map notes (mem_payload st) = Some [] /\
    option_map smart (mem_payload st) = Some []).
  { unfold DiskMonitor.run, DiskMonitor.start.
    erewrite bind_ok by reflexivity. rewrite Hlp.
    erewrite bind_ok by reflexivity.
    unfold Utils.setup_logger.
    erewrite bind_ok
      by (rewrite makedirs_eq, is_empty_false by exact Hdir; reflexivity).
    erewrite bind_ok by reflexivity.
    cbn [wrote fs log trace mem_payload app].
    pose proof (proj2 (proj2 (proj2 (collect_from_spec
                  (env_mounts env)))) Hmounts) as Hparts.
    erewrite bind_ok
      by (unfold DiskMonitor.collect_disk_usage; rewrite Hparts; reflexivity).
    erewrite bind_ok by reflexivity.
    cbn [fs log trace mem_payload].
    match goal with |- context [bind (DiskMonitor.smart_checks _) _ ?s] =>
      destruct (smart_checks_spec env s _ eq_refl) as (tr & _ & Hs);
      pose proof (list_block_disks_eq env s) as Hl
    end.
    cbn [fs log trace mem_payload] in Hs, Hl. cbv zeta in Hl.
    rewrite Hspawn in Hs, Hl.
    unfold DiskMonitor.smart_checks in Hs.
    erewrite bind_raise in Hs by exact Hl. injection Hs as Htr.
    erewrite bind_raise.
    2: { unfold DiskMonitor.smart_checks. erewrite bind_raise by exact Hl.
         reflexivity. }
    eexists. split; [reflexivity|]. cbn [fs log trace mem_payload files].
    repeat split. }
  destruct Hrun as (st & Hrun & Hrest). exists st.
  split; [|split; [exact Hrun|exact Hrest]].
  unfold DiskMonitor.main. rewrite Hrun. reflexivity.
Qed.

Lemma lsblk_missing_witness :
  snd (DiskMonitor.main Sample.dumps Sample.no_lsblk Sample.disk) = 1.
Proof.
  destruct (lsblk_missing_aborts_run Sample.dumps Sample.no_lsblk Sample.disk
              "/var/log/client/disk.log"
              (Exn FileNotFoundError
                   "[Errno 2] No such file or directory: 'lsblk'"))
    as (st & Hmain & _).
  - reflexivity.
  - vm_compute. discriminate.
  - intros p e' [[=]|[[= <- <-]|[]]]. reflexivity.
  - reflexivity.
  - rewrite Hmain. reflexivity.
Defined.

(* ===================================================================== *)
(** * Further properties of the run                                       *)
(* ===================================================================== *)

(** ** Tactics *)

(** splits a hypothesis on membership in a trace into its cases *)
Ltac in_cases H :=
  repeat match type of H with
         | In _ (_ ++ _) => apply in_app_or in H as [H|H]
         | In _ (_ :: _) => destruct H as [H|H]
         | In _ [] => destruct H
         end.

Ltac inline_lets := repeat match goal with x := _ |- _ => subst x end.

(** the ways a run can end, one goal each *)
Ltac end_cases Hend :=
  destruct Hend; inline_lets; unfold DiskMonitor.start in *;
  cbn [trace fs log mem_payload files dirs] in *.

(** finds an event in a trace made of explicit events and of parts that do
    not hold it *)
Ltac find_in :=
  repeat first [left; reflexivity | right | apply in_or_app; right].

(** ** Every exit of a run *)

(** The loop over the disks in full: one probe per disk, in order. *)
Lemma smart_loop_exact (env : Env) (disks : list string) :
  forall (st : State) (p : payload),
    mem_payload st = Some p ->
    exists probes rs,
      for_in disks (fun d => let* sc := DiskMonitor.smart_check env d in
                             smart_append sc) st =
      (MkState (fs st) (log st) (trace st ++ probes)
               (Some (with_more_smart p rs)), Ok tt) /\
      probe_events probes disks /\
      map Spec.device_of rs = disks.
Proof.
  induction disks as [|d disks IH]; intros st p Hp.
  - exists [], []. rewrite with_more_smart_nil, app_nil_r. cbn.
    unfold ret. destruct st; cbn in *; subst. repeat split. constructor.
  - destruct (probe_and_record env d st p Hp) as (r & Hr & Hstep).
    cbn [for_in]. erewrite bind_ok by exact Hstep.
    edestruct (IH (MkState (fs st) (log st)
                    (trace st ++ [EvSpawn (smartctl_argv d) (Some 20)
                       (env_spawn env (trace st) (smartctl_argv d))])
                    (Some (add_smart r p))) (add_smart r p) eq_refl)
      as (tr & rs & Heq & Htr & Hrs).
    rewrite Heq. cbn [fs log trace].
    eexists (_ :: tr), (r :: rs).
    split; [|split].
    + rewrite <- app_assoc. cbn. unfold with_more_smart, add_smart. cbn.
      rewrite <- app_assoc. reflexivity.
    + constructor; [eexists; reflexivity | exact Htr].
    + cbn. rewrite Hrs, Hr. reflexivity.
Qed.

(** The SMART checks in full. *)
Lemma smart_checks_exact (env : Env) (st : State) (p : payload) :
  mem_payload st = Some p ->
  match env_spawn env (trace st) lsblk_argv with
  | Raise e =>
      DiskMonitor.smart_checks env st =
      (MkState (fs st) (log st) (trace st ++ [EvSpawn lsblk_argv None (Raise e)])
               (Some p), Raise e)
  | Ok c =>
      exists probes rs,
        probe_events probes (listed_disks c) /\
        map Spec.device_of rs = listed_disks c /\
        DiskMonitor.smart_checks env st =
        (MkState (fs st) (log st)
                 (trace st ++ EvSpawn lsblk_argv None (Ok c) :: probes)
                 (Some match listed_disks c with
                       | [] => with_more_notes p [no_disks_note]
                       | _ => with_more_smart p rs
                       end), Ok tt)
  end.
Proof.
  intros Hp. unfold DiskMonitor.smart_checks.
  pose proof (list_block_disks_eq env st) as Hl. cbv zeta in Hl.
  destruct (env_spawn env (trace st) lsblk_argv) as [c|e] eqn:Hout.
  - fold (listed_disks c) in Hl. erewrite bind_ok by exact Hl.
    destruct (listed_disks c) as [|d ds] eqn:Hd.
    + exists [], []. split; [constructor|]. split; [reflexivity|].
      unfold notes_append, bind, get_payload, set_payload.
      cbn [mem_payload fs log trace]. rewrite Hp. reflexivity.
    + edestruct (smart_loop_exact env (d :: ds)
                   (MkState (fs st) (log st)
                            (trace st ++ [EvSpawn lsblk_argv None (Ok c)])
                            (mem_payload st)) p Hp) as (tr & rs & Heq & Htr & Hrs).
      exists tr, rs. split; [exact Htr|]. split; [exact Hrs|].
      rewrite Heq. cbn [fs log trace]. rewrite <- app_assoc. reflexivity.
  - erewrite bind_raise by exact Hl. rewrite Hp. reflexivity.
Qed.

(** The delivery stage in full: the key that is missing, or the two command
    lines and how they ended. *)
Lemma deliver_spec (env : Env) (cfg : config) (hostname local_path : string)
      (st : State) (p : payload) :
  mem_payload st = Some p ->
  match missing_key cfg with
  | Some key =>
      DiskMonitor.deliver env cfg hostname local_path st =
      (st, Raise (Exn KeyError ("'" ++ key ++ "'")))
  | None =>
      exists ip user dir d,
        monitoring_node_ip cfg = Some ip /\
        monitoring_node_user cfg = Some user /\
        monitoring_node_receive_dir cfg = Some dir /\
        delivery_consistent d /\ (forall e, d <> KeyMissing e) /\
        let monitor_port := default 22 (port cfg) in
        let subdir := remote_subdir_of dir hostname in
        DiskMonitor.deliver env cfg hostname local_path st =
        (MkState (fs st) (log st ++ delivery_log subdir d)
                 (trace st
                  ++ delivery_trace
                       (DiskMonitor.mkdir_cmd monitor_port user ip subdir)
                       (DiskMonitor.scp_cmd monitor_port user ip subdir
                                            local_path) d)
                 (Some (with_more_notes p (delivery_notes d))),
         delivery_result d)
  end.
Proof.
  intros Hp. unfold DiskMonitor.deliver, missing_key.
  destruct (monitoring_node_ip cfg) as [ip|]; [|reflexivity].
  destruct (monitoring_node_user cfg) as [user|]; [|reflexivity].
  destruct (monitoring_node_receive_dir cfg) as [dir|]; [|reflexivity].
  exists ip, user, dir.
  cbn [getitem]. unfold bind at 1 2 3, ret. cbv zeta.
  set (monitor_port := default 22 (port cfg)).
  fold (remote_subdir_of dir hostname).
  set (subdir := remote_subdir_of dir hostname).
  unfold bind, logger_info, logger_warning, logger_error, logger_log, Os.spawn,
    notes_append, get_payload, set_payload.
  cbn [fs log trace mem_payload].
  destruct (env_spawn env (trace st) _) as [mk|e].
  2: { exists (MkdirRaised e). repeat (split; [first [reflexivity|discriminate|exact I]|]).
       rewrite with_more_notes_nil, Hp. reflexivity. }
  destruct (returncode mk =? 0) eqn:Hmk; cbn [negb].
  2: { exists (MkdirFailed mk). rewrite Hp.
       do 3 (split; [reflexivity|]). split; [apply Z.eqb_neq, Hmk|].
       split; [discriminate|]. cbn. rewrite <- app_assoc. reflexivity. }
  apply Z.eqb_eq in Hmk.
  destruct (env_spawn env _ _) as [scp|e].
  2: { exists (ScpRaised mk e). do 3 (split; [reflexivity|]).
       split; [exact Hmk|]. split; [discriminate|].
       rewrite with_more_notes_nil, Hp. cbn. rewrite <- app_assoc. reflexivity. }
  destruct (returncode scp =? 0) eqn:Hscp; cbn [negb].
  - exists (Delivered mk scp). do 3 (split; [reflexivity|]).
    split; [split; [exact Hmk|apply Z.eqb_eq, Hscp]|]. split; [discriminate|].
    rewrite with_more_notes_nil, Hp. cbn. rewrite <- !app_assoc. reflexivity.
  - exists (ScpFailed mk scp). rewrite Hp. do 3 (split; [reflexivity|]).
    split; [split; [exact Hmk|apply Z.eqb_neq, Hscp]|]. split; [discriminate|].
    cbn. rewrite <- !app_assoc. reflexivity.
Qed.

(** The body of the [try] in full. *)
Lemma staged_spec (json_dumps : payload -> string) (env : Env)
      (hostname tmpdir : string) (st : State) (p0 : payload) :
  mem_payload st = Some p0 ->
  let cfg := env_config env in
  let local_path := PyPath.join tmpdir (DiskMonitor.report_filename hostname p0) in
  let text := json_dumps p0 in
  let tmp := local_path ++ ".tmp" in
  if Os.parent_exists (fs st) local_path then
    match missing_key cfg with
    | Some key =>
        DiskMonitor.staged json_dumps env cfg hostname tmpdir st =
        (MkState (written local_path text (fs st))
                 (log st ++ [wrote_record local_path])
                 (trace st ++ [EvOpenWrite tmp text; EvReplace tmp local_path])
                 (Some p0),
         Raise (Exn KeyError ("'" ++ key ++ "'")))
    | None =>
        exists ip user dir d,
          monitoring_node_ip cfg = Some ip /\
          monitoring_node_user cfg = Some user /\
          monitoring_node_receive_dir cfg = Some dir /\
          delivery_consistent d /\ (forall e, d <> KeyMissing e) /\
          let monitor_port := default 22 (port cfg) in
          let subdir := remote_subdir_of dir hostname in
          let tr :=
            (trace st ++ [EvOpenWrite tmp text; EvReplace tmp local_path]
             ++ delivery_trace
                  (DiskMonitor.mkdir_cmd monitor_port user ip subdir)
                  (DiskMonitor.scp_cmd monitor_port user ip subdir local_path)
                  d)%list in
          let kept :=
            after_delivery env local_path text
                           (written local_path text (fs st)) tr d in
          DiskMonitor.staged json_dumps env cfg hostname tmpdir st =
          (MkState (out_fs kept)
                   (log st ++ [wrote_record local_path] ++ delivery_log subdir d)
                   (tr ++ out_events kept)
                   (Some (with_more_notes p0 (delivery_notes d))),
           out_result kept)
    end
  else
    DiskMonitor.staged json_dumps env cfg hostname tmpdir st =
    (st, Raise (Os.enoent tmp)).
Proof.
  intros Hp cfg local_path text tmp. unfold DiskMonitor.staged.
  erewrite bind_ok by (unfold get_payload; rewrite Hp; reflexivity).
  fold local_path text.
  pose proof (write_json_atomic_eq json_dumps local_path p0 st) as Hw.
  cbv zeta in Hw. fold text tmp in Hw.
  destruct (Os.parent_exists (fs st) local_path).
  2: { erewrite bind_raise by exact Hw. reflexivity. }
  erewrite bind_ok by exact Hw.
  erewrite bind_ok by reflexivity. cbn [fs log trace mem_payload].
  match goal with |- context [bind (DiskMonitor.deliver _ _ _ _) _ ?s] =>
    pose proof (deliver_spec env cfg hostname local_path s p0 Hp) as Hd
  end.
  cbn [fs log trace mem_payload] in Hd.
  destruct (missing_key cfg) as [key|].
  { erewrite bind_raise by exact Hd. rewrite Hp. reflexivity. }
  destruct Hd as (ip & user & dir & d & Hip & Hu & Hdir & Hc & Hk & Hd).
  exists ip, user, dir, d. repeat (split; [assumption|]). cbv zeta in *.
  unfold after_delivery.
  destruct (delivery_result d) as [[]|e] eqn:Hr.
  - erewrite bind_ok by exact Hd.
    destruct (local_path_json tmpdir hostname p0) as [y Hy]. fold local_path in Hy.
    erewrite (retain_eq env cfg local_path text y) by
      (first [exact Hy | cbn [fs files]; apply lookup_insert_eq]).
    cbn [fs log trace mem_payload]. unfold written, wrote_record, tmp.
    rewrite <- !app_assoc. reflexivity.
  - erewrite bind_raise by exact Hd. unfold written, wrote_record, tmp.
    cbn [out_fs out_events out_result]. rewrite app_nil_r, <- !app_assoc.
    reflexivity.
Qed.

(** Every run from a fresh process ends in one of the ways of [run_end]. *)
Lemma run_full (json_dumps : payload -> string) (env : Env) (f : FS)
      (st : State) (r : result unit) :
  DiskMonitor.run json_dumps env (DiskMonitor.start f) = (st, r) ->
  run_end json_dumps env f st r.
Proof.
  unfold DiskMonitor.run, DiskMonitor.start. intros H.
  erewrite bind_ok in H by reflexivity.
  destruct (log_path (env_config env)) as [lp|] eqn:Hlp.
  2: { cbn in H. injection H as <- <-. apply End_no_log_path, Hlp. }
  erewrite bind_ok in H by reflexivity.
  unfold Utils.setup_logger in H.
  pose proof (makedirs_eq Os.permitted (PyPath.dirname lp)
                (MkState f [] [] None)) as Hm.
  cbn [Os.permitted] in Hm.
  destruct (PyStr.is_empty (PyPath.dirname lp)) eqn:Hdir.
  { erewrite bind_raise in H by exact Hm. injection H as <- <-.
    assert (Hd : PyPath.dirname lp = "") by (destruct (PyPath.dirname lp); [reflexivity|discriminate]).
    rewrite Hd. eapply End_bare_log_path; eassumption. }
  assert (Hdne : PyPath.dirname lp <> "") by (intros E; rewrite E in Hdir; discriminate).
  erewrite bind_ok in H by exact Hm. clear Hm.
  erewrite bind_ok in H by reflexivity.
  cbn [wrote fs log trace mem_payload app] in H.
  pose proof (collect_from_answered (env_mounts env)) as Hc.
  destruct (DiskMonitor.collect_from (env_mounts env)) as [parts|e] eqn:Hparts.
  2: { erewrite bind_raise in H
         by (unfold DiskMonitor.collect_disk_usage; rewrite Hparts; reflexivity).
       injection H as <- <-. eapply End_usage; eassumption. }
  subst parts.
  erewrite bind_ok in H
    by (unfold DiskMonitor.collect_disk_usage; rewrite Hparts; reflexivity).
  erewrite bind_ok in H by reflexivity.
  cbn [fs log trace mem_payload] in H.
  match type of H with bind _ _ ?s = _ =>
    pose proof (smart_checks_exact env s _ eq_refl) as Hs
  end.
  cbn [fs log trace mem_payload] in Hs.
  destruct (env_spawn env _ lsblk_argv) as [c|e] eqn:Hls.
  2: { erewrite bind_raise in H by exact Hs. injection H as <- <-.
       eapply End_lsblk; eassumption. }
  destruct Hs as (probes & rs & Hprobes & Hrs & Hs).
  erewrite bind_ok in H by exact Hs. clear Hs.
  set (p0 := match listed_disks c with [] => _ | _ => _ end) in H.
  assert (Hcoll : collection env lp c probes p0).
  { unfold collection. repeat (split; [first [assumption|reflexivity]|]).
    subst p0. destruct (listed_disks c) eqn:Hd; cbn.
    - repeat split.
    - repeat split. exact Hrs. }
  clearbody p0.
  match type of H with bind _ _ ?s = _ =>
    pose proof (mkdtemp_eq env "client_disk_" s) as Hd
  end.
  cbn [fs log trace mem_payload files dirs] in Hd.
  fold (collection_fs f lp) in Hd.
  destruct (Os.mkdtemp_try _ _ _ (collection_fs f lp)) as [tmpdir|] eqn:Htmp.
  2: { erewrite bind_raise in H by exact Hd. injection H as <- <-.
       eapply End_no_tmpdir; eassumption. }
  erewrite bind_ok in H by exact Hd. clear Hd.
  unfold wrote in H. cbn [fs log trace mem_payload files dirs collection_fs] in H.
  fold (staging_fs f lp tmpdir) in H.
  unfold bind at 1, try_finally in H.
  match type of H with context [DiskMonitor.staged _ _ _ _ _ ?s] =>
    pose proof (staged_spec json_dumps env
                  (DiskMonitor.get_hostname env) tmpdir s p0 eq_refl) as Hst
  end.
  cbv zeta in Hst. cbn [fs log trace mem_payload] in Hst.
  unfold DiskMonitor.get_hostname in *.
  destruct (Os.parent_exists (staging_fs f lp tmpdir) _) eqn:Hpar.
  2: { rewrite Hst, rmtree_eq in H. unfold wrote in H.
       cbn [fs log trace mem_payload] in H. injection H as <- <-.
       pose proof (End_write json_dumps env f lp c probes p0 tmpdir
                     Hcoll Htmp Hpar) as Hend.
       unfold collection_trace in Hend. rewrite <- !app_assoc.
       cbn [app] in *. exact Hend. }
  destruct (missing_key (env_config env)) as [key|] eqn:Hkey.
  { rewrite Hst, rmtree_eq in H. unfold wrote in H.
    cbn [fs log trace mem_payload] in H. injection H as <- <-.
    pose proof (End_key json_dumps env f lp c probes p0 tmpdir key
                  Hcoll Htmp Hpar Hkey) as Hend.
    unfold collection_trace in Hend. rewrite <- !app_assoc.
    cbn [app] in *. exact Hend. }
  destruct Hst as (ip & user & dir & d & Hip & Hu & Hdr & Hcons & Hnk & Hst).
  rewrite Hst, rmtree_eq in H. unfold wrote in H.
  cbn [fs log trace mem_payload] in H.
  pose proof (End_delivery json_dumps env f lp c probes p0 tmpdir ip user dir d
                Hcoll Htmp Hpar Hip Hu Hdr Hcons Hnk) as Hend.
  cbv zeta in Hend. unfold collection_trace in Hend.
  repeat first [rewrite <- app_assoc in Hend | progress cbn [app] in Hend].
  repeat first [rewrite <- app_assoc in H | progress cbn [app] in H].
  revert H Hend.
  match goal with |- context [out_result ?k] => generalize k end.
  intros [f' evs [[]|e]]; cbn [out_fs out_events out_result finished];
    intros H Hend; injection H as <- <-; rewrite ?app_nil_r in Hend;
    repeat first [rewrite <- app_assoc in Hend | progress cbn [app] in Hend];
    repeat first [rewrite <- app_assoc | progress cbn [app]]; exact Hend.
Qed.

(** ** Parsing the listing *)

Lemma space_free_snoc (s : string) (c : ascii) :
  space_free s = true -> PyStr.is_space c = false ->
  space_free (PyStr.snoc s c) = true.
Proof.
  intros Hs Hc. unfold PyStr.snoc. induction s as [|x s IH].
  - rewrite str_nil_app. cbn. rewrite Hc. reflexivity.
  - rewrite str_cons_app. cbn [space_free] in *.
    apply andb_true_iff in Hs as [Hx Hs]. rewrite Hx, (IH Hs). reflexivity.
Qed.

Lemma snoc_nonempty (s : string) (c : ascii) : PyStr.snoc s c <> "".
Proof. unfold PyStr.snoc. apply str_app_nonempty_r. discriminate. Qed.

Lemma is_empty_true (s : string) : PyStr.is_empty s = true -> s = "".
Proof. destruct s; [reflexivity|discriminate]. Qed.

(** Every piece [split] returns is a word. *)
Lemma split_from_words (s : string) :
  forall cur, space_free cur = true ->
              Forall word (PyStr.split_from cur s).
Proof.
  induction s as [|c s IH]; intros cur Hcur; cbn [PyStr.split_from].
  - destruct (PyStr.is_empty cur) eqn:E; [constructor|].
    repeat constructor; [|exact Hcur]. intros ->. discriminate.
  - destruct (PyStr.is_space c) eqn:Hc.
    + destruct (PyStr.is_empty cur) eqn:E; [apply IH; reflexivity|].
      constructor; [|apply IH; reflexivity].
      split; [intros ->; discriminate|exact Hcur].
    + apply IH. apply space_free_snoc; assumption.
Qed.

Lemma disk_of_line_words (line dev : string) :
  In dev (DiskMonitor.disk_of_line line) ->
  exists name, dev = "/dev/" ++ name /\ word name.
Proof.
  unfold DiskMonitor.disk_of_line.
  pose proof (split_from_words (PyStr.strip line) "" eq_refl) as Hw.
  fold (PyStr.split (PyStr.strip line)) in Hw.
  destruct (PyStr.split (PyStr.strip line)) as [|name [|ty [|x l]]];
    try contradiction.
  destruct (String.eqb ty "disk"); [|contradiction].
  intros [<-|[]]. exists name. split; [reflexivity|].
  inversion Hw; assumption.
Qed.

(** X1. Every path [list_block_disks] returns is ["/dev/"] followed by a
    non-empty name without white space. *)
Theorem listed_disks_are_dev_paths (env : Env) (st st' : State)
        (ds : list string) :
  DiskMonitor.list_block_disks env st = (st', Ok ds) ->
  Forall (fun dev => exists name, dev = "/dev/" ++ name /\ word name) ds.
Proof.
  rewrite list_block_disks_eq. cbv zeta.
  destruct (env_spawn env (trace st) lsblk_argv) as [c|e]; [|discriminate].
  intros [= _ <-]. apply List.Forall_forall. intros dev Hin.
  destruct (returncode c =? 0); [|destruct Hin].
  apply in_flat_map in Hin as (line & _ & Hin).
  exact (disk_of_line_words _ _ Hin).
Qed.

Lemma split_from_rstrip (s : string) :
  forall cur, PyStr.split_from cur (PyStr.rstrip s) = PyStr.split_from cur s.
Proof.
  unfold PyStr.rstrip. induction s as [|c s IH]; intros cur; [reflexivity|].
  cbn [PyStr.rstrip_by].
  destruct (PyStr.is_empty (PyStr.rstrip_by PyStr.is_space s)) eqn:E.
  - apply is_empty_true in E.
    destruct (PyStr.is_space c) eqn:Hc; cbn [andb].
    + cbn [PyStr.split_from]. rewrite Hc, <- (IH ""), E. reflexivity.
    + cbn [PyStr.split_from]. rewrite Hc. apply IH.
  - cbn [andb PyStr.split_from]. destruct (PyStr.is_space c); rewrite !IH; reflexivity.
Qed.

Lemma split_from_lstrip (s : string) :
  PyStr.split_from "" (PyStr.lstrip s) = PyStr.split_from "" s.
Proof.
  induction s as [|c s IH]; [reflexivity|]. cbn [PyStr.lstrip PyStr.split_from].
  destruct (PyStr.is_space c) eqn:Hc; [exact IH|].
  cbn [PyStr.split_from]. rewrite Hc. reflexivity.
Qed.

(** [strip] before [split] changes nothing. *)
Lemma split_strip (s : string) : PyStr.split (PyStr.strip s) = PyStr.split s.
Proof.
  unfold PyStr.split, PyStr.strip. rewrite split_from_rstrip. apply split_from_lstrip.
Qed.

Lemma split_from_word (w rest : string) :
  forall cur, space_free w = true ->
              PyStr.split_from cur (w ++ rest) = PyStr.split_from (cur ++ w) rest.
Proof.
  induction w as [|c w IH]; intros cur Hw.
  - rewrite str_nil_app.
    replace (cur ++ "") with cur; [reflexivity|].
    induction cur as [|x cur IHc]; [reflexivity|].
    rewrite str_cons_app, <- IHc. reflexivity.
  - rewrite str_cons_app. cbn [space_free] in Hw.
    apply andb_true_iff in Hw as [Hc Hw]. apply negb_true_iff in Hc.
    cbn [PyStr.split_from]. rewrite Hc, (IH _ Hw). unfold PyStr.snoc.
    rewrite str_app_assoc. reflexivity.
Qed.

Lemma split_from_blank (b rest : string) :
  blank b = true ->
  PyStr.split_from "" (b ++ rest) = PyStr.split_from "" rest.
Proof.
  intros Hb. induction b as [|c b IH]; [reflexivity|].
  rewrite str_cons_app. cbn [blank] in Hb.
  apply andb_true_iff in Hb as [Hc Hb]. cbn [PyStr.split_from].
  rewrite Hc. cbn. exact (IH Hb).
Qed.

Lemma split_from_gap (cur b rest : string) :
  cur <> "" -> b <> "" -> blank b = true ->
  PyStr.split_from cur (b ++ rest) = cur :: PyStr.split_from "" rest.
Proof.
  intros Hcur Hne Hb. destruct b as [|c b]; [contradiction|].
  rewrite str_cons_app. cbn [blank] in Hb.
  apply andb_true_iff in Hb as [Hc Hb]. cbn [PyStr.split_from].
  rewrite Hc, (is_empty_false _ Hcur). f_equal. apply split_from_blank, Hb.
Qed.

Lemma split_from_end (cur b : string) :
  cur <> "" -> blank b = true -> PyStr.split_from cur b = [cur].
Proof.
  intros Hcur Hb. destruct b as [|c b].
  - cbn. rewrite (is_empty_false _ Hcur). reflexivity.
  - pose proof (split_from_gap cur (String c b) "" Hcur ltac:(discriminate) Hb) as H.
    replace (String c b ++ "") with (String c b) in H; [exact H|].
    clear. generalize (String c b). induction s as [|x s IH]; [reflexivity|].
    rewrite str_cons_app, <- IH. reflexivity.
Qed.

(** X2. A line made of a name and a type, separated and surrounded by any
    white space, names a disk exactly when the type is ["disk"]. *)
Theorem disk_line_recognised (pad1 name gap type pad2 : string) :
  blank pad1 = true -> word name -> gap <> "" -> blank gap = true ->
  word type -> blank pad2 = true ->
  DiskMonitor.disk_of_line (pad1 ++ name ++ gap ++ type ++ pad2) =
  if String.eqb type "disk" then ["/dev/" ++ name] else [].
Proof.
  intros Hp1 [Hn Hnw] Hg Hgb [Ht Htw] Hp2. unfold DiskMonitor.disk_of_line.
  rewrite split_strip. unfold PyStr.split.
  rewrite split_from_blank by exact Hp1.
  rewrite split_from_word by exact Hnw. rewrite str_nil_app.
  rewrite split_from_gap by assumption.
  rewrite split_from_word by exact Htw. rewrite str_nil_app.
  rewrite split_from_end by assumption. reflexivity.
Qed.

Lemma disk_line_witness :
  DiskMonitor.disk_of_line "  nvme0n1    disk " = ["/dev/nvme0n1"].
Proof.
  apply (disk_line_recognised "  " "nvme0n1" "    " "disk" " ");
    first [reflexivity | discriminate | split; [discriminate|reflexivity]].
Defined.

Lemma listed_disks_witness :
  Forall (fun dev => exists name, dev = "/dev/" ++ name /\ word name)
         ["/dev/sda"].
Proof.
  eapply (listed_disks_are_dev_paths (Sample.all_fine false)
            (DiskMonitor.start Sample.disk)).
  vm_compute. reflexivity.
Defined.

(** ** Further properties of the functions *)

(** X3. The first usage query that fails with anything but a permission
    error ends the collection: its exception is raised as it is, whatever
    was collected before it and whatever follows. *)
Theorem collect_first_failure (pre post : list (sdiskpart * result sdiskusage))
        (p : sdiskpart) (e : exn) :
  (forall q e', In (q, Raise e') pre -> is_permission_error e') ->
  ~ is_permission_error e ->
  DiskMonitor.collect_from (pre ++ (p, Raise e) :: post) = Raise e.
Proof.
  intros Hpre He. induction pre as [|[q [u|e']] pre IH]; cbn.
  - destruct (decide (exn_cls e = PermissionError)); [contradiction|reflexivity].
  - rewrite IH; [reflexivity|]. intros q' e'' Hin. eapply Hpre. right. exact Hin.
  - destruct (decide (exn_cls e' = PermissionError)) as [_|Hn].
    + apply IH. intros q' e'' Hin. eapply Hpre. right. exact Hin.
    + elim Hn. eapply Hpre. left. reflexivity.
Qed.

Lemma collect_first_failure_witness :
  DiskMonitor.collect_from
    (Sample.mounts
     ++ [(MkPart "/dev/sdc1" "/mnt/usb" "vfat" "rw",
          Raise (Exn OtherException "[Errno 5] Input/output error: '/mnt/usb'"));
         (MkPart "/dev/sdd1" "/data" "ext4" "rw", Ok (MkUsage 10 1 9 (10 # 1)))])
  = Raise (Exn OtherException "[Errno 5] Input/output error: '/mnt/usb'").
Proof.
  apply (collect_first_failure Sample.mounts).
  - intros q e' [[=]|[[= <- <-]|[]]]. reflexivity.
  - discriminate.
Defined.

Lemma rstrip_slashes (dir : string) (n : nat) :
  PyStr.rstrip_char "/" (dir ++ slashes n) = PyStr.rstrip_char "/" dir.
Proof.
  induction n as [|n IH]; cbn [slashes].
  - replace (dir ++ "") with dir; [reflexivity|].
    induction dir as [|c dir IHd]; [reflexivity|].
    rewrite str_cons_app, <- IHd. reflexivity.
  - rewrite <- str_app_assoc. unfold PyStr.rstrip_char in *.
    rewrite rstrip_by_snoc by reflexivity. exact IH.
Qed.

(** X4. Separators at the end of the receive root do not matter: with any
    number of them appended, the delivery stage does the same, command
    lines, log records and notes included. *)
Theorem receive_dir_trailing_slashes (env : Env) (cfg : config)
        (dir hostname local_path : string) (n : nat) (st : State) :
  DiskMonitor.deliver env (with_receive_dir cfg (dir ++ slashes n))
                      hostname local_path st =
  DiskMonitor.deliver env (with_receive_dir cfg dir) hostname local_path st.
Proof.
  unfold DiskMonitor.deliver, with_receive_dir.
  cbn [monitoring_node_ip monitoring_node_user monitoring_node_receive_dir
       port keep_local_copy].
  destruct (monitoring_node_ip cfg); [|reflexivity].
  destruct (monitoring_node_user cfg); [|reflexivity].
  cbn [getitem]. unfold bind at 1 2 3. unfold bind at 5 6 7. unfold ret.
  rewrite rstrip_slashes. reflexivity.
Qed.

Lemma lacks_app (a : ascii) (s t : string) :
  lacks a (s ++ t) = lacks a s && lacks a t.
Proof.
  induction s as [|c s IH]; [reflexivity|].
  rewrite str_cons_app. cbn [lacks]. rewrite IH, andb_assoc. reflexivity.
Qed.

Lemma lacks_replace_char (a b : ascii) (s : string) :
  a <> b -> lacks a (PyStr.replace_char a b s) = true.
Proof.
  intros Hab. induction s as [|c s IH]; [reflexivity|].
  cbn [PyStr.replace_char lacks]. rewrite IH, andb_true_r.
  destruct (Ascii.eqb c a) eqn:E.
  - apply negb_true_iff, Ascii.eqb_neq. congruence.
  - rewrite E. reflexivity.
Qed.

Lemma length_replace_char (a b : ascii) (s : string) :
  String.length (PyStr.replace_char a b s) = String.length s.
Proof. induction s as [|c s IH]; [reflexivity|]. cbn. rewrite IH. reflexivity. Qed.

Lemma str_length_app (s t : string) :
  String.length (s ++ t) = (String.length s + String.length t)%nat.
Proof.
  induction s as [|c s IH]; [reflexivity|].
  rewrite str_cons_app. cbn. rewrite IH. reflexivity.
Qed.

(** X5. The name of the report file holds no colon unless the host name
    does: the colons of the timestamp become hyphens and nothing else
    changes, so the name is as long as host name, timestamp and the fixed
    parts together. *)
Theorem report_filename_has_no_colon (hostname : string) (p : payload) :
  lacks ":" hostname = true ->
  lacks ":" (DiskMonitor.report_filename hostname p) = true /\
  String.length (DiskMonitor.report_filename hostname p) =
  (String.length hostname + 1 + String.length (collected_at p) + 5)%nat.
Proof.
  intros Hh. unfold DiskMonitor.report_filename. split.
  - rewrite !lacks_app, Hh, lacks_replace_char by discriminate. reflexivity.
  - rewrite !str_length_app, length_replace_char. cbn. lia.
Qed.

Lemma report_filename_witness :
  lacks ":" (DiskMonitor.report_filename "node1"
               (MkPayload "2024-05-01T10:20:30.123456Z" "node1" [] [] []))
  = true.
Proof.
  apply (report_filename_has_no_colon "node1"). reflexivity.
Defined.

(** ** Properties of whole runs *)

Lemma main_end (json_dumps : payload -> string) (env : Env) (f : FS)
      (st : State) (code : Z) :
  DiskMonitor.main json_dumps env f = (st, code) ->
  exists r, run_end json_dumps env f st r /\ code = DiskMonitor.exit_status r.
Proof.
  intros H. apply main_run in H as (r & Hrun & ->).
  exists r. split; [exact (run_full _ _ _ _ _ Hrun)|reflexivity].
Qed.

Lemma probe_events_in (probes : list event) (ds : list string) (ev : event) :
  probe_events probes ds -> In ev probes ->
  exists d res, In d ds /\ ev = EvSpawn (smartctl_argv d) (Some 20) res.
Proof.
  intros H. induction H as [|x d probes ds (res & ->) _ IH]; intros Hin.
  - destruct Hin.
  - destruct Hin as [<-|Hin].
    + exists d, res. split; [left|]; reflexivity.
    + destruct (IH Hin) as (d' & res' & Hd & ->). exists d', res'.
      split; [right; exact Hd|reflexivity].
Qed.

Lemma probed_probes (probes : list event) (ds : list string) :
  probe_events probes ds -> probed probes = ds.
Proof.
  intros H. induction H as [|x d probes ds (res & ->) _ IH]; [reflexivity|].
  unfold probed in *. cbn. rewrite IH. reflexivity.
Qed.

Lemma probed_app (a b : list event) : probed (a ++ b) = (probed a ++ probed b)%list.
Proof. apply flat_map_app. Qed.

Lemma probed_delivery (monitor_port : Z) (user ip subdir local_path : string)
      (d : delivery) :
  probed (delivery_trace (DiskMonitor.mkdir_cmd monitor_port user ip subdir)
            (DiskMonitor.scp_cmd monitor_port user ip subdir local_path) d) = [].
Proof. destruct d; reflexivity. Qed.

Lemma after_delivery_in (env : Env) (local_path text : string) (f : FS)
      (tr : list event) (d : delivery) (ev : event) :
  In ev (out_events (after_delivery env local_path text f tr d)) ->
  ev = EvRemove local_path \/
  (exists dest, ev = EvMakedirs dest) \/
  (exists target, ev = EvCopy local_path target).
Proof.
  destruct (after_delivery_events env local_path text f tr d)
    as [-> | [-> | [dest [-> | [target ->]]]]];
    cbn; intuition eauto.
Qed.

Lemma probed_kept (env : Env) (local_path text : string) (f : FS)
      (tr : list event) (d : delivery) :
  probed (out_events (after_delivery env local_path text f tr d)) = [].
Proof.
  destruct (after_delivery_events env local_path text f tr d)
    as [-> | [-> | [dest [-> | [target ->]]]]];
    reflexivity.
Qed.

(** The listing is spawned at most once: a completed listing found in the
    trace of a run is the one of its collection phase. *)
Lemma run_end_listing (json_dumps : payload -> string) (env : Env) (f : FS)
      (st : State) (r : result unit) (t : option Z) (c : completed) :
  run_end json_dumps env f st r ->
  In (EvSpawn lsblk_argv t (Ok c)) (trace st) ->
  exists lp probes p0 rest,
    collection env lp c probes p0 /\
    trace st = (collection_trace lp c probes ++ rest)%list /\
    probed rest = [] /\
    exists p, mem_payload st = Some p /\ smart p = smart p0 /\
              exists later, notes p = (notes p0 ++ later)%list /\
                            (later = [] \/ later = ["remote_mkdir_failed"]
                             \/ later = ["scp_failed"]).
Proof.
  intros Hend Hin.
  assert (Hc : forall lp c' probes ds (rest : list event),
             probe_events probes ds ->
             In (EvSpawn lsblk_argv t (Ok c)) (collection_trace lp c' probes) ->
             c = c').
  { intros lp c' probes ds rest Hp H. unfold collection_trace in H.
    destruct H as [[=]|[[= _ <-]|H]]; [reflexivity|].
    destruct (probe_events_in _ _ _ Hp H) as (d & res & _ & [=]). }
  destruct Hend; inline_lets; cbn [trace mem_payload] in *.
  - destruct Hin.
  - destruct Hin.
  - in_cases Hin; discriminate.
  - in_cases Hin; discriminate.
  - pose proof H as Hcoll. destruct H as (_ & _ & _ & _ & Hp & _).
    pose proof (Hc _ _ _ _ [] Hp Hin) as ->.
    exists lp, probes, p0, []. split; [exact Hcoll|].
    rewrite app_nil_r. split; [reflexivity|]. split; [reflexivity|].
    exists p0. repeat split. exists []. rewrite app_nil_r. tauto.
  - pose proof H as Hcoll. destruct H as (_ & _ & _ & _ & Hp & _).
    apply in_app_or in Hin as [Hin|Hin]; [|in_cases Hin; discriminate].
    pose proof (Hc _ _ _ _ [] Hp Hin) as ->.
    eexists lp, probes, p0, _. split; [exact Hcoll|].
    split; [reflexivity|]. split; [reflexivity|].
    exists p0. repeat split. exists []. rewrite app_nil_r. tauto.
  - pose proof H as Hcoll. destruct H as (_ & _ & _ & _ & Hp & _).
    apply in_app_or in Hin as [Hin|Hin]; [|in_cases Hin; discriminate].
    pose proof (Hc _ _ _ _ [] Hp Hin) as ->.
    eexists lp, probes, p0, _. split; [exact Hcoll|].
    split; [reflexivity|]. split; [reflexivity|].
    exists p0. repeat split. exists []. rewrite app_nil_r. tauto.
  - pose proof H as Hcoll. destruct H as (_ & _ & _ & _ & Hp & _).
    rewrite <- !app_assoc in Hin |- *.
    apply in_app_or in Hin as [Hin|Hin].
    2: { exfalso. in_cases Hin; try discriminate.
         - destruct d; cbn [delivery_trace] in Hin; in_cases Hin; discriminate.
         - apply after_delivery_in in Hin as [E|[[? E]|[? E]]]; discriminate. }
    pose proof (Hc _ _ _ _ [] Hp Hin) as ->.
    eexists lp, probes, p0, _. split; [exact Hcoll|].
    split; [reflexivity|]. split.
    { rewrite !probed_app, probed_delivery, probed_kept. reflexivity. }
    eexists. split; [reflexivity|]. split; [reflexivity|].
    exists (delivery_notes d). split; [reflexivity|]. destruct d; cbn; tauto.
Qed.

(** X6. In every run whose listing completed, the disks probed are
    exactly the listed ones, once each and in listing order, and the report
    in memory holds one health result per listed disk in the same order. The
    note on missing disks is recorded exactly when none was listed. *)
Theorem probes_follow_listing (json_dumps : payload -> string) (env : Env)
        (f : FS) (st : State) (code : Z) (t : option Z) (c : completed) :
  DiskMonitor.main json_dumps env f = (st, code) ->
  In (EvSpawn lsblk_argv t (Ok c)) (trace st) ->
  probed (trace st) = listed_disks c /\
  exists p, mem_payload st = Some p /\
            map Spec.device_of (smart p) = listed_disks c /\
            (In no_disks_note (notes p) <-> listed_disks c = []).
Proof.
  intros Hmain Hin. apply main_end in Hmain as (r & Hend & _).
  destruct (run_end_listing _ _ _ _ _ _ _ Hend Hin)
    as (lp & probes & p0 & rest & Hcoll & Htr & Hrest & p & Hp & Hsm & later & Hn & Hl).
  destruct Hcoll as (_ & _ & _ & _ & Hprobes & _ & _ & _ & Hdev & Hnotes).
  split.
  - rewrite Htr, probed_app, Hrest, app_nil_r. unfold collection_trace.
    cbn. apply probed_probes, Hprobes.
  - exists p. split; [exact Hp|]. rewrite Hsm. split; [exact Hdev|].
    rewrite Hn, Hnotes. destruct (listed_disks c); cbn.
    + split; [reflexivity|]. intros _. left. reflexivity.
    + split; [|discriminate]. intros Hi. exfalso.
      destruct Hl as [->|[->| ->]]; cbn in Hi; intuition discriminate.
Qed.

Lemma probes_follow_listing_witness :
  probed (trace (fst (DiskMonitor.main Sample.dumps Cases.two_disks Sample.disk)))
  = ["/dev/sda"; "/dev/sdb"].
Proof.
  pose (run := DiskMonitor.main Sample.dumps Cases.two_disks Sample.disk).
  refine (proj1 (probes_follow_listing Sample.dumps Cases.two_disks Sample.disk
                   (fst run) (snd run) None
                   (Completed 0 ("sda disk" ++ Sample.lf ++ "sdb disk" ++ Sample.lf) "")
                   _ _)).
  - apply surjective_pairing.
  - vm_compute. find_event.
Defined.

(** X7. A run spawns nothing but the listing, the probe, ssh and scp, and
    only the probe is bounded in time (by 20 seconds). *)
Theorem every_spawn_is_known (json_dumps : payload -> string) (env : Env)
        (f : FS) (st : State) (code : Z) (argv : list string) (t : option Z)
        (res : result completed) :
  DiskMonitor.main json_dumps env f = (st, code) ->
  In (EvSpawn argv t res) (trace st) ->
  argv = lsblk_argv /\ t = None \/
  (exists d, argv = smartctl_argv d /\ t = Some 20) \/
  (exists args, (argv = "ssh" :: args \/ argv = "scp" :: args) /\ t = None).
Proof.
  intros Hmain Hin. apply main_end in Hmain as (r & Hend & _).
  destruct Hend; inline_lets; unfold DiskMonitor.start in *; cbn [trace] in Hin;
    try match goal with H : collection _ _ _ _ _ |- _ =>
          destruct H as (_ & _ & _ & _ & Hprobes & _) end;
    unfold collection_trace in Hin; in_cases Hin; try discriminate;
    try match goal with H : In _ ?l, Hp : probe_events ?l _ |- _ =>
          destruct (probe_events_in _ _ _ Hp H) as (dv & rs & _ & E)
        end;
    try match goal with H : In _ (out_events (after_delivery _ _ _ _ _ _)) |- _ =>
          apply after_delivery_in in H as [E|[[? E]|[? E]]]; discriminate
        end;
    try match goal with H : In _ (delivery_trace _ _ ?d) |- _ =>
          destruct d; cbn [delivery_trace] in H; in_cases H
        end;
    match goal with E : _ = EvSpawn _ _ _ |- _ => injection E as E1 E2 E3; subst end;
    first [ left; split; reflexivity
          | right; left; eexists; split; reflexivity
          | right; right; eexists; split; [left; reflexivity | reflexivity]
          | right; right; eexists; split; [right; reflexivity | reflexivity] ].
Qed.

Lemma every_spawn_witness :
  exists d, ["smartctl"; "-H"; "/dev/sda"] = smartctl_argv d /\
            Some 20 = Some 20.
Proof.
  pose (run := DiskMonitor.main Sample.dumps (Sample.all_fine false) Sample.disk).
  destruct (every_spawn_is_known Sample.dumps (Sample.all_fine false) Sample.disk
              (fst run) (snd run) ["smartctl"; "-H"; "/dev/sda"] (Some 20)
              Sample.smart_passed)
    as [[H _]|[H|(args & [H|H] & _)]].
  - apply surjective_pairing.
  - vm_compute. find_event.
  - discriminate H.
  - exact H.
  - discriminate H.
  - discriminate H.
Defined.



Lemma finished_not_in_delivery_log (subdir : string) (d : delivery) :
  ~ In (INFO, "Run finished.") (delivery_log subdir d).
Proof.
  destruct d; cbn [delivery_log]; intros H; in_cases H;
    injection H as H; rewrite ?str_cons_app in H; discriminate H.
Qed.

(** X9. The exit status and the log agree: a run that exits with status
    0 has ["Run finished."] as its last record, and a run that exits with
    status 1, the only other status, has no such record. *)
Theorem exit_status_and_log (json_dumps : payload -> string) (env : Env)
        (f : FS) (st : State) (code : Z) :
  DiskMonitor.main json_dumps env f = (st, code) ->
  code = 0 /\ (exists earlier, log st = (earlier ++ [(INFO, "Run finished.")])%list)
  \/ code = 1 /\ ~ In (INFO, "Run finished.") (log st).
Proof.
  intros Hmain. apply main_end in Hmain as (r & Hend & ->).
  end_cases Hend;
    try (right; split; [reflexivity|]; unfold starting, wrote_record;
         intros Hin; in_cases Hin; injection Hin as Hin;
         rewrite ?str_cons_app in Hin; discriminate Hin).
  match goal with |- context [out_result ?k] => destruct (out_result k) as [[]|e] end;
    cbn [finished DiskMonitor.exit_status].
  - left. split; [reflexivity|]. eexists. rewrite app_assoc. reflexivity.
  - right. split; [reflexivity|]. rewrite app_nil_r.
    unfold starting, wrote_record. intros Hin. in_cases Hin;
      try (injection Hin as Hin; rewrite ?str_cons_app in Hin; discriminate Hin).
    exact (finished_not_in_delivery_log _ _ Hin).
Qed.

Lemma exit_status_and_log_witness :
  ~ In (INFO, "Run finished.")
       (log (fst (DiskMonitor.main Sample.dumps Sample.no_scp Sample.disk))).
Proof.
  pose (run := DiskMonitor.main Sample.dumps Sample.no_scp Sample.disk).
  destruct (exit_status_and_log Sample.dumps Sample.no_scp Sample.disk
              (fst run) (snd run)) as [[H _]|[_ H]].
  - apply surjective_pairing.
  - vm_compute in H. discriminate H.
  - exact H.
Defined.



(** ** Runs that end early *)

(** X11. A config without ["log_path"] ends the run at once: [KeyError]
    leaves [run] before anything was logged, spawned or created, and the
    process exits with status 1. *)
Theorem missing_log_path_aborts_at_once (json_dumps : payload -> string)
        (env : Env) (f : FS) :
  log_path (env_config env) = None ->
  DiskMonitor.run json_dumps env (DiskMonitor.start f)
  = (DiskMonitor.start f, Raise (Exn KeyError "'log_path'")) /\
  DiskMonitor.main json_dumps env f = (DiskMonitor.start f, 1).
Proof.
  intros H.
  assert (Hrun : DiskMonitor.run json_dumps env (DiskMonitor.start f)
                 = (DiskMonitor.start f, Raise (Exn KeyError "'log_path'"))).
  { unfold DiskMonitor.run. erewrite bind_ok by reflexivity. rewrite H.
    reflexivity. }
  split; [exact Hrun|]. unfold DiskMonitor.main. rewrite Hrun. reflexivity.
Qed.

Lemma missing_log_path_witness :
  DiskMonitor.main Sample.dumps Cases.no_log_path Sample.disk
  = (DiskMonitor.start Sample.disk, 1).
Proof.
  apply (missing_log_path_aborts_at_once Sample.dumps Cases.no_log_path).
  reflexivity.
Defined.

(** X12. A log path without a directory part, such as ["disk.log"], ends
    the run at once as well: [os.makedirs] is called on the empty path and
    raises [FileNotFoundError], before anything was logged, spawned or
    created, and the process exits with status 1. *)
Theorem bare_log_path_aborts_at_once (json_dumps : payload -> string)
        (env : Env) (f : FS) (lp : string) :
  log_path (env_config env) = Some lp ->
  slash_free lp = true ->
  DiskMonitor.run json_dumps env (DiskMonitor.start f)
  = (DiskMonitor.start f,
     Raise (Exn FileNotFoundError "[Errno 2] No such file or directory: ''")) /\
  DiskMonitor.main json_dumps env f = (DiskMonitor.start f, 1).
Proof.
  intros Hlp Hfree.
  assert (Hdir : PyPath.dirname lp = "")
    by (unfold PyPath.dirname; rewrite (split_last_slash_free _ Hfree);
        reflexivity).
  assert (Hrun : DiskMonitor.run json_dumps env (DiskMonitor.start f)
                 = (DiskMonitor.start f, Raise (Os.enoent ""))).
  { unfold DiskMonitor.run. erewrite bind_ok by reflexivity. rewrite Hlp.
    erewrite bind_ok by reflexivity. unfold Utils.setup_logger.
    erewrite bind_raise; [reflexivity|].
    rewrite makedirs_eq, Hdir. reflexivity. }
  split; [exact Hrun|]. unfold DiskMonitor.main. rewrite Hrun. reflexivity.
Qed.

Lemma bare_log_path_witness :
  DiskMonitor.main Sample.dumps Cases.bare_log_path Sample.disk
  = (DiskMonitor.start Sample.disk, 1).
Proof.
  apply (bare_log_path_aborts_at_once Sample.dumps Cases.bare_log_path
           Sample.disk "disk.log"); reflexivity.
Defined.



(** X14. The keys of the monitoring node are read after the report was
    written. When one of them is missing, [KeyError] for the first missing
    key leaves [run] right after the rename: neither ssh nor scp is
    spawned, nothing is done with the report but removing the staging
    directory, and the process exits with status 1. *)
Theorem missing_key_aborts_after_write (json_dumps : payload -> string)
        (env : Env) (f : FS) (st : State) (code : Z)
        (key tmp local_path : string) :
  DiskMonitor.main json_dumps env f = (st, code) ->
  missing_key (env_config env) = Some key ->
  In (EvReplace tmp local_path) (trace st) ->
  DiskMonitor.run json_dumps env (DiskMonitor.start f)
  = (st, Raise (Exn KeyError ("'" ++ key ++ "'"))) /\
  code = 1 /\
  (forall prog res, prog = "ssh" \/ prog = "scp" ->
                    ~ spawned prog res (trace st)) /\
  (exists before tmpdir,
     trace st = (before ++ [EvReplace tmp local_path; EvRmtree tmpdir])%list /\
     In (EvMkdtemp tmpdir) before) /\
  (exists earlier,
     log st = (earlier ++ [(INFO, "Wrote payload to " ++ local_path)%string])%list).
Proof.
  intros Hmain Hkey Hin. apply main_run in Hmain as (r & Hrun & ->).
  pose proof (run_full _ _ _ _ _ Hrun) as Hend.
  end_cases Hend;
    try match goal with H : collection _ _ _ _ _ |- _ =>
          destruct H as (_ & _ & _ & _ & Hprobes & _) end;
    unfold collection_trace in *; rewrite <- ?app_assoc in *;
    try (in_cases Hin; try discriminate;
         match goal with H : In _ ?l, Hp : probe_events ?l _ |- _ =>
           destruct (probe_events_in _ _ _ Hp H) as (dv & rs & _ & E);
           discriminate
         end).
  - assert (key0 = key) as -> by congruence.
    in_cases Hin; try discriminate;
      try match goal with H : In _ ?l, Hp : probe_events ?l _ |- _ =>
            destruct (probe_events_in _ _ _ Hp H) as (dv & rs & _ & E);
            discriminate
          end.
    injection Hin as <- <-.
    split; [exact Hrun|]. split; [reflexivity|]. split; [|split].
    + intros prog res Hprog (args & t & Hsp). cbn [app] in Hsp.
      in_cases Hsp; try discriminate.
      * unfold lsblk_argv in Hsp. injection Hsp as E _ _ _. subst prog.
        destruct Hprog; discriminate.
      * destruct (probe_events_in _ _ _ Hprobes Hsp) as (dv & rs & _ & E).
        unfold smartctl_argv in E. injection E as E _ _ _. subst prog.
        destruct Hprog; discriminate.
    + eexists (_ :: _ :: probes ++ [_; _])%list, tmpdir. split.
      * cbn [app]. rewrite <- app_assoc. reflexivity.
      * do 2 right. apply in_or_app. right. left. reflexivity.
    + exists [starting env]. reflexivity.
  - exfalso. unfold missing_key in Hkey.
    repeat match goal with H : _ (env_config env) = Some _ |- _ =>
      rewrite H in Hkey; clear H end.
    discriminate Hkey.
Qed.

Lemma missing_key_witness :
  snd (DiskMonitor.main Sample.dumps Cases.no_ip Sample.disk) = 1.
Proof.
  pose (run := DiskMonitor.main Sample.dumps Cases.no_ip Sample.disk).
  refine (proj1 (proj2 (missing_key_aborts_after_write Sample.dumps Cases.no_ip
            Sample.disk (fst run) (snd run) "monitoring_node_ip"
            "/tmp/client_disk_k3x9q2ab/node1_2024-05-01T10-20-30.123456Z.json.tmp"
            "/tmp/client_disk_k3x9q2ab/node1_2024-05-01T10-20-30.123456Z.json"
            _ _ _))).
  - apply surjective_pairing.
  - reflexivity.
  - vm_compute. find_event.
Defined.

(** ** The kept copy *)


Lemma cleaned_lookup (d : string) (f : FS) (q : string) :
  files (cleaned d f) !! q = if Os.under d q then None else files f !! q.
Proof.
  unfold cleaned. cbn [files]. destruct (Os.under d q) eqn:E.
  - apply map_lookup_filter_None. right. intros c _. cbn. congruence.
  - destruct (files f !! q) as [c|] eqn:Hq.
    + apply map_lookup_filter_Some. split; [exact Hq|exact E].
    + apply map_lookup_filter_None. left. exact Hq.
Qed.

(** X15. With [keep_local_copy], a run that exits with status 0 leaves a
    copy of the report in the archive directory below the home directory:
    the copy was made from the staged file, nothing was removed but the
    staging directory, and the copy holds exactly the text that was
    written, whatever delivery did (unless the archive lies inside the
    staging directory, in which case it went with it). *)
Theorem kept_copy_is_the_report (json_dumps : payload -> string) (env : Env)
        (f : FS) (st : State) (tmp text : string) :
  DiskMonitor.main json_dumps env f = (st, 0) ->
  default false (keep_local_copy (env_config env)) = true ->
  In (EvOpenWrite tmp text) (trace st) ->
  exists tmpdir local_path target,
    tmp = local_path ++ ".tmp" /\
    In (EvMkdtemp tmpdir) (trace st) /\
    In (EvCopy local_path target) (trace st) /\
    (forall p, ~ In (EvRemove p) (trace st)) /\
    (let dst :=
       PyPath.join (PyPath.expanduser (env_home env) "~/client_node/sent_payloads")
                   (PyPath.basename local_path) in
     target = dst \/ target = PyPath.join dst (PyPath.basename local_path)) /\
    files (fs st) !! target = if Os.under tmpdir target then None else Some text.
Proof.
  intros Hmain Hkeep Hin. apply main_end in Hmain as (r & Hend & Hcode).
  end_cases Hend; try discriminate Hcode.
  match goal with H : collection _ _ _ _ _ |- _ =>
    destruct H as (_ & _ & _ & _ & Hprobes & _) end.
  unfold after_delivery, retained in *. rewrite Hkeep in *.
  destruct (delivery_result d) as [[]|e];
    [|cbn [out_result] in Hcode; discriminate Hcode].
  repeat match type of Hcode with context [env_refuses ?e ?t ?c] =>
    destruct (env_refuses e t c);
      [cbn [out_result] in Hcode; discriminate Hcode|] end.
  cbn [out_fs out_events out_result] in *.
  unfold collection_trace in *. rewrite <- ?app_assoc in *.
  set (local := PyPath.join tmpdir
                  (DiskMonitor.report_filename (env_hostname env) p0)) in *.
  set (dest := PyPath.expanduser (env_home env) "~/client_node/sent_payloads")
    in *.
  match goal with |- context [EvCopy local ?t] => set (target := t) in * end.
  assert (Hw : tmp = local ++ ".tmp" /\ text = json_dumps p0).
  { in_cases Hin; try discriminate;
      try match goal with H : In _ ?l, Hp : probe_events ?l _ |- _ =>
            destruct (probe_events_in _ _ _ Hp H) as (dv & rs & _ & E);
            discriminate
          end;
      try match goal with H : In _ (delivery_trace _ _ ?d) |- _ =>
            destruct d; cbn [delivery_trace] in H; in_cases H; discriminate
          end.
    injection Hin as <- <-. split; reflexivity. }
  destruct Hw as [-> ->]. exists tmpdir, local, target.
  split; [reflexivity|]. split.
  { find_in. }
  split.
  { find_in. }
  split.
  { intros p H. in_cases H; try discriminate;
      try match goal with H : In _ ?l, Hp : probe_events ?l _ |- _ =>
            destruct (probe_events_in _ _ _ Hp H) as (dv & rs & _ & E);
            discriminate
          end.
    destruct d; cbn [delivery_trace] in H; in_cases H; discriminate. }
  split.
  { cbv zeta. unfold target. destruct (bool_decide _); [right|left]; reflexivity. }
  rewrite cleaned_lookup. cbn [files].
  destruct (Os.under tmpdir target); [reflexivity|]. apply lookup_insert_eq.
Qed.

Lemma kept_copy_witness :
  let st := fst (DiskMonitor.main Sample.dumps (Sample.all_fine true)
                                  Sample.disk) in
  exists tmpdir local_path target,
    In (EvCopy local_path target) (trace st) /\
    files (fs st) !! target
    = if Os.under tmpdir target then None
      else Some "node1 2024-05-01T10:20:30.123456Z notes:".
Proof.
  intros st.
  destruct (kept_copy_is_the_report Sample.dumps (Sample.all_fine true)
              Sample.disk st
              "/tmp/client_disk_k3x9q2ab/node1_2024-05-01T10-20-30.123456Z.json.tmp"
              "node1 2024-05-01T10:20:30.123456Z notes:")
    as (tmpdir & lp & target & _ & _ & Hcopy & _ & _ & Hfile).
  - vm_compute. reflexivity.
  - reflexivity.
  - vm_compute. find_event.
  - exists tmpdir, lp, target. split; [exact Hcopy | exact Hfile].
Defined.

(** ** What the notes say about delivery *)

Lemma collection_notes (env : Env) (lp : string) (c : completed)
      (probes : list event) (p0 : payload) (n : string) :
  collection env lp c probes p0 -> In n (notes p0) -> n = no_disks_note.
Proof.
  intros (_ & _ & _ & _ & _ & _ & _ & _ & _ & Hn). rewrite Hn.
  destruct (listed_disks c); intros H;
    [destruct H as [<-|[]]; reflexivity | destruct H].
Qed.

Lemma collection_spawns (lp : string) (c : completed) (probes : list event)
      (ds : list string) (prog : string) (res : result completed) :
  probe_events probes ds ->
  spawned prog res (collection_trace lp c probes) ->
  prog = "lsblk" \/ prog = "smartctl".
Proof.
  intros Hp (args & t & Hin). unfold collection_trace in Hin.
  destruct Hin as [[=]|[[= <- _ _ _]|Hin]]; [left; reflexivity|].
  destruct (probe_events_in _ _ _ Hp Hin) as (d & rs & _ & [= -> _ _ _]).
  right. reflexivity.
Qed.

(** the notes of the delivery stage, read off its spawns *)
Lemma delivery_notes_spec (monitor_port : Z) (user ip subdir local_path : string)
      (d : delivery) :
  delivery_consistent d ->
  let tr := delivery_trace (DiskMonitor.mkdir_cmd monitor_port user ip subdir)
              (DiskMonitor.scp_cmd monitor_port user ip subdir local_path) d in
  (In "remote_mkdir_failed" (delivery_notes d) <->
   exists mk, spawned "ssh" (Ok mk) tr /\ returncode mk <> 0) /\
  (In "scp_failed" (delivery_notes d) <->
   exists c, spawned "scp" (Ok c) tr /\ returncode c <> 0).
Proof.
  intros Hc. cbv zeta. unfold spawned, DiskMonitor.mkdir_cmd, DiskMonitor.scp_cmd.
  destruct d; cbn [delivery_notes delivery_trace delivery_consistent] in *;
    (split;
     (split;
      [ intros Hin; in_cases Hin; try discriminate;
        eexists; (split; [eexists _, _; find_in | tauto])
      | intros (x & (args & t & Hin) & Hx); in_cases Hin; try discriminate;
        injection Hin as ? ? ?; subst; first [left; reflexivity | tauto] ])).
Qed.

(** ssh and scp are spawned in the delivery stage of a run only *)
Lemma delivery_spawns (lp : string) (c : completed) (probes : list event)
      (ds : list string) (b dtr k : list event) (tmpdir prog : string)
      (res : result completed) :
  probe_events probes ds -> prog = "ssh" \/ prog = "scp" ->
  (forall args t r, ~ In (EvSpawn args t r) b) ->
  (forall args t r, ~ In (EvSpawn args t r) k) ->
  spawned prog res ((collection_trace lp c probes ++ b ++ dtr)
                    ++ k ++ [EvRmtree tmpdir])%list
  <-> spawned prog res dtr.
Proof.
  intros Hprobes Hprog Hb Hk. split.
  - intros H. apply spawned_app in H as [H|H].
    + apply spawned_app in H as [H|H].
      * apply (collection_spawns _ _ _ _ _ _ Hprobes) in H.
        destruct Hprog as [->| ->], H; discriminate.
      * apply spawned_app in H as [H|H]; [|exact H].
        destruct H as (args & t & H). elim (Hb _ _ _ H).
    + destruct H as (args & t & H). apply in_app_or in H as [H|H].
      * elim (Hk _ _ _ H).
      * in_cases H; discriminate.
  - intros H. apply spawned_app. left. apply spawned_app. right.
    apply spawned_app. right. exact H.
Qed.

(** X16. The notes on delivery are truthful: the report in memory holds
    ["remote_mkdir_failed"] exactly when ssh was spawned and exited
    non-zero, and ["scp_failed"] exactly when scp was spawned and exited
    non-zero. *)
Theorem delivery_notes_are_truthful (json_dumps : payload -> string)
        (env : Env) (f : FS) (st : State) (code : Z) (p : payload) :
  DiskMonitor.main json_dumps env f = (st, code) ->
  mem_payload st = Some p ->
  (In "remote_mkdir_failed" (notes p) <->
   exists mk, spawned "ssh" (Ok mk) (trace st) /\ returncode mk <> 0) /\
  (In "scp_failed" (notes p) <->
   exists c, spawned "scp" (Ok c) (trace st) /\ returncode c <> 0).
Proof.
  intros Hmain Hp. apply main_end in Hmain as (r & Hend & _).
  assert (Hearly : forall lp c probes p0 (rest : list event),
            collection env lp c probes p0 ->
            (forall args t res, ~ In (EvSpawn args t res) rest) ->
            (In "remote_mkdir_failed" (notes p0) <->
             exists mk, spawned "ssh" (Ok mk) (collection_trace lp c probes ++ rest)
                        /\ returncode mk <> 0) /\
            (In "scp_failed" (notes p0) <->
             exists x, spawned "scp" (Ok x) (collection_trace lp c probes ++ rest)
                       /\ returncode x <> 0)).
  { intros lp c probes p0 rest Hcoll Hrest.
    pose proof Hcoll as (_ & _ & _ & _ & Hprobes & _).
    split; (split;
      [ intros Hn; apply (collection_notes _ _ _ _ _ _ Hcoll) in Hn; discriminate Hn
      | intros (x & Hsp & _); exfalso; apply spawned_app in Hsp as [Hsp|Hsp];
        [ apply (collection_spawns _ _ _ _ _ _ Hprobes) in Hsp;
          destruct Hsp; discriminate
        | destruct Hsp as (args & t & Hin); exact (Hrest _ _ _ Hin) ] ]). }
  end_cases Hend; try discriminate Hp.
  - injection Hp as <-. cbn [notes].
    split; (split; [intros []|
      intros (x & (args & t & Hin) & _); in_cases Hin; discriminate]).
  - injection Hp as <-. rewrite <- (app_nil_r (collection_trace _ _ _)).
    apply Hearly; [assumption|]. intros args t res [].
  - injection Hp as <-. apply Hearly; [assumption|].
    intros args t res Hin. in_cases Hin; discriminate.
  - injection Hp as <-. apply Hearly; [assumption|].
    intros args t res Hin. in_cases Hin; discriminate.
  - injection Hp as <-. cbn [with_more_notes notes].
    match goal with H : collection _ _ _ _ _ |- _ =>
      pose proof H as Hcoll; destruct H as (_ & _ & _ & _ & Hprobes & _) end.
    match goal with Hc : delivery_consistent d |- _ =>
      pose proof (delivery_notes_spec (default 22 (port (env_config env)))
                    user ip (remote_subdir_of dir (env_hostname env))
                    (PyPath.join tmpdir
                       (DiskMonitor.report_filename (env_hostname env) p0))
                    d Hc) as [Hmk Hscp]
    end.
    set (dtr := delivery_trace _ _ d) in *.
    match goal with
    | |- context [((collection_trace _ _ _ ++ ?b ++ dtr) ++ ?k ++ _)%list] =>
        assert (Hb : forall args t r, ~ In (EvSpawn args t r) b)
          by (intros args t r0 H; in_cases H; discriminate);
        assert (Hk : forall args t r, ~ In (EvSpawn args t r) k)
          by (intros args t r0 H;
              apply after_delivery_in in H as [E|[[? E]|[? E]]]; discriminate);
        pose proof (fun prog res Hprog =>
                      delivery_spawns lp c probes _ b dtr k tmpdir prog res
                                      Hprobes Hprog Hb Hk) as Hsp
    end.
    split.
    + rewrite in_app_iff, Hmk. split.
      * intros [Hn|(mk & Hs & Hrc)].
        -- apply (collection_notes _ _ _ _ _ _ Hcoll) in Hn. discriminate Hn.
        -- exists mk. split; [apply Hsp; [left; reflexivity|exact Hs]|exact Hrc].
      * intros (mk & Hs & Hrc). right. exists mk.
        split; [apply Hsp in Hs; [exact Hs|left; reflexivity]|exact Hrc].
    + rewrite in_app_iff, Hscp. split.
      * intros [Hn|(x & Hs & Hrc)].
        -- apply (collection_notes _ _ _ _ _ _ Hcoll) in Hn. discriminate Hn.
        -- exists x. split; [apply Hsp; [right; reflexivity|exact Hs]|exact Hrc].
      * intros (x & Hs & Hrc). right. exists x.
        split; [apply Hsp in Hs; [exact Hs|right; reflexivity]|exact Hrc].
Qed.

Lemma delivery_notes_witness :
  exists c,
    spawned "scp" (Ok c)
      (trace (fst (DiskMonitor.main Sample.dumps (Sample.scp_fails false)
                                    Sample.disk))) /\
    returncode c <> 0.
Proof.
  pose (run := DiskMonitor.main Sample.dumps (Sample.scp_fails false) Sample.disk).
  refine (proj1 (proj2 (delivery_notes_are_truthful Sample.dumps
            (Sample.scp_fails false) Sample.disk (fst run) (snd run)
            (MkPayload "2024-05-01T10:20:30.123456Z" "node1"
               (answered Sample.mounts)
               [SmartRan "/dev/sda" 0
                  ("SMART overall-health self-assessment test result: PASSED"
                   ++ Sample.lf) "" "OK"]
               ["scp_failed"]) _ _)) _).
  - apply surjective_pairing.
  - vm_compute. reflexivity.
  - left. reflexivity.
Defined.

(** ** What a successful run has done *)

(** a delivery stage that raised nothing spawned ssh, which completed, and
    then scp, which completed, unless ssh exited non-zero *)
Lemma delivery_ok_spec (monitor_port : Z) (user ip subdir local_path : string)
      (d : delivery) :
  delivery_consistent d -> delivery_result d = Ok tt ->
  let tr := delivery_trace (DiskMonitor.mkdir_cmd monitor_port user ip subdir)
              (DiskMonitor.scp_cmd monitor_port user ip subdir local_path) d in
  exists mk, spawned "ssh" (Ok mk) tr /\
             (returncode mk = 0 -> exists c, spawned "scp" (Ok c) tr).
Proof.
  intros Hc Hd. cbv zeta. unfold spawned, DiskMonitor.mkdir_cmd, DiskMonitor.scp_cmd.
  destruct d; try discriminate Hd;
    cbn [delivery_trace delivery_consistent] in *;
    exists mk; (split; [eexists _, _; left; reflexivity|]); intros Hrc;
    first [contradiction | eexists _, _, _; right; left; reflexivity].
Qed.

(** X17. A run cannot exit with status 0 without having gone through every
    stage: it created a staging directory, wrote and renamed the report,
    spawned ssh, which completed, spawned scp, which completed, unless ssh
    exited non-zero, then copied the staged file (with [keep_local_copy]) or
    removed it, and removed the staging directory last. *)
Theorem success_means_every_stage_ran (json_dumps : payload -> string)
        (env : Env) (f : FS) (st : State) :
  DiskMonitor.main json_dumps env f = (st, 0) ->
  exists tmpdir tmp local_path text mk,
    In (EvMkdtemp tmpdir) (trace st) /\
    In (EvOpenWrite tmp text) (trace st) /\
    In (EvReplace tmp local_path) (trace st) /\
    spawned "ssh" (Ok mk) (trace st) /\
    (returncode mk = 0 -> exists c, spawned "scp" (Ok c) (trace st)) /\
    (if default false (keep_local_copy (env_config env))
     then exists target, In (EvCopy local_path target) (trace st)
     else In (EvRemove local_path) (trace st)) /\
    last (trace st) = Some (EvRmtree tmpdir).
Proof.
  intros Hmain. apply main_end in Hmain as (r & Hend & Hcode).
  end_cases Hend; try discriminate Hcode.
  match goal with H : collection _ _ _ _ _ |- _ =>
    destruct H as (_ & _ & _ & _ & Hprobes & _) end.
  assert (Hd : delivery_result d = Ok tt).
  { unfold after_delivery in Hcode.
    destruct (delivery_result d) as [[]|e]; [reflexivity|discriminate Hcode]. }
  set (local := PyPath.join tmpdir
                  (DiskMonitor.report_filename (env_hostname env) p0)) in *.
  match goal with Hc : delivery_consistent d |- _ =>
    destruct (delivery_ok_spec (default 22 (port (env_config env))) user ip
                (remote_subdir_of dir (env_hostname env)) local d Hc Hd)
      as (mk & Hmk & Hscp)
  end.
  set (dtr := delivery_trace _ _ d) in *.
  match goal with
  | |- context [((collection_trace _ _ _ ++ ?b ++ dtr) ++ ?k ++ _)%list] =>
      assert (Hb : forall args t r, ~ In (EvSpawn args t r) b)
        by (intros args t r0 H; in_cases H; discriminate);
      assert (Hk : forall args t r, ~ In (EvSpawn args t r) k)
        by (intros args t r0 H;
            apply after_delivery_in in H as [E|[[? E]|[? E]]]; discriminate);
      pose proof (fun prog res Hprog =>
                    delivery_spawns lp c probes _ b dtr k tmpdir prog res
                                    Hprobes Hprog Hb Hk) as Hsp
  end.
  eexists tmpdir, _, local, _, mk.
  split; [unfold collection_trace; rewrite <- ?app_assoc; find_in|].
  split; [unfold collection_trace; rewrite <- ?app_assoc; find_in|].
  split; [unfold collection_trace; rewrite <- ?app_assoc; find_in|].
  split; [apply Hsp; [left; reflexivity|exact Hmk]|].
  split.
  { intros Hrc. destruct (Hscp Hrc) as (c0 & Hc0). exists c0.
    apply Hsp; [right; reflexivity|exact Hc0]. }
  split.
  { clear Hsp Hk. unfold after_delivery, retained in *. rewrite Hd in *.
    destruct (default false (keep_local_copy (env_config env)));
      repeat match type of Hcode with context [env_refuses ?e ?t ?c] =>
        destruct (env_refuses e t c);
          [cbn [out_result] in Hcode; discriminate Hcode|] end;
      cbn [out_events]; unfold collection_trace; rewrite <- ?app_assoc;
      [eexists; find_in | find_in]. }
  rewrite !app_assoc. apply last_snoc.
Qed.

Lemma success_witness :
  let st := fst (DiskMonitor.main Sample.dumps Sample.mkdir_fails Sample.disk) in
  exists tmpdir, last (trace st) = Some (EvRmtree tmpdir).
Proof.
  intros st.
  destruct (success_means_every_stage_ran Sample.dumps Sample.mkdir_fails
              Sample.disk st)
    as (tmpdir & tmp & lp & text & mk & _ & _ & _ & _ & _ & _ & Hlast).
  - vm_compute. reflexivity.
  - exists tmpdir. exact Hlast.
Defined.
